(** * Level 2 unified trading system: order book, features, hidden orders, signal

    A shallow embedding of [level2_unified_system.py] and the properties
    its specification states about it.

    Conventions of the embedding.
    - Python numbers (prices, sizes, scores) are exact rationals [Q]; every
      comparison and arithmetic operation is the one the source writes, but
      carried out without binary rounding.  Numeric results are compared
      with [==].
    - Wall-clock reads ([datetime.now]) are explicit [Clock] arguments; a
      UTC instant is an integer number of microseconds.
    - A [dict] is an association list in insertion order; a
      [deque(maxlen=n)] is a list that drops its oldest entries.
    - A Python exception is a value [Raise e] of [result].
    - The feed is a list of events ([Feed], [Polling]); the calls into the
      broker library are answered by an oracle ([Connection.Broker]). *)

From Stdlib Require Import QArith Qabs Qminmax Qround ZArith List String Bool.
From Stdlib Require Import PeanoNat Lia Lqa SetoidList Sorted.
Import ListNotations.

Open Scope string_scope.
Open Scope list_scope.
Open Scope Q_scope.

(** ** Exceptions *)

Inductive exn : Type :=
| ZeroDivisionError
| IndexError.

Inductive result (A : Type) : Type :=
| Ok (a : A)
| Raise (e : exn).

Arguments Ok {A} a.
Arguments Raise {A} e.

Definition bind {A B : Type} (r : result A) (k : A -> result B) : result B :=
  match r with
  | Ok a => k a
  | Raise e => Raise e
  end.

Notation "x <- r ;; k" := (bind r (fun x => k))
  (at level 61, r at next level, right associativity).
Notation "' p <- r ;; k" := (bind r (fun x => match x with p => k end))
  (at level 61, p pattern, r at next level, right associativity).

(** ** Numbers *)

Definition Qltb (x y : Q) : bool := negb (Qle_bool y x).

(** [x / y] on Python numbers. *)
Definition py_div (x y : Q) : result Q :=
  if Qeq_bool y 0 then Raise ZeroDivisionError else Ok (x / y).

(** Nearest integer, ties to the even one. *)
Definition round_half_even (x : Q) : Z :=
  let f := Qfloor x in
  let r := x - inject_Z f in
  if Qltb r (1 # 2) then f
  else if Qltb (1 # 2) r then (f + 1)%Z
  else if Z.even f then f else (f + 1)%Z.

(** [round(x, ndigits)]: a number of hundredths for [ndigits = 2], of
    tenths for [ndigits = 1]. *)
Definition py_round (x : Q) (ndigits : nat) : Q :=
  let scale := Z.to_pos (10 ^ Z.of_nat ndigits) in
  Qmake (round_half_even (x * inject_Z (Zpos scale))) scale.

Definition py_sum (l : list Q) : Q := fold_left Qplus l 0.

(** [l[i]] for [i >= 0]. *)
Definition py_index (l : list Q) (i : nat) : result Q :=
  match nth_error l i with
  | Some x => Ok x
  | None => Raise IndexError
  end.

(** [np.mean] of a non-empty sequence. *)
Definition np_mean (l : list Q) : result Q :=
  py_div (py_sum l) (inject_Z (Z.of_nat (length l))).

(** ** Containers *)

(** [deque(maxlen).append]. *)
Definition deque_append {A : Type} (maxlen : nat) (d : list A) (x : A) : list A :=
  let d' := d ++ [x] in
  skipn (length d' - maxlen) d'.

(** [enumerate]. *)
Definition enumerate {A : Type} (l : list A) : list (nat * A) :=
  combine (seq 0 (length l)) l.

(** Stable insertion of [x] into a list sorted by [ltb]. *)
Fixpoint insert_by {A : Type} (ltb : A -> A -> bool) (x : A) (l : list A) : list A :=
  match l with
  | [] => [x]
  | y :: t => if ltb y x then y :: insert_by ltb x t else x :: y :: t
  end.

(** [sorted(l)] with the order [ltb]; [sorted(l, reverse=True)] is
    [py_sorted] with the flipped order. *)
Definition py_sorted {A : Type} (ltb : A -> A -> bool) (l : list A) : list A :=
  fold_right (insert_by ltb) [] l.

(** Order of [(price, size)] tuples. *)
Definition item_ltb (a b : Q * Q) : bool :=
  Qltb (fst a) (fst b) || (Qeq_bool (fst a) (fst b) && Qltb (snd a) (snd b)).

Definition item_gtb (a b : Q * Q) : bool := item_ltb b a.

(** ** Clock and market session *)

Inductive Session : Type := PREMARKET | REGULAR | AFTERHOURS | CLOSED.

Definition session_name (s : Session) : string :=
  match s with
  | PREMARKET => "PREMARKET"
  | REGULAR => "REGULAR"
  | AFTERHOURS => "AFTERHOURS"
  | CLOSED => "CLOSED"
  end.

(** One reading of the wall clock: the UTC instant in microseconds, and in
    US/Eastern the weekday (Monday is 0) and the second of the day. *)
Record Clock : Type := mkClock {
  utc_now : Z;
  et_weekday : nat;
  et_second : nat
}.

Definition time_of (h m : nat) : nat := (h * 3600 + m * 60)%nat.

Definition extended_session (s : Session) : bool :=
  match s with
  | PREMARKET | AFTERHOURS => true
  | _ => false
  end.

(** ** HiddenOrderDetector *)

Inductive TradeSide : Type := Buy | Sell.
Inductive BookSide : Type := Bid | Ask.
Inductive Strength : Type := HIGH | MEDIUM.
Inductive Sensitivity : Type := SensLow | SensMedium | SensHigh | SensOther.

Definition trade_side_eqb (a b : TradeSide) : bool :=
  match a, b with
  | Buy, Buy | Sell, Sell => true
  | _, _ => false
  end.

Definition book_side_eqb (a b : BookSide) : bool :=
  match a, b with
  | Bid, Bid | Ask, Ask => true
  | _, _ => false
  end.

Record Thresholds : Type := mkThresholds {
  volume_threshold : Q;
  price_movement_min : Q;
  refresh_count : nat;
  divergence_ratio : Q
}.

Record Trade : Type := mkTrade {
  t_price : Q;
  t_size : Q;
  t_side : TradeSide;
  t_timestamp : Z
}.

Record LevelSample : Type := mkSample {
  ls_timestamp : Z;
  ls_size : Q
}.

Record BookRecord : Type := mkBookRecord {
  br_timestamp : Z;
  br_bids : list (Q * Q);
  br_asks : list (Q * Q)
}.

Record HiddenFlag : Type := mkFlag {
  hf_strength : Strength;
  hf_volume : Q;
  hf_price_change : Q
}.

Record Iceberg : Type := mkIceberg {
  ice_price : Q;
  ice_side : BookSide;
  ice_avg_size : Q;
  ice_refills : nat;
  ice_strength : Strength
}.

Record Analysis : Type := mkAnalysis {
  an_buy_volume : Q;
  an_sell_volume : Q;
  an_price_change_pct : Q
}.

(** The dict [detect_hidden_orders] returns; [analysis = None] is the
    empty dict. *)
Record HiddenResults : Type := mkResults {
  hidden_buyer : option HiddenFlag;
  hidden_seller : option HiddenFlag;
  icebergs : list Iceberg;
  analysis : option Analysis
}.

Record VolumeMetrics : Type := mkVolume {
  buy_volume : Q;
  sell_volume : Q;
  net_volume : Q;
  buy_trades : nat;
  sell_trades : nat
}.

Module HiddenOrderDetector.

Record t : Type := mk {
  lookback_seconds : Z;
  sensitivity : Sensitivity;
  trades : list Trade;
  trade_timestamps : list Z;
  order_book_snapshots : list BookRecord;
  price_level_history : list ((BookSide * Q) * list LevelSample);
  price_history : list Q;
  timestamp_history : list Z;
  thresholds : Thresholds
}.

Definition _get_thresholds (s : Sensitivity) : Thresholds :=
  match s with
  | SensLow => mkThresholds 5.0 0.02 5 4.0
  | SensHigh => mkThresholds 2.0 0.01 2 2.0
  | SensMedium | SensOther => mkThresholds 3.0 0.015 3 3.0
  end.

Definition init (lookback : Z) (s : Sensitivity) : t :=
  mk lookback s [] [] [] [] [] [] (_get_thresholds s).

(** [HiddenOrderDetector()] *)
Definition default : t := init 60 SensMedium.

(** [timestamp] is the one the caller passes (the source defaults it to
    the clock); likewise below. *)
Definition add_trade (d : t) (price size : Q) (side : TradeSide) (timestamp : Z) : t :=
  mk (lookback_seconds d) (sensitivity d)
     (deque_append 1000 (trades d) (mkTrade price size side timestamp))
     (deque_append 1000 (trade_timestamps d) timestamp)
     (order_book_snapshots d) (price_level_history d)
     (price_history d) (timestamp_history d) (thresholds d).

Definition add_price_update (d : t) (price : Q) (timestamp : Z) : t :=
  mk (lookback_seconds d) (sensitivity d) (trades d) (trade_timestamps d)
     (order_book_snapshots d) (price_level_history d)
     (deque_append 200 (price_history d) price)
     (deque_append 200 (timestamp_history d) timestamp)
     (thresholds d).

Definition key_eqb (a b : BookSide * Q) : bool :=
  book_side_eqb (fst a) (fst b) && Qeq_bool (snd a) (snd b).

(** [price_level_history[key].append(sample)] on the
    [defaultdict(lambda: deque(maxlen=50))]. *)
Fixpoint history_append (h : list ((BookSide * Q) * list LevelSample))
         (key : BookSide * Q) (sample : LevelSample)
  : list ((BookSide * Q) * list LevelSample) :=
  match h with
  | [] => [(key, deque_append 50 [] sample)]
  | (k, samples) :: rest =>
      if key_eqb k key then (k, deque_append 50 samples sample) :: rest
      else (k, samples) :: history_append rest key sample
  end.

Definition add_order_book_snapshot (d : t) (bids asks : list (Q * Q)) (timestamp : Z) : t :=
  let snapshot := mkBookRecord timestamp bids asks in
  let h1 := fold_left (fun h ps => history_append h (Bid, fst ps) (mkSample timestamp (snd ps)))
                      bids (price_level_history d) in
  let h2 := fold_left (fun h ps => history_append h (Ask, fst ps) (mkSample timestamp (snd ps)))
                      asks h1 in
  mk (lookback_seconds d) (sensitivity d) (trades d) (trade_timestamps d)
     (deque_append 100 (order_book_snapshots d) snapshot) h2
     (price_history d) (timestamp_history d) (thresholds d).

Definition cutoff_time (clk : Clock) (seconds : Z) : Z :=
  (utc_now clk - seconds * 1000000)%Z.

Definition side_volume (side : TradeSide) (ts : list Trade) : Q :=
  py_sum (map t_size (filter (fun tr => trade_side_eqb (t_side tr) side) ts)).

Definition calculate_volume_metrics (clk : Clock) (d : t) (seconds : Z) : option VolumeMetrics :=
  match trades d with
  | [] => None
  | _ =>
      let cutoff := cutoff_time clk seconds in
      let recent_trades := filter (fun tr => (cutoff <=? t_timestamp tr)%Z) (trades d) in
      match recent_trades with
      | [] => None
      | _ =>
          let buy := side_volume Buy recent_trades in
          let sell := side_volume Sell recent_trades in
          Some (mkVolume buy sell (buy - sell)
                  (length (filter (fun tr => trade_side_eqb (t_side tr) Buy) recent_trades))
                  (length (filter (fun tr => trade_side_eqb (t_side tr) Sell) recent_trades)))
      end
  end.

(** [None] of the source is [Ok None]. *)
Definition calculate_price_change (clk : Clock) (d : t) (seconds : Z) : result (option Q) :=
  if (length (price_history d) <? 2)%nat then Ok None
  else
    let cutoff := cutoff_time clk seconds in
    let recent_indices :=
      map fst (filter (fun its => (cutoff <=? snd its)%Z) (enumerate (timestamp_history d))) in
    if (length recent_indices <? 2)%nat then Ok None
    else
      start_price <- py_index (price_history d) (hd 0%nat recent_indices) ;;
      end_price <- py_index (price_history d) (last recent_indices 0%nat) ;;
      change <- py_div (end_price - start_price) start_price ;;
      Ok (Some change).

(** The body of the inner loop of [detect_iceberg_orders]. *)
Definition refill_step (sizes : list Q) (refills i : nat) : nat :=
  if Qltb (nth i sizes 0) (nth (i - 1) sizes 0 * 0.5)
     && Qltb (nth (i - 1) sizes 0 * 0.8) (nth (i + 1) sizes 0)
  then (refills + 1)%nat else refills.

(** The inner loop: [for i in range(1, len(sizes) - 1)]. *)
Definition count_refills (sizes : list Q) : nat :=
  fold_left (refill_step sizes) (seq 1 (length sizes - 2)) 0%nat.

(** The body of the loop over the price levels. *)
Definition scan_level (d : t) (icebergs : list Iceberg)
           (entry : (BookSide * Q) * list LevelSample) : result (list Iceberg) :=
  let '((side, price), history) := entry in
  if (length history <? 5)%nat then Ok icebergs
  else
    let sizes := map ls_size history in
    let refills := count_refills sizes in
    if (refresh_count (thresholds d) <=? refills)%nat then
      avg_size <- np_mean sizes ;;
      Ok (icebergs ++ [mkIceberg price side avg_size refills
                         (if (5 <=? refills)%nat then HIGH else MEDIUM)])
    else Ok icebergs.

Definition detect_iceberg_orders (d : t) : result (list Iceberg) :=
  if (length (order_book_snapshots d) <? 5)%nat then Ok []
  else
    fold_left (fun acc entry => icebergs <- acc ;; scan_level d icebergs entry)
              (price_level_history d) (Ok []).

Definition empty_results : HiddenResults := mkResults None None [] None.

(** The two clock readings are those of [calculate_volume_metrics] and of
    [calculate_price_change]. *)
Definition detect_hidden_orders (clk_v clk_p : Clock) (d : t) : result HiddenResults :=
  if (length (trades d) <? 10)%nat || (length (price_history d) <? 10)%nat
  then Ok empty_results
  else
    let volume_metrics := calculate_volume_metrics clk_v d 30 in
    price_change <- calculate_price_change clk_p d 30 ;;
    let results :=
      match volume_metrics, price_change with
      | Some vm, Some pc =>
          let an := mkAnalysis (buy_volume vm) (sell_volume vm) (pc * 100) in
          let hb :=
            if Qltb (buy_volume vm * 1.5) (sell_volume vm) && Qltb (-0.005) pc
            then Some (mkFlag (if Qltb 0 pc then HIGH else MEDIUM) (sell_volume vm) pc)
            else None in
          let hs :=
            if Qltb (sell_volume vm * 1.5) (buy_volume vm) && Qltb pc 0.005
            then Some (mkFlag (if Qltb pc 0 then HIGH else MEDIUM) (buy_volume vm) pc)
            else None in
          mkResults hb hs [] (Some an)
      | _, _ => empty_results
      end in
    ice <- detect_iceberg_orders d ;;
    Ok (mkResults (hidden_buyer results) (hidden_seller results) ice (analysis results)).

End HiddenOrderDetector.

(** ** SignalGenerator *)

Inductive Direction : Type := BUY | SELL | NEUTRAL.

(** The reason strings, by format; the numbers are the ones formatted
    into the text. *)
Inductive Reason : Type :=
| NoData
| StrongBuyPressure (queue : Q)
| ModerateBuyPressure (queue : Q)
| StrongSellPressure (queue : Q)
| ModerateSellPressure (queue : Q)
| WeightedBuyImbalance (w : Q)
| WeightedSellImbalance (w : Q)
| WideSpread (bps : Q)
| NearSupport (level : Q)
| NearResistance (level : Q)
| HiddenBuyerDetected (s : Strength)
| HiddenSellerDetected (s : Strength)
| IcebergBuy (price : Q)
| IcebergSell (price : Q)
| SessionCaution (session : string).

(** The feature dict.  Every key is optional, as [dict.get] treats it;
    [generate_signal] takes [None] for a missing or empty dict. *)
Module Features.

Record t : Type := mk {
  timestamp : option Z;
  session : option string;
  microprice : option Q;
  mid_price : option Q;
  spread : option Q;
  spread_bps : option Q;
  total_bid_volume_5 : option Q;
  total_ask_volume_5 : option Q;
  volume_imbalance : option Q;
  weighted_bid_pressure : option Q;
  weighted_ask_pressure : option Q;
  weighted_imbalance : option Q;
  queue_imbalance : option Q;
  bid_depth_10 : option Q;
  ask_depth_10 : option Q;
  bid_levels : option nat;
  ask_levels : option nat;
  best_bid : option Q;
  best_ask : option Q;
  best_bid_size : option Q;
  best_ask_size : option Q;
  size_imbalance_top : option Q;
  (* bid_price_i, bid_size_i and ask_price_i, ask_size_i for i < 5 *)
  bid_top : list (Q * Q);
  ask_top : list (Q * Q);
  session_warning : option (option string)
}.

(** A dict holding none of the keys above but some other key. *)
Definition unrelated : t :=
  mk None None None None None None None None None None None None None
     None None None None None None None None None [] [] None.

End Features.

(** The dict [generate_signal] returns; the early return carries neither
    ['score'] nor ['price']. *)
Record SignalOut : Type := mkSignal {
  signal : Direction;
  confidence : Q;
  reasons : list Reason;
  score : option Q;
  price : option Q
}.

Definition get_default {A : Type} (o : option A) (default : A) : A :=
  match o with
  | Some a => a
  | None => default
  end.

(** [min(l, key=key)]: the first element with the least key. *)
Fixpoint py_min_by (key : Q -> Q) (l : list Q) (dflt : Q) : Q :=
  match l with
  | [] => dflt
  | [x] => x
  | x :: rest =>
      let m := py_min_by key rest dflt in
      if Qltb (key m) (key x) then m else x
  end.

Module SignalGenerator.

Record t : Type := mk {
  lookback_window : nat;
  price_history : list Q;
  feature_history : list Features.t;
  support_levels : list Q;
  resistance_levels : list Q
}.

Definition init (lookback : nat) : t := mk lookback [] [] [] [].

(** [SignalGenerator()] *)
Definition default : t := init 50.

Definition add_features (g : t) (features : Features.t) : t :=
  mk (lookback_window g)
     (match Features.microprice features with
      | Some m => deque_append (lookback_window g) (price_history g) m
      | None => price_history g
      end)
     (deque_append (lookback_window g) (feature_history g) features)
     (support_levels g) (resistance_levels g).

Definition _cluster_levels (levels : list Q) (tolerance : Q) : result (list Q) :=
  match levels with
  | [] => Ok []
  | _ =>
      let levels := py_sorted Qltb levels in
      ' (clusters, current_cluster) <-
        fold_left
          (fun acc level =>
             ' (clusters, current_cluster) <- acc ;;
             ratio <- py_div (Qabs (level - last current_cluster 0))
                             (last current_cluster 0) ;;
             if Qltb ratio tolerance then Ok (clusters, current_cluster ++ [level])
             else
               m <- np_mean current_cluster ;;
               Ok (clusters ++ [m], [level]))
          (tl levels) (Ok ([], [hd 0 levels])) ;;
      match current_cluster with
      | [] => Ok clusters
      | _ => m <- np_mean current_cluster ;; Ok (clusters ++ [m])
      end
  end.

Definition local_minimum (prices : list Q) (i : nat) : bool :=
  Qltb (nth i prices 0) (nth (i - 1) prices 0)
  && Qltb (nth i prices 0) (nth (i - 2) prices 0)
  && Qltb (nth i prices 0) (nth (i + 1) prices 0)
  && Qltb (nth i prices 0) (nth (i + 2) prices 0).

Definition local_maximum (prices : list Q) (i : nat) : bool :=
  Qltb (nth (i - 1) prices 0) (nth i prices 0)
  && Qltb (nth (i - 2) prices 0) (nth i prices 0)
  && Qltb (nth (i + 1) prices 0) (nth i prices 0)
  && Qltb (nth (i + 2) prices 0) (nth i prices 0).

Definition cluster_if_any (levels : list Q) : result (list Q) :=
  match levels with
  | [] => Ok []
  | _ => _cluster_levels levels 0.01
  end.

(** Returns the generator with its cached levels updated, and the pair
    [(support, resistance)]. *)
Definition find_support_resistance (g : t) : t * result (list Q * list Q) :=
  if (length (price_history g) <? 20)%nat then (g, Ok ([], []))
  else
    let prices := price_history g in
    let range := seq 2 (length prices - 4) in
    let support := map (fun i => nth i prices 0) (filter (local_minimum prices) range) in
    let resistance := map (fun i => nth i prices 0) (filter (local_maximum prices) range) in
    match cluster_if_any support with
    | Raise e => (g, Raise e)
    | Ok s =>
        let g1 := mk (lookback_window g) (price_history g) (feature_history g)
                     s (resistance_levels g) in
        match cluster_if_any resistance with
        | Raise e => (g1, Raise e)
        | Ok r =>
            (mk (lookback_window g) (price_history g) (feature_history g) s r,
             Ok (s, r))
        end
    end.

(** Rule 1 of [generate_signal]. *)
Definition queue_rule (queue_imb : Q) (st : Q * list Reason) : Q * list Reason :=
  let '(signal_score, reasons) := st in
  if Qltb 0.3 queue_imb then (signal_score + 3, reasons ++ [StrongBuyPressure queue_imb])
  else if Qltb 0.15 queue_imb then (signal_score + 1, reasons ++ [ModerateBuyPressure queue_imb])
  else if Qltb queue_imb (-0.3) then (signal_score - 3, reasons ++ [StrongSellPressure queue_imb])
  else if Qltb queue_imb (-0.15) then (signal_score - 1, reasons ++ [ModerateSellPressure queue_imb])
  else (signal_score, reasons).

(** Rule 2. *)
Definition weighted_rule (weighted_imb : Q) (st : Q * list Reason) : Q * list Reason :=
  let '(signal_score, reasons) := st in
  if Qltb 0.2 weighted_imb then (signal_score + 1, reasons ++ [WeightedBuyImbalance weighted_imb])
  else if Qltb weighted_imb (-0.2) then (signal_score - 1, reasons ++ [WeightedSellImbalance weighted_imb])
  else (signal_score, reasons).

(** Rule 3. *)
Definition spread_rule (spread_bps : Q) (st : Q * list Reason) : Q * list Reason :=
  let '(signal_score, reasons) := st in
  if Qltb 50 spread_bps then (signal_score * 0.7, reasons ++ [WideSpread spread_bps])
  else (signal_score, reasons).

(** Rule 4, on the levels [find_support_resistance] returned. *)
Definition level_rule (support resistance : list Q) (current_price : Q)
           (st : Q * list Reason) : result (Q * list Reason) :=
  match support, resistance with
  | _ :: _, _ :: _ =>
      let nearest_support := py_min_by (fun x => Qabs (x - current_price)) support 0 in
      let nearest_resistance := py_min_by (fun x => Qabs (x - current_price)) resistance 0 in
      ds <- py_div (Qabs (current_price - nearest_support)) current_price ;;
      let '(signal_score, reasons) := st in
      let st1 :=
        if Qltb ds 0.005 then (signal_score + 2, reasons ++ [NearSupport nearest_support])
        else (signal_score, reasons) in
      dr <- py_div (Qabs (current_price - nearest_resistance)) current_price ;;
      let '(signal_score, reasons) := st1 in
      Ok (if Qltb dr 0.005 then (signal_score - 2, reasons ++ [NearResistance nearest_resistance])
          else (signal_score, reasons))
  | _, _ => Ok st
  end.

Definition iceberg_step (st : Q * list Reason) (ice : Iceberg) : Q * list Reason :=
  let '(signal_score, reasons) := st in
  match ice_side ice with
  | Bid => (signal_score + 1, reasons ++ [IcebergBuy (ice_price ice)])
  | Ask => (signal_score - 1, reasons ++ [IcebergSell (ice_price ice)])
  end.

(** Rule 5. *)
Definition hidden_rule (hidden_order_results : option HiddenResults)
           (st : Q * list Reason) : Q * list Reason :=
  match hidden_order_results with
  | None => st
  | Some h =>
      let '(signal_score, reasons) := st in
      let st1 :=
        match hidden_buyer h with
        | Some hb => (signal_score + 2, reasons ++ [HiddenBuyerDetected (hf_strength hb)])
        | None => (signal_score, reasons)
        end in
      let '(signal_score, reasons) := st1 in
      let st2 :=
        match hidden_seller h with
        | Some hs => (signal_score - 2, reasons ++ [HiddenSellerDetected (hf_strength hs)])
        | None => (signal_score, reasons)
        end in
      fold_left iceberg_step (firstn 2 (icebergs h)) st2
  end.

(** Rule 6. *)
Definition session_rule (session : string) (st : Q * list Reason) : Q * list Reason :=
  let '(signal_score, reasons) := st in
  if String.eqb session "PREMARKET" || String.eqb session "AFTERHOURS"
  then (signal_score * 0.8, reasons ++ [SessionCaution session])
  else (signal_score, reasons).

(** The final mapping, with the rounding of the returned confidence. *)
Definition final_signal (signal_score : Q) : Direction * Q :=
  let '(signal, confidence) :=
    if Qle_bool 3 signal_score then (BUY, Qmin (signal_score / 8 * 100) 100)
    else if Qle_bool signal_score (-3) then (SELL, Qmin (Qabs signal_score / 8 * 100) 100)
    else (NEUTRAL, 30) in
  (signal, py_round confidence 1).

Definition no_data : SignalOut := mkSignal NEUTRAL 0 [NoData] None None.

Definition generate_signal (g : t) (features : option Features.t)
           (hidden_order_results : option HiddenResults) : t * result SignalOut :=
  match features with
  | None => (g, Ok no_data)
  | Some f =>
      let st := (0, []) in
      let current_price :=
        get_default (Features.microprice f) (get_default (Features.mid_price f) 0) in
      let st := queue_rule (get_default (Features.queue_imbalance f) 0) st in
      let st := weighted_rule (get_default (Features.weighted_imbalance f) 0) st in
      let st := spread_rule (get_default (Features.spread_bps f) 0) st in
      let '(g', levels) := find_support_resistance g in
      (g',
       ' (support, resistance) <- levels ;;
       st <- level_rule support resistance current_price st ;;
       let st := hidden_rule hidden_order_results st in
       let st := session_rule (get_default (Features.session f) "REGULAR") st in
       let '(signal_score, reasons) := st in
       let '(signal, confidence) := final_signal signal_score in
       Ok (mkSignal signal confidence reasons (Some signal_score) (Some current_price)))
  end.

End SignalGenerator.

(** ** UnifiedLevel2System *)

(** One row of the feed's depth arrays ([price], [size]). *)
Record DOMLevel : Type := mkLevel {
  dl_price : Q;
  dl_size : Q
}.

Record Ticker : Type := mkTicker {
  domBids : list DOMLevel;
  domAsks : list DOMLevel
}.

Record Tick : Type := mkTick {
  tick_price : Q;
  tick_size : Q;
  tick_time : Z
}.

Module Snapshot.

Record t : Type := mk {
  timestamp : Z;
  session : Session;
  bids : list (Q * Q);
  asks : list (Q * Q);
  best_bid : Q;
  best_ask : Q;
  spread : Q;
  bid_count : nat;
  ask_count : nat
}.

End Snapshot.

(** [price in d] on a dict keyed by price. *)
Definition dict_contains (price : Q) (d : list (Q * Q)) : bool :=
  existsb (fun ps => Qeq_bool (fst ps) price) d.

(** [d[price] += size] for a key that is present. *)
Fixpoint dict_add (price size : Q) (d : list (Q * Q)) : list (Q * Q) :=
  match d with
  | [] => []
  | (p, s) :: rest =>
      if Qeq_bool p price then (p, s + size) :: rest
      else (p, s) :: dict_add price size rest
  end.

(** What [get_trading_signal] returns: the signal with its ['features']
    and ['hidden_orders'] entries. *)
Record TradingSignal : Type := mkTrading {
  ts_signal : SignalOut;
  ts_features : Features.t;
  ts_hidden_orders : option HiddenResults
}.

Module UnifiedLevel2System.

Record t : Type := mk {
  max_history : nat;
  detect_hidden_orders : bool;
  order_book_history : list BookRecord;
  current_bids : list (Q * Q);
  current_asks : list (Q * Q);
  hidden_detector : option HiddenOrderDetector.t;
  signal_generator : SignalGenerator.t;
  last_price : option Q;
  last_trade_time : option Z
}.

Definition init (max_history : nat) (detect_hidden_orders : bool) : t :=
  mk max_history detect_hidden_orders [] [] []
     (if detect_hidden_orders then Some HiddenOrderDetector.default else None)
     SignalGenerator.default None None.

Definition get_market_session (clk : Clock) : Session :=
  let current_time := et_second clk in
  if (5 <=? et_weekday clk)%nat then CLOSED
  else if (current_time <? time_of 4 0)%nat then CLOSED
  else if (current_time <? time_of 9 30)%nat then PREMARKET
  else if (current_time <? time_of 16 0)%nat then REGULAR
  else if (current_time <? time_of 20 0)%nat then AFTERHOURS
  else CLOSED.

Definition _on_trade (sys : t) (tick : Tick) : t :=
  match detect_hidden_orders sys, hidden_detector sys with
  | true, Some d =>
      let side :=
        match last_price sys with
        | Some lp =>
            if Qltb lp (tick_price tick) then Buy
            else if Qltb (tick_price tick) lp then Sell
            else Buy
        | None => Buy
        end in
      let d1 := HiddenOrderDetector.add_trade d (tick_price tick) (tick_size tick)
                  side (tick_time tick) in
      let d2 := HiddenOrderDetector.add_price_update d1 (tick_price tick) (tick_time tick) in
      mk (max_history sys) (detect_hidden_orders sys) (order_book_history sys)
         (current_bids sys) (current_asks sys) (Some d2) (signal_generator sys)
         (Some (tick_price tick)) (Some (tick_time tick))
  | _, _ => sys
  end.

(** One pass of the aggregation loop over a side of the feed. *)
Definition aggregate_level (book : list (Q * Q)) (level : DOMLevel) : list (Q * Q) :=
  if Qltb 0 (dl_price level) && Qltb 0 (dl_size level) then
    let price := py_round (dl_price level) 2 in
    if dict_contains price book then dict_add price (dl_size level) book
    else book ++ [(price, dl_size level)]
  else book.

Definition aggregate (levels : list DOMLevel) : list (Q * Q) :=
  fold_left aggregate_level levels [].

Definition sorted_bids (book : list (Q * Q)) : list (Q * Q) :=
  firstn 20 (py_sorted item_gtb book).

Definition sorted_asks (book : list (Q * Q)) : list (Q * Q) :=
  firstn 20 (py_sorted item_ltb book).

Definition is_empty {A : Type} (l : list A) : bool :=
  match l with
  | [] => true
  | _ => false
  end.

(** The registered callbacks are observers outside this model. *)
Definition _on_ticker_update (clk : Clock) (sys : t) (ticker : Ticker) : t :=
  let timestamp := utc_now clk in
  let book_bids := aggregate (domBids ticker) in
  let book_asks := aggregate (domAsks ticker) in
  if negb (is_empty book_bids) && negb (is_empty book_asks) then
    let bids := sorted_bids book_bids in
    let asks := sorted_asks book_asks in
    let snapshot := mkBookRecord timestamp bids asks in
    mk (max_history sys) (detect_hidden_orders sys)
       (deque_append (max_history sys) (order_book_history sys) snapshot)
       book_bids book_asks
       (match hidden_detector sys with
        | Some d => Some (HiddenOrderDetector.add_order_book_snapshot d bids asks timestamp)
        | None => None
        end)
       (signal_generator sys) (last_price sys) (last_trade_time sys)
  else
    mk (max_history sys) (detect_hidden_orders sys) (order_book_history sys)
       book_bids book_asks (hidden_detector sys) (signal_generator sys)
       (last_price sys) (last_trade_time sys).

Definition get_current_snapshot (clk : Clock) (sys : t) : option Snapshot.t :=
  if is_empty (current_bids sys) || is_empty (current_asks sys) then None
  else
    let bids := sorted_bids (current_bids sys) in
    let asks := sorted_asks (current_asks sys) in
    match bids, asks with
    | (bid0, _) :: _, (ask0, _) :: _ =>
        Some (Snapshot.mk (utc_now clk) (get_market_session clk) bids asks
                bid0 ask0 (ask0 - bid0) (length bids) (length asks))
    | _, _ => None
    end.

Definition calculate_microprice (best_bid best_ask bid_size ask_size : Q) : result Q :=
  let total_size := bid_size + ask_size in
  if Qeq_bool total_size 0 then Ok ((best_bid + best_ask) / 2)
  else py_div (best_bid * ask_size + best_ask * bid_size) total_size.

(** [sum(size / (i + 1) for i, (_, size) in enumerate(side[:levels]))] *)
Definition pressure (side : list (Q * Q)) (levels : nat) : Q :=
  py_sum (map (fun e => snd (snd e) / inject_Z (Z.of_nat (fst e + 1)))
              (enumerate (firstn levels side))).

Definition calculate_queue_imbalance (clk : Clock) (bids asks : list (Q * Q))
           (levels : nat) : result Q :=
  if is_empty bids || is_empty asks then Ok 0
  else
    let session := get_market_session clk in
    let levels :=
      if extended_session session
      then Nat.min levels (Nat.min (length bids) (length asks))
      else levels in
    let bid_pressure := pressure bids levels in
    let ask_pressure := pressure asks levels in
    let total_pressure := bid_pressure + ask_pressure in
    if Qeq_bool total_pressure 0 then Ok 0
    else py_div (bid_pressure - ask_pressure) total_pressure.

(** [sum(size * (depth_5 + 1 - i) for i, (_, size) in enumerate(side[:depth_5]))] *)
Definition weighted_pressure (side : list (Q * Q)) (depth_5 : nat) : Q :=
  py_sum (map (fun e => snd (snd e) * inject_Z (Z.of_nat (depth_5 + 1 - fst e)))
              (enumerate (firstn depth_5 side))).

Definition volume (side : list (Q * Q)) (depth : nat) : Q :=
  py_sum (map snd (firstn depth side)).

(** [(a - b) / (a + b) if (a + b) > 0 else 0] *)
Definition guarded_imbalance (a b : Q) : Q :=
  if Qltb 0 (a + b) then (a - b) / (a + b) else 0.

(** [clk_s] is the clock read by [get_current_snapshot], [clk_q] the one
    read by [calculate_queue_imbalance]. *)
Definition get_order_book_features (clk_s clk_q : Clock) (sys : t)
  : result (option Features.t) :=
  match get_current_snapshot clk_s sys with
  | None => Ok None
  | Some snapshot =>
      let bids := Snapshot.bids snapshot in
      let asks := Snapshot.asks snapshot in
      let session := Snapshot.session snapshot in
      match bids, asks with
      | (best_bid, best_bid_size) :: _, (best_ask, best_ask_size) :: _ =>
          microprice <- calculate_microprice best_bid best_ask best_bid_size best_ask_size ;;
          let depth_5 := Nat.min 5 (Nat.min (length bids) (length asks)) in
          let depth_10 := Nat.min 10 (Nat.min (length bids) (length asks)) in
          let bid_volume_5 := volume bids depth_5 in
          let ask_volume_5 := volume asks depth_5 in
          let weighted_bid := weighted_pressure bids depth_5 in
          let weighted_ask := weighted_pressure asks depth_5 in
          queue_imbalance <- calculate_queue_imbalance clk_q bids asks depth_5 ;;
          spread_ratio <- py_div (Snapshot.spread snapshot) microprice ;;
          Ok (Some (Features.mk
            (Some (Snapshot.timestamp snapshot))
            (Some (session_name session))
            (Some microprice)
            (Some ((best_bid + best_ask) / 2))
            (Some (Snapshot.spread snapshot))
            (Some (spread_ratio * 10000))
            (Some bid_volume_5)
            (Some ask_volume_5)
            (Some (guarded_imbalance bid_volume_5 ask_volume_5))
            (Some weighted_bid)
            (Some weighted_ask)
            (Some (guarded_imbalance weighted_bid weighted_ask))
            (Some queue_imbalance)
            (Some (volume bids depth_10))
            (Some (volume asks depth_10))
            (Some (length bids))
            (Some (length asks))
            (Some best_bid)
            (Some best_ask)
            (Some best_bid_size)
            (Some best_ask_size)
            (Some (guarded_imbalance best_bid_size best_ask_size))
            (firstn 5 bids)
            (firstn 5 asks)
            (Some (match session with
                   | PREMARKET => Some "Premarket - Lower liquidity"
                   | AFTERHOURS => Some "After hours - Limited depth"
                   | CLOSED => Some "Market closed"
                   | REGULAR => None
                   end))))
      | _, _ => Ok None
      end
  end.

(** [clk_v] and [clk_p] are the clocks read by the hidden-order detector. *)
Definition get_trading_signal (clk_s clk_q clk_v clk_p : Clock) (sys : t)
  : t * result (option TradingSignal) :=
  match get_order_book_features clk_s clk_q sys with
  | Raise e => (sys, Raise e)
  | Ok None => (sys, Ok None)
  | Ok (Some features) =>
      let g1 := SignalGenerator.add_features (signal_generator sys) features in
      let with_generator g :=
        mk (max_history sys) (detect_hidden_orders sys) (order_book_history sys)
           (current_bids sys) (current_asks sys) (hidden_detector sys) g
           (last_price sys) (last_trade_time sys) in
      let hidden :=
        match hidden_detector sys with
        | Some d => h <- HiddenOrderDetector.detect_hidden_orders clk_v clk_p d ;; Ok (Some h)
        | None => Ok None
        end in
      match hidden with
      | Raise e => (with_generator g1, Raise e)
      | Ok hidden_results =>
          let '(g2, out) := SignalGenerator.generate_signal g1 (Some features) hidden_results in
          (with_generator g2,
           signal <- out ;; Ok (Some (mkTrading signal features hidden_results)))
      end
  end.

End UnifiedLevel2System.

(** * Reference definitions

    Quantities the properties below are stated with: projections of
    results, the rules as the specification words them, and the concrete
    states the examples run on. *)

Module Ref.
Import UnifiedLevel2System.

(** The value [calculate_queue_imbalance] computes when no narrowing of
    [levels] takes place. *)
Definition queue_imbalance_at (bids asks : list (Q * Q)) (levels : nat) : result Q :=
  if is_empty bids || is_empty asks then Ok 0
  else
    let total := pressure bids levels + pressure asks levels in
    if Qeq_bool total 0 then Ok 0
    else py_div (pressure bids levels - pressure asks levels) total.

(** The ['queue_imbalance'] entry of what [get_order_book_features] returns. *)
Definition queue_imbalance_of (r : result (option Features.t)) : result (option Q) :=
  match r with
  | Ok (Some f) => Ok (Features.queue_imbalance f)
  | Ok None => Ok None
  | Raise e => Raise e
  end.

(** The feed handler run over a sequence of depth batches, each with the
    clock it was received at. *)
Definition apply_updates (sys : UnifiedLevel2System.t) (batches : list (Clock * Ticker))
  : UnifiedLevel2System.t :=
  fold_left (fun s ct => _on_ticker_update (fst ct) s (snd ct)) batches sys.

(** No two levels of a side share a price. *)
Definition distinct_prices (side : list (Q * Q)) : Prop :=
  NoDupA Qeq (map fst side).

(** Every level of a side has a positive size. *)
Definition positive_sizes (side : list (Q * Q)) : Prop :=
  Forall (fun ps => 0 < snd ps) side.

(** A recorded depth snapshot has no two levels of a side at one price. *)
Definition record_distinct (r : BookRecord) : Prop :=
  distinct_prices (br_bids r) /\ distinct_prices (br_asks r).

(** The book contents of a snapshot: everything but the clock reading. *)
Definition book_of (o : option Snapshot.t)
  : option (list (Q * Q) * list (Q * Q) * Q * Q * Q * nat * nat) :=
  match o with
  | Some s => Some (Snapshot.bids s, Snapshot.asks s, Snapshot.best_bid s,
                    Snapshot.best_ask s, Snapshot.spread s,
                    Snapshot.bid_count s, Snapshot.ask_count s)
  | None => None
  end.

(** A scan of the size sequence with a 3-sample sliding window: the
    number of windows [(a, b, c)] that [refill a b c] accepts. *)
Fixpoint window_count (refill : Q -> Q -> Q -> bool) (sizes : list Q) : nat :=
  match sizes with
  | [] => 0%nat
  | a :: rest =>
      ((match rest with
        | b :: c :: _ => if refill a b c then 1 else 0
        | _ => 0
        end) + window_count refill rest)%nat
  end.

(** The refill test as the specification words it: the middle sample at
    most 50% of the preceding one, the following one at least 80% of it. *)
Definition refill_as_stated (a b c : Q) : bool :=
  Qle_bool b (a * 0.5) && Qle_bool (a * 0.8) c.

(** The refill test with both comparisons strict. *)
Definition refill_strict (a b c : Q) : bool :=
  Qltb b (a * 0.5) && Qltb (a * 0.8) c.

(** A sum over the levels of a side, the level of rank [rank], [rank + 1],
    ... weighted by [weight]. *)
Fixpoint ranked_sum (weight : nat -> Q) (rank : nat) (side : list (Q * Q)) : Q :=
  match side with
  | [] => 0
  | (_, size) :: rest => size * weight rank + ranked_sum weight (S rank) rest
  end.

(** The weights as the specification words them: rank 1 weighs [K],
    rank [K] weighs 1. *)
Definition weight_as_stated (K rank : nat) : Q :=
  inject_Z (Z.of_nat (K + 1 - rank)).

(** The weights one larger: rank 1 weighs [K + 1], rank [K] weighs 2. *)
Definition weight_shifted (K rank : nat) : Q :=
  inject_Z (Z.of_nat (K + 2 - rank)).

(** The weighted imbalance as the specification words it. *)
Definition weighted_imbalance_as_stated (bids asks : list (Q * Q)) : Q :=
  let K := Nat.min 5 (Nat.min (length bids) (length asks)) in
  let weighted_bid := ranked_sum (weight_as_stated K) 1 (firstn K bids) in
  let weighted_ask := ranked_sum (weight_as_stated K) 1 (firstn K asks) in
  if Qeq_bool weighted_bid 0 && Qeq_bool weighted_ask 0 then 0
  else (weighted_bid - weighted_ask) / (weighted_bid + weighted_ask).

(** The level [generate_signal] takes as nearest to the current price. *)
Definition nearest (levels : list Q) (current_price : Q) : Q :=
  py_min_by (fun x => Qabs (x - current_price)) levels 0.

(** The proximity test of [generate_signal]. *)
Definition within_half_percent (current_price level : Q) : Prop :=
  Qabs (current_price - level) / current_price < 0.005.

(** The stages of [generate_signal] around the support/resistance rule:
    the current price, the running score and reasons after rules 1 to 3,
    and the returned dict computed by rules 5 and 6 and the final mapping
    from the running score and reasons after rule 4. *)
Definition current_price_of (f : Features.t) : Q :=
  get_default (Features.microprice f) (get_default (Features.mid_price f) 0).

Definition before_levels (f : Features.t) : Q * list Reason :=
  SignalGenerator.spread_rule (get_default (Features.spread_bps f) 0)
    (SignalGenerator.weighted_rule (get_default (Features.weighted_imbalance f) 0)
       (SignalGenerator.queue_rule (get_default (Features.queue_imbalance f) 0) (0, []))).

Definition after_levels (f : Features.t) (h : option HiddenResults)
           (st : Q * list Reason) : SignalOut :=
  let st := SignalGenerator.session_rule (get_default (Features.session f) "REGULAR")
              (SignalGenerator.hidden_rule h st) in
  mkSignal (fst (SignalGenerator.final_signal (fst st)))
           (snd (SignalGenerator.final_signal (fst st)))
           (snd st) (Some (fst st)) (Some (current_price_of f)).

(** A feature dict with (at most) the keys the scorer reads. *)
Definition scorer_features (microprice queue_imbalance weighted_imbalance spread_bps : option Q)
           (session : option string) : Features.t :=
  Features.mk None session microprice None None spread_bps None None None None None
              weighted_imbalance queue_imbalance None None None None None None None None
              None [] [] None.

End Ref.

(** Concrete states and inputs. *)
Module Examples.
Import Ref.

(** A Monday, 10:00 US/Eastern. *)
Definition monday_10am : Clock := mkClock 1700000000000000 0 (time_of 10 0).

(** A Monday, 05:00 US/Eastern. *)
Definition monday_5am : Clock := mkClock 1700000000000000 0 (time_of 5 0).

(** A depth batch with colliding rounded prices and feed noise. *)
Definition noisy_batch : Ticker :=
  mkTicker
    [mkLevel 100.004 10; mkLevel 100.001 5; mkLevel 99.5 7; mkLevel 0 3; mkLevel 98 (-1)]
    [mkLevel 100.5 3; mkLevel 100.499 4; mkLevel 101 2].

Definition two_level_batch : Ticker :=
  mkTicker [mkLevel 100 10; mkLevel 99 20] [mkLevel 101 20; mkLevel 102 10].

Definition two_level_system : UnifiedLevel2System.t :=
  UnifiedLevel2System._on_ticker_update monday_10am
    (UnifiedLevel2System.init 1000 false) two_level_batch.

(** The features of that book, read in regular hours and with the queue
    imbalance computed in premarket hours. *)
Definition two_level_features : Features.t :=
  match UnifiedLevel2System.get_order_book_features monday_10am monday_5am
          two_level_system with
  | Ok (Some f) => f
  | _ => Features.unrelated
  end.

(** The sizes seen at one bid level over six depth snapshots. *)
Definition refill_sizes : list Q := [100; 40; 85; 90; 45; 95].

Definition refill_detector : HiddenOrderDetector.t :=
  fold_left
    (fun d size =>
       HiddenOrderDetector.add_order_book_snapshot d [(100, size)] [(101, 50)]
         (utc_now monday_10am))
    refill_sizes HiddenOrderDetector.default.

(** Ten trades inside the trailing 30 seconds: buy volume 10, sell volume
    20, and the price going from 1000 to 1001. *)
Definition absorbed_sells : list (Q * Q * TradeSide) :=
  [(1000, 2, Buy); (1000, 4, Sell); (1000, 2, Buy); (1000, 4, Sell); (1000, 2, Buy);
   (1000, 4, Sell); (1000, 2, Buy); (1000, 4, Sell); (1000, 2, Buy); (1001, 4, Sell)].

Definition absorbing_detector : HiddenOrderDetector.t :=
  fold_left
    (fun d tr =>
       let '(price, size, side) := tr in
       let at_time := (utc_now monday_10am - 1000000)%Z in
       HiddenOrderDetector.add_price_update
         (HiddenOrderDetector.add_trade d price size side at_time) price at_time)
    absorbed_sells HiddenOrderDetector.default.

(** Only two trades, with the same volumes and the same price change. *)
Definition sparse_detector : HiddenOrderDetector.t :=
  fold_left
    (fun d tr =>
       let '(price, size, side) := tr in
       let at_time := (utc_now monday_10am - 1000000)%Z in
       HiddenOrderDetector.add_price_update
         (HiddenOrderDetector.add_trade d price size side at_time) price at_time)
    [(1000, 10, Buy); (1001, 20, Sell)] HiddenOrderDetector.default.

(** The features of the specification's scoring example. *)
Definition buy_features : Features.t :=
  scorer_features None (Some 0.35) (Some 0.0) (Some 10) (Some "REGULAR").

(** Moderate buy pressure on a wide spread. *)
Definition wide_spread_features : Features.t :=
  scorer_features None (Some 0.2) None (Some 60) (Some "REGULAR").

Definition buyer_and_iceberg : HiddenResults :=
  mkResults (Some (mkFlag MEDIUM 20 0)) None [mkIceberg 100 Bid 75 3 MEDIUM] None.

(** What [generate_signal] returns for [wide_spread_features] with
    [buyer_and_iceberg]. *)
Definition wide_spread_signal : SignalOut :=
  mkSignal BUY 46.2
           [ModerateBuyPressure 0.2; WideSpread 60; HiddenBuyerDetected MEDIUM;
            IcebergBuy 100]
           (Some 3.7) (Some 0).

(** Twenty-one prices falling to a trough at 100 and rising again. *)
Definition v_shaped_prices : list Q :=
  [110; 109; 108; 107; 106; 105; 104; 103; 102; 101; 100;
   101; 102; 103; 104; 105; 106; 107; 108; 109; 110].

Definition v_shaped_generator : SignalGenerator.t :=
  SignalGenerator.mk 50 v_shaped_prices [] [] [].

(** A trough at 100 and a peak at 110. *)
Definition w_shaped_prices : list Q :=
  [104; 103; 102; 101; 100; 101; 102; 103; 104; 105; 106;
   107; 108; 109; 110; 109; 108; 107; 106; 105; 104].

Definition w_shaped_generator : SignalGenerator.t :=
  SignalGenerator.mk 50 w_shaped_prices [] [] [].

End Examples.

(** * The feed as a sequence of events

    What the connectivity layer delivers to the system: depth batches
    (with the clock at which each arrives) and trade ticks. *)

Module Feed.
Import UnifiedLevel2System.

Inductive Event : Type :=
| DepthUpdate (clk : Clock) (ticker : Ticker)
| TradeTick (tick : Tick).

Definition step (sys : UnifiedLevel2System.t) (ev : Event) : UnifiedLevel2System.t :=
  match ev with
  | DepthUpdate clk ticker => _on_ticker_update clk sys ticker
  | TradeTick tick => _on_trade sys tick
  end.

Definition run (sys : UnifiedLevel2System.t) (events : list Event) : UnifiedLevel2System.t :=
  fold_left step events sys.

(** The ticks of a sequence of events, in order. *)
Definition ticks_of (events : list Event) : list Tick :=
  flat_map (fun ev => match ev with TradeTick t => [t] | DepthUpdate _ _ => [] end) events.

(** Every rolling buffer of a detector is within its capacity. *)
Definition detector_bounded (d : HiddenOrderDetector.t) : Prop :=
  (length (HiddenOrderDetector.trades d) <= 1000)%nat /\
  (length (HiddenOrderDetector.trade_timestamps d) <= 1000)%nat /\
  (length (HiddenOrderDetector.price_history d) <= 200)%nat /\
  (length (HiddenOrderDetector.timestamp_history d) <= 200)%nat /\
  (length (HiddenOrderDetector.order_book_snapshots d) <= 100)%nat /\
  Forall (fun entry => (1 <= length (snd entry) <= 50)%nat)
         (HiddenOrderDetector.price_level_history d).

(** The paired buffers of a detector have equal lengths. *)
Definition detector_aligned (d : HiddenOrderDetector.t) : Prop :=
  length (HiddenOrderDetector.trades d)
  = length (HiddenOrderDetector.trade_timestamps d) /\
  length (HiddenOrderDetector.price_history d)
  = length (HiddenOrderDetector.timestamp_history d).

(** A property of the detector of a system, if it has one. *)
Definition on_detector (P : HiddenOrderDetector.t -> Prop) (sys : UnifiedLevel2System.t)
  : Prop :=
  match hidden_detector sys with
  | Some d => P d
  | None => True
  end.

End Feed.

(** * Reading the per-level histories *)

Module Levels.

(** [h[key]] on the [defaultdict]: the samples recorded under a key, none
    for a key never seen. *)
Definition lookup (h : list ((BookSide * Q) * list LevelSample)) (key : BookSide * Q)
  : list LevelSample :=
  match find (fun entry => HiddenOrderDetector.key_eqb (fst entry) key) h with
  | Some entry => snd entry
  | None => []
  end.

(** [d.price_level_history[(side, price)]] *)
Definition level_history (d : HiddenOrderDetector.t) (side : BookSide) (price : Q)
  : list LevelSample :=
  lookup (HiddenOrderDetector.price_level_history d) (side, price).

(** Two keys the dict does not tell apart. *)
Definition same_key (a b : BookSide * Q) : Prop := fst a = fst b /\ snd a == snd b.

(** All recorded sizes of all levels are positive. *)
Definition positive_histories (d : HiddenOrderDetector.t) : Prop :=
  Forall (fun entry => Forall (fun sample => 0 < ls_size sample) (snd entry))
         (HiddenOrderDetector.price_level_history d).

End Levels.

(** * What a reported iceberg stands for *)

Module Reports.

(** An iceberg report backed by a level the detector tracks. *)
Definition iceberg_sound (d : HiddenOrderDetector.t) (ice : Iceberg) : Prop :=
  exists history,
    In ((ice_side ice, ice_price ice), history) (HiddenOrderDetector.price_level_history d) /\
    (5 <= length history)%nat /\
    ice_refills ice = HiddenOrderDetector.count_refills (map ls_size history) /\
    (refresh_count (HiddenOrderDetector.thresholds d) <= ice_refills ice)%nat /\
    (2 * ice_refills ice + 1 <= length history)%nat /\
    (ice_strength ice = HIGH <-> (5 <= ice_refills ice)%nat) /\
    np_mean (map ls_size history) = Ok (ice_avg_size ice) /\
    0 < ice_avg_size ice.

End Reports.

(** * Sides of a book *)

Module Sides.

(** Every price of a side is non-negative. *)
Definition nonneg_prices (side : list (Q * Q)) : Prop :=
  Forall (fun ps => 0 <= fst ps) side.

(** The imbalance features of a feature dict that are present. *)
Definition imbalances (f : Features.t) : list (option Q) :=
  [Features.queue_imbalance f; Features.weighted_imbalance f;
   Features.volume_imbalance f; Features.size_imbalance_top f].

End Sides.

(** * Order of a snapshot's sides *)

Module Ladder.

(** Prices strictly falling from each level to every later one. *)
Definition descending (side : list (Q * Q)) : Prop :=
  StronglySorted (fun a b => fst b < fst a) side.

(** Prices strictly rising from each level to every later one. *)
Definition ascending (side : list (Q * Q)) : Prop :=
  StronglySorted (fun a b => fst a < fst b) side.

End Ladder.

(** * Aggregation of a side of the feed *)

Module Aggregation.

(** The levels the aggregation loop keeps:
    [level.price > 0 and level.size > 0]. *)
Definition valid_level (level : DOMLevel) : bool :=
  Qltb 0 (dl_price level) && Qltb 0 (dl_size level).

(** The book holds a level at [price] of size at least [size]. *)
Definition holds_level (book : list (Q * Q)) (price size : Q) : Prop :=
  exists p s, In (p, s) book /\ p == price /\ size <= s.

End Aggregation.

(** * Feature dicts that differ in one entry *)

Module Sessions.

(** The feature dict with its ['session'] entry replaced (or removed). *)
Definition with_session (f : Features.t) (session : option string) : Features.t :=
  Features.mk (Features.timestamp f) session (Features.microprice f)
    (Features.mid_price f) (Features.spread f) (Features.spread_bps f)
    (Features.total_bid_volume_5 f) (Features.total_ask_volume_5 f)
    (Features.volume_imbalance f) (Features.weighted_bid_pressure f)
    (Features.weighted_ask_pressure f) (Features.weighted_imbalance f)
    (Features.queue_imbalance f) (Features.bid_depth_10 f) (Features.ask_depth_10 f)
    (Features.bid_levels f) (Features.ask_levels f) (Features.best_bid f)
    (Features.best_ask f) (Features.best_bid_size f) (Features.best_ask_size f)
    (Features.size_imbalance_top f) (Features.bid_top f) (Features.ask_top f)
    (Features.session_warning f).

(** The sessions in which [generate_signal] scales the score down. *)
Definition cautious (session : string) : Prop :=
  session = "PREMARKET" \/ session = "AFTERHOURS".

End Sessions.

(** * Signal requests between feed events

    What the system goes through in use: the feed delivers depth batches
    and trade ticks, and in between the caller asks for a trading signal
    (each request reads the clock four times). *)

Module Polling.
Import UnifiedLevel2System.

Inductive Event : Type :=
| FeedEvent (ev : Feed.Event)
| SignalRequest (clk_s clk_q clk_v clk_p : Clock).

Definition step (sys : UnifiedLevel2System.t) (ev : Event) : UnifiedLevel2System.t :=
  match ev with
  | FeedEvent ev => Feed.step sys ev
  | SignalRequest clk_s clk_q clk_v clk_p =>
      fst (get_trading_signal clk_s clk_q clk_v clk_p sys)
  end.

Definition run (sys : UnifiedLevel2System.t) (events : list Event) : UnifiedLevel2System.t :=
  fold_left step events sys.

(** The feed events of a sequence, in order. *)
Definition feed_of (events : list Event) : list Feed.Event :=
  flat_map (fun ev => match ev with FeedEvent e => [e] | SignalRequest _ _ _ _ => [] end)
           events.

(** The system with its signal generator replaced. *)
Definition with_generator (sys : UnifiedLevel2System.t) (g : SignalGenerator.t)
  : UnifiedLevel2System.t :=
  mk (max_history sys) (detect_hidden_orders sys) (order_book_history sys)
     (current_bids sys) (current_asks sys) (hidden_detector sys) g
     (last_price sys) (last_trade_time sys).

(** The generator keeps the 50 prices and features of its default window,
    and every price it holds is positive. *)
Definition generator_sound (g : SignalGenerator.t) : Prop :=
  SignalGenerator.lookback_window g = 50%nat /\
  (length (SignalGenerator.price_history g) <= 50)%nat /\
  (length (SignalGenerator.feature_history g) <= 50)%nat /\
  Forall (fun p => 0 < p) (SignalGenerator.price_history g).

End Polling.

(** * A tape at one price *)

Module Tape.
Import HiddenOrderDetector.

(** The detector after [n] trade ticks, all at the price [p], of positive
    size and no older than the cutoffs [cutoff_v] and [cutoff_p]. *)
Definition flat_detector (p : Q) (cutoff_v cutoff_p : Z) (n : nat)
           (d : HiddenOrderDetector.t) : Prop :=
  Forall (fun tr => t_side tr = Buy /\ 0 < t_size tr /\ (cutoff_v <= t_timestamp tr)%Z)
         (trades d) /\
  Forall (fun q => q == p) (price_history d) /\
  Forall (fun ts => (cutoff_p <= ts)%Z) (timestamp_history d) /\
  length (trades d) = Nat.min n 1000 /\
  length (trade_timestamps d) = Nat.min n 1000 /\
  length (price_history d) = Nat.min n 200 /\
  length (timestamp_history d) = Nat.min n 200.

(** A tick of the flat tape. *)
Definition flat_tick (p : Q) (cutoff_v cutoff_p : Z) (t : Tick) : Prop :=
  tick_price t == p /\ 0 < tick_size t /\
  (cutoff_v <= tick_time t)%Z /\ (cutoff_p <= tick_time t)%Z.

(** The system after [n] ticks of the flat tape. *)
Definition flat_system (p : Q) (cutoff_v cutoff_p : Z) (n : nat)
           (sys : UnifiedLevel2System.t) : Prop :=
  UnifiedLevel2System.detect_hidden_orders sys = true /\
  match UnifiedLevel2System.last_price sys with
  | Some lp => lp == p
  | None => True
  end /\
  exists d, UnifiedLevel2System.hidden_detector sys = Some d /\
            flat_detector p cutoff_v cutoff_p n d.

End Tape.

(** * Connecting and subscribing

    The connection side of [UnifiedLevel2System].  The broker library is
    outside the program: what its calls do is given by a [Broker], which
    says for each call whether it returns or raises.  A call is identified
    by the number of [ib.connect] calls made before it. *)

Module Connection.

(** What happens in the [try] block of [connect] for one port:
    [ib.connect] raises; [ib.connect] returns and [ib.reqMarketDataType]
    raises; both return. *)
Inductive DialOutcome : Type := Refused | TypeRejected | Accepted.

Record Broker : Type := mkBroker {
  (* the [try] block of [connect], by dial count and port *)
  dial : nat -> Z -> DialOutcome;
  (* [ib.disconnect()] in [reconnect] returns *)
  hang_up : nat -> bool;
  (* [qualifyContracts], [reqMktDepth] and [updateEvent +=] return,
     by dial count, exchange and number of rows *)
  depth : nat -> string -> nat -> bool;
  (* [tickByTickAllLast +=] and [reqTickByTickData] return *)
  time_and_sales : nat -> string -> bool
}.

(** The connection fields of the system.  [contract] is the exchange of
    the contract, [ticker] the exchange and rows of the depth request it
    came from. *)
Record t : Type := mk {
  port : Z;
  use_extended_hours : bool;
  detect_hidden_orders : bool;
  exchange : string;
  contract : option string;
  ticker : option (string * nat);
  is_connected : bool;
  reconnect_attempts : nat;
  max_reconnect_attempts : nat
}.

(** The number of [ib.connect] calls made and the seconds slept so far. *)
Record World : Type := mkWorld {
  calls : nat;
  slept : nat
}.

Definition init (port : Z) (use_extended_hours detect_hidden_orders : bool)
           (exchange : string) : t :=
  mk port use_extended_hours detect_hidden_orders exchange None None false 0 5.

Definition sleep (w : World) (seconds : nat) : World :=
  mkWorld (calls w) (slept w + seconds).

Definition dialled (w : World) : World := mkWorld (S (calls w)) (slept w).

(** The assignments of [connect] after [ib.connect] returned. *)
Definition connected_on (c : t) (p : Z) : t :=
  mk p (use_extended_hours c) (detect_hidden_orders c) (exchange c) (contract c)
     (ticker c) true 0 (max_reconnect_attempts c).

Definition set_is_connected (c : t) (b : bool) : t :=
  mk (port c) (use_extended_hours c) (detect_hidden_orders c) (exchange c) (contract c)
     (ticker c) b (reconnect_attempts c) (max_reconnect_attempts c).

(** The loop of [connect] over the ports still to try. *)
Fixpoint try_ports (b : Broker) (c : t) (w : World) (ports : list Z) : t * World * bool :=
  match ports with
  | [] => (set_is_connected c false, w, false)
  | p :: rest =>
      match dial b (calls w) p with
      | Accepted => (connected_on c p, sleep (dialled w) 1, true)
      | TypeRejected => try_ports b (connected_on c p) (dialled w) rest
      | Refused => try_ports b c (dialled w) rest
      end
  end.

Definition ports_to_try (c : t) : list Z := [port c; 7497; 7496; 4002; 4001]%Z.

Definition connect (b : Broker) (c : t) (w : World) : t * World * bool :=
  try_ports b c w (ports_to_try c).

Definition get_best_exchanges_for_session (clk : Clock) : list string :=
  match UnifiedLevel2System.get_market_session clk with
  | PREMARKET => ["ISLAND"; "ARCA"; "EDGEA"; "BYX"; "BZX"; "SMART"]
  | AFTERHOURS => ["ISLAND"; "ARCA"; "EDGEA"; "SMART"]
  | REGULAR => ["ISLAND"; "SMART"; "ARCA"]
  | CLOSED => ["SMART"]
  end.

Definition set_contract (c : t) (e : string) : t :=
  mk (port c) (use_extended_hours c) (detect_hidden_orders c) (exchange c) (Some e)
     (ticker c) (is_connected c) (reconnect_attempts c) (max_reconnect_attempts c).

Definition set_ticker (c : t) (e : string) (rows : nat) : t :=
  mk (port c) (use_extended_hours c) (detect_hidden_orders c) (exchange c) (contract c)
     (Some (e, rows)) (is_connected c) (reconnect_attempts c) (max_reconnect_attempts c).

Definition set_exchange (c : t) (e : string) : t :=
  mk (port c) (use_extended_hours c) (detect_hidden_orders c) e (contract c)
     (ticker c) (is_connected c) (reconnect_attempts c) (max_reconnect_attempts c).

(** The loop of [subscribe_market_depth] over the exchanges still to try. *)
Fixpoint try_exchanges (b : Broker) (c : t) (w : World) (num_rows : nat)
         (exchanges : list string) : t * bool :=
  match exchanges with
  | [] => (c, false)
  | e :: rest =>
      let c := set_contract c e in
      if depth b (calls w) e num_rows then
        let c := set_ticker c e num_rows in
        if detect_hidden_orders c then
          if time_and_sales b (calls w) e then (set_exchange c e, true)
          else try_exchanges b c w num_rows rest
        else (set_exchange c e, true)
      else try_exchanges b c w num_rows rest
  end.

(** [clk_s] is the clock read for the session, [clk_e] the one read by
    [get_best_exchanges_for_session]. *)
Definition subscribe_market_depth (clk_s clk_e : Clock) (b : Broker) (c : t) (w : World)
           (num_rows : nat) : t * bool :=
  let session := UnifiedLevel2System.get_market_session clk_s in
  let num_rows :=
    match session with
    | PREMARKET | AFTERHOURS => Nat.min num_rows 10
    | _ => num_rows
    end in
  try_exchanges b c w num_rows (get_best_exchanges_for_session clk_e).

Definition set_reconnect_attempts (c : t) (n : nat) : t :=
  mk (port c) (use_extended_hours c) (detect_hidden_orders c) (exchange c) (contract c)
     (ticker c) (is_connected c) n (max_reconnect_attempts c).

(** [reconnect]; every turn of its [while] loop takes one unit of
    [fuel], and [None] is a loop still running when the fuel is spent. *)
Fixpoint reconnect (fuel : nat) (clk_s clk_e : Clock) (b : Broker) (c : t) (w : World)
  : option (t * World * bool) :=
  match fuel with
  | O => None
  | S fuel =>
      if (reconnect_attempts c <? max_reconnect_attempts c)%nat then
        let c := set_reconnect_attempts c (reconnect_attempts c + 1) in
        let wait_time := Nat.min (5 * 2 ^ (reconnect_attempts c - 1)) 60 in
        let w := sleep w wait_time in
        let w := if hang_up b (calls w) then sleep w 2 else w in
        let '(c, w, connected) := connect b c w in
        if connected then
          let c :=
            match contract c with
            | Some _ => fst (subscribe_market_depth clk_s clk_e b c w 20)
            | None => c
            end in
          Some (c, w, true)
        else reconnect fuel clk_s clk_e b c w
      else Some (c, w, false)
  end.

(** No [try] block of [connect] fails after [ib.connect] returned. *)
Definition settles (b : Broker) : Prop :=
  forall n p, dial b n p <> TypeRejected.

(** The seconds [reconnect] may sleep in [rounds] turns of its loop, the
    first of them with [attempts] attempts already made. *)
Fixpoint backoff (rounds attempts : nat) : nat :=
  match rounds with
  | O => 0
  | S rounds => Nat.min (5 * 2 ^ attempts) 60 + 2 + backoff rounds (S attempts)
  end.

(** The rows [subscribe_market_depth] asks for. *)
Definition rows_requested (clk_s : Clock) (num_rows : nat) : nat :=
  if extended_session (UnifiedLevel2System.get_market_session clk_s)
  then Nat.min num_rows 10 else num_rows.

(** An exchange on which a subscription goes through. *)
Definition serves (b : Broker) (c : t) (w : World) (rows : nat) (e : string) : bool :=
  depth b (calls w) e rows
  && (negb (detect_hidden_orders c) || time_and_sales b (calls w) e).

End Connection.

(** * Example feeds *)

Module FeedExamples.
Import Examples.

Definition quiet_tick : Feed.Event :=
  Feed.TradeTick (mkTick 100 1 (utc_now monday_10am)).

(** Twelve trades at 100, one share each, all at the clock's instant. *)
Definition flat_tape : list Feed.Event := repeat quiet_tick 12.

(** A depth batch with one bid at 100 and one ask at 101. *)
Definition refill_batch (size : Q) : Feed.Event :=
  Feed.DepthUpdate monday_10am (mkTicker [mkLevel 100 size] [mkLevel 101 50]).

(** The bid at 100 eaten to 40 and refilled to 90, three times over. *)
Definition iceberg_sizes : list Q := [100; 40; 90; 40; 90; 40; 90].

Definition iceberg_feed : list Feed.Event := map refill_batch iceberg_sizes.

Definition detector_of (sys : UnifiedLevel2System.t) : HiddenOrderDetector.t :=
  get_default (UnifiedLevel2System.hidden_detector sys) HiddenOrderDetector.default.

Definition flat_tape_detector : HiddenOrderDetector.t :=
  detector_of (Feed.run (UnifiedLevel2System.init 100 true) flat_tape).

Definition iceberg_detector : HiddenOrderDetector.t :=
  detector_of (Feed.run (UnifiedLevel2System.init 100 true) iceberg_feed).

Definition two_level_feed : list Feed.Event :=
  [Feed.DepthUpdate monday_10am two_level_batch].

(** Both sides quoted below half a cent. *)
Definition sub_cent_feed : list Feed.Event :=
  [Feed.DepthUpdate monday_10am (mkTicker [mkLevel 0.003 1] [mkLevel 0.004 1])].

Definition no_snapshot : Snapshot.t := Snapshot.mk 0 CLOSED [] [] 0 0 0 0 0.

Definition snapshot_of (clk : Clock) (sys : UnifiedLevel2System.t) : Snapshot.t :=
  get_default (UnifiedLevel2System.get_current_snapshot clk sys) no_snapshot.

(** A batch without asks. *)
Definition one_sided_batch : Ticker := mkTicker [mkLevel 100 10] [].

Definition results_of (r : result HiddenResults) : HiddenResults :=
  match r with
  | Ok h => h
  | Raise _ => HiddenOrderDetector.empty_results
  end.

Definition results_of_scan (r : result (list Iceberg)) : list Iceberg :=
  match r with
  | Ok l => l
  | Raise _ => []
  end.

Definition signal_of (r : SignalGenerator.t * result SignalOut) : SignalOut :=
  match snd r with
  | Ok out => out
  | Raise _ => SignalGenerator.no_data
  end.

(** Strong and weighted buy pressure. *)
Definition pressing_features : Features.t :=
  Ref.scorer_features (Some 100) (Some 0.35) (Some 0.25) (Some 10) (Some "REGULAR").

Definition in_session (session : string) : Features.t :=
  Sessions.with_session pressing_features (Some session).

(** The signal of a fresh generator for the given features, with a hidden
    buyer and one bid iceberg detected. *)
Definition scored (f : Features.t) : SignalOut :=
  signal_of (SignalGenerator.generate_signal SignalGenerator.default (Some f)
               (Some Examples.buyer_and_iceberg)).

(** A broker that can never be reached. *)
Definition unreachable : Connection.Broker :=
  Connection.mkBroker (fun _ _ => Connection.Refused) (fun _ => true)
                      (fun _ _ _ => false) (fun _ _ => false).

(** A broker that accepts every connection and then fails the
    market-data-type request. *)
Definition half_open : Connection.Broker :=
  Connection.mkBroker (fun _ _ => Connection.TypeRejected) (fun _ => true)
                      (fun _ _ _ => false) (fun _ _ => false).

Definition fresh_connection : Connection.t := Connection.init 7497 true true "SMART".

Definition at_start : Connection.World := Connection.mkWorld 0 0.

End FeedExamples.

(** * Detectors that saw the same book *)

Module Sensitivities.

(** Two detectors hold the same depth history. *)
Definition same_depth_history (d1 d2 : HiddenOrderDetector.t) : Prop :=
  HiddenOrderDetector.price_level_history d1 = HiddenOrderDetector.price_level_history d2 /\
  HiddenOrderDetector.order_book_snapshots d1 = HiddenOrderDetector.order_book_snapshots d2.

(** The detector of the given sensitivity after the depth batches with
    the given sizes of the bid at 100. *)
Definition after_refills (s : Sensitivity) (sizes : list Q) : HiddenOrderDetector.t :=
  fold_left
    (fun d size => HiddenOrderDetector.add_order_book_snapshot d [(100, size)] [(101, 50)] 0)
    sizes (HiddenOrderDetector.init 60 s).

End Sensitivities.

(** * The trades inside the window *)

Module Window.

(** [recent_trades] of [calculate_volume_metrics]. *)
Definition recent_trades (clk : Clock) (d : HiddenOrderDetector.t) (seconds : Z)
  : list Trade :=
  filter (fun tr => (HiddenOrderDetector.cutoff_time clk seconds <=? t_timestamp tr)%Z)
         (HiddenOrderDetector.trades d).

End Window.

(** * Properties *)

(** ** Arithmetic and list helpers *)

Lemma Qltb_lt (x y : Q) : Qltb x y = true <-> x < y.
Proof.
  unfold Qltb. rewrite negb_true_iff. split.
  - intros H. apply Qnot_le_lt. intros Hle.
    apply Qle_bool_iff in Hle. congruence.
  - intros H. destruct (Qle_bool y x) eqn:E; [|reflexivity].
    apply Qle_bool_iff in E. lra.
Qed.

Lemma Qltb_ge (x y : Q) : Qltb x y = false <-> y <= x.
Proof.
  unfold Qltb. rewrite negb_false_iff. apply Qle_bool_iff.
Qed.

(** ** Sessions *)

Lemma every_session_occurs (s : Session) :
  exists clk, UnifiedLevel2System.get_market_session clk = s.
Proof.
  destruct s.
  - exists (mkClock 0 0 (time_of 5 0)). reflexivity.
  - exists (mkClock 0 0 (time_of 10 0)). reflexivity.
  - exists (mkClock 0 0 (time_of 17 0)). reflexivity.
  - exists (mkClock 0 6 (time_of 10 0)). reflexivity.
Qed.

Module MicropriceProofs.
Import UnifiedLevel2System.



End MicropriceProofs.

Module InsufficientDataProofs.
Import HiddenOrderDetector.

(** C9. With fewer than 10 recorded trades or fewer than 10 recorded
    price updates, [detect_hidden_orders] returns normally, and what it
    returns has no hidden buyer, no hidden seller, no icebergs and an
    empty analysis, whatever the clock and the rest of the state. *)
Theorem detect_hidden_orders_needs_ten_samples :
  forall (clk_v clk_p : Clock) (d : HiddenOrderDetector.t),
    (length (trades d) < 10)%nat \/ (length (price_history d) < 10)%nat ->
    detect_hidden_orders clk_v clk_p d = Ok (mkResults None None [] None).
Proof.
  intros clk_v clk_p d H.
  unfold detect_hidden_orders.
  assert (E : (length (trades d) <? 10)%nat || (length (price_history d) <? 10)%nat = true).
  { apply orb_true_iff. destruct H as [H|H]; [left|right]; now apply Nat.ltb_lt. }
  rewrite E. reflexivity.
Qed.

Lemma detect_hidden_orders_needs_ten_samples_witness :
  detect_hidden_orders Examples.monday_10am Examples.monday_10am Examples.refill_detector
  = Ok (mkResults None None [] None).
Proof.
  apply detect_hidden_orders_needs_ten_samples.
  left. vm_compute. lia.
Defined.

End InsufficientDataProofs.

Module QueueImbalanceProofs.
Import UnifiedLevel2System Ref.

Lemma narrowing_is_no_op (clk : Clock) (bids asks : list (Q * Q)) (levels : nat) :
  (levels <= Nat.min (length bids) (length asks))%nat ->
  calculate_queue_imbalance clk bids asks levels = queue_imbalance_at bids asks levels.
Proof.
  intros Hle. unfold calculate_queue_imbalance, queue_imbalance_at.
  destruct (is_empty bids || is_empty asks); [reflexivity|].
  destruct (extended_session (get_market_session clk)); [|reflexivity].
  now rewrite (Nat.min_l _ _ Hle).
Qed.

(** C10. The ['queue_imbalance'] feature does not depend on the market
    session.  [get_order_book_features] passes
    [levels = min(5, len(bids), len(asks))], so the narrowing that
    [calculate_queue_imbalance] applies in extended hours changes nothing:
    two evaluations of the same book under any two clock readings (hence
    any two sessions) give the same ['queue_imbalance']. *)
Theorem queue_imbalance_session_independent :
  (forall (clk1 clk2 : Clock) (bids asks : list (Q * Q)),
     let depth_5 := Nat.min 5 (Nat.min (length bids) (length asks)) in
     calculate_queue_imbalance clk1 bids asks depth_5
     = calculate_queue_imbalance clk2 bids asks depth_5) /\
  (forall (clk_s1 clk_q1 clk_s2 clk_q2 : Clock) (sys : UnifiedLevel2System.t),
     queue_imbalance_of (get_order_book_features clk_s1 clk_q1 sys)
     = queue_imbalance_of (get_order_book_features clk_s2 clk_q2 sys)).
Proof.
  assert (K : forall clk1 clk2 bids asks,
             calculate_queue_imbalance clk1 bids asks
               (Nat.min 5 (Nat.min (length bids) (length asks)))
             = calculate_queue_imbalance clk2 bids asks
                 (Nat.min 5 (Nat.min (length bids) (length asks)))).
  { intros. rewrite !narrowing_is_no_op by apply Nat.le_min_r. reflexivity. }
  split; [exact K|].
  intros clk_s1 clk_q1 clk_s2 clk_q2 sys.
  unfold get_order_book_features, get_current_snapshot.
  destruct (is_empty (current_bids sys) || is_empty (current_asks sys)); [reflexivity|].
  destruct (sorted_bids (current_bids sys)) as [|[bid0 bsize0] bids]; [reflexivity|].
  destruct (sorted_asks (current_asks sys)) as [|[ask0 asize0] asks]; [reflexivity|].
  cbn [Snapshot.bids Snapshot.asks Snapshot.session Snapshot.spread Snapshot.timestamp].
  destruct (calculate_microprice bid0 ask0 bsize0 asize0) as [m|e]; [|reflexivity].
  cbn [bind].
  rewrite (K clk_q1 clk_q2).
  destruct (calculate_queue_imbalance clk_q2 _ _ _) as [q|e]; [|reflexivity].
  cbn [bind].
  destruct (py_div (ask0 - bid0) m) as [r|e]; reflexivity.
Qed.

(** The same book read in regular and in premarket hours. *)
Lemma two_level_queue_imbalance :
  get_market_session Examples.monday_10am = REGULAR /\
  get_market_session Examples.monday_5am = PREMARKET /\
  queue_imbalance_of
    (get_order_book_features Examples.monday_10am Examples.monday_10am
       Examples.two_level_system) = Ok (Some (-80 # 720)) /\
  queue_imbalance_of
    (get_order_book_features Examples.monday_5am Examples.monday_5am
       Examples.two_level_system) = Ok (Some (-80 # 720)).
Proof.
  repeat split; vm_compute; reflexivity.
Qed.

End QueueImbalanceProofs.

Module BookProofs.
Import UnifiedLevel2System Ref.

Lemma dict_add_keys (price size : Q) (d : list (Q * Q)) :
  map fst (dict_add price size d) = map fst d.
Proof.
  induction d as [|[p s] d IH]; simpl; [reflexivity|].
  destruct (Qeq_bool p price); simpl; [reflexivity|].
  now rewrite IH.
Qed.

Lemma dict_contains_false (price : Q) (d : list (Q * Q)) :
  dict_contains price d = false -> ~ InA Qeq price (map fst d).
Proof.
  unfold dict_contains. induction d as [|[p s] d IH]; simpl; intros H Hin.
  - inversion Hin.
  - apply orb_false_iff in H. destruct H as [Hp Hd].
    inversion Hin; subst.
    + apply Qeq_bool_neq in Hp. apply Hp. symmetry. assumption.
    + now apply IH.
Qed.

Lemma distinct_prices_snoc (d : list (Q * Q)) (price size : Q) :
  distinct_prices d -> ~ InA Qeq price (map fst d) ->
  distinct_prices (d ++ [(price, size)]).
Proof.
  unfold distinct_prices. induction d as [|[p s] d IH]; simpl; intros Hd Hnot.
  - constructor; [intros H; inversion H | constructor].
  - inversion Hd as [|? ? Hp Hrest]; subst. constructor.
    + rewrite map_app. simpl. intros Hin. apply InA_app in Hin.
      destruct Hin as [Hin|Hin]; [now apply Hp|].
      inversion Hin as [? ? Heq|? ? Hnil]; subst; [|inversion Hnil].
      apply Hnot. left. symmetry. exact Heq.
    + apply IH; [exact Hrest|]. intros Hin. apply Hnot. now right.
Qed.

Lemma aggregate_level_distinct (book : list (Q * Q)) (level : DOMLevel) :
  distinct_prices book -> distinct_prices (aggregate_level book level).
Proof.
  intros Hd. unfold aggregate_level.
  destruct (Qltb 0 (dl_price level) && Qltb 0 (dl_size level)); [|exact Hd].
  destruct (dict_contains (py_round (dl_price level) 2) book) eqn:E.
  - unfold distinct_prices. now rewrite dict_add_keys.
  - apply distinct_prices_snoc; [exact Hd|]. now apply dict_contains_false.
Qed.

Lemma fold_aggregate_distinct (levels : list DOMLevel) (book : list (Q * Q)) :
  distinct_prices book -> distinct_prices (fold_left aggregate_level levels book).
Proof.
  revert book. induction levels as [|l levels IH]; simpl; intros book Hd.
  - exact Hd.
  - apply IH. now apply aggregate_level_distinct.
Qed.

Lemma aggregate_distinct (levels : list DOMLevel) : distinct_prices (aggregate levels).
Proof.
  apply fold_aggregate_distinct. constructor.
Qed.

Section Sorting.
Variable ltb : Q * Q -> Q * Q -> bool.

Lemma insert_by_keys (x : Q * Q) (l : list (Q * Q)) (k : Q) :
  InA Qeq k (map fst (insert_by ltb x l)) <-> InA Qeq k (map fst (x :: l)).
Proof.
  induction l as [|y l IH]; simpl; [reflexivity|].
  destruct (ltb y x); simpl; [|reflexivity].
  split; intros H.
  - inversion H; subst.
    + right. now left.
    + apply IH in H1. simpl in H1. inversion H1; subst; [now left|].
      right. now right.
  - inversion H; subst.
    + right. apply IH. now left.
    + inversion H1; subst; [now left|].
      right. apply IH. now right.
Qed.

Lemma insert_by_distinct (x : Q * Q) (l : list (Q * Q)) :
  distinct_prices (x :: l) -> distinct_prices (insert_by ltb x l).
Proof.
  unfold distinct_prices. induction l as [|y l IH]; simpl; intros Hd; [exact Hd|].
  destruct (ltb y x); simpl; [|exact Hd].
  inversion Hd as [|? ? Hx Hyl]; subst.
  inversion Hyl as [|? ? Hy Hl]; subst.
  constructor.
  - intros Hin. apply insert_by_keys in Hin. simpl in Hin.
    inversion Hin; subst; [|now apply Hy].
    apply Hx. left. symmetry. assumption.
  - apply IH. simpl. constructor; [|exact Hl].
    intros Hin. apply Hx. now right.
Qed.

Lemma py_sorted_keys (l : list (Q * Q)) (k : Q) :
  InA Qeq k (map fst (py_sorted ltb l)) <-> InA Qeq k (map fst l).
Proof.
  induction l as [|x l IH]; simpl; [reflexivity|].
  rewrite insert_by_keys. simpl.
  split; intros H; inversion H; subst; try (now left); right; now apply IH.
Qed.

Lemma py_sorted_distinct (l : list (Q * Q)) :
  distinct_prices l -> distinct_prices (py_sorted ltb l).
Proof.
  induction l as [|x l IH]; intros Hd; [exact Hd|].
  change (py_sorted ltb (x :: l)) with (insert_by ltb x (py_sorted ltb l)).
  apply insert_by_distinct.
  unfold distinct_prices in *. cbn [map] in *.
  inversion Hd as [|? ? Hx Hl]; subst. constructor.
  - intros Hin. apply Hx. apply (py_sorted_keys l). exact Hin.
  - now apply IH.
Qed.

End Sorting.

Lemma firstn_keys (n : nat) (l : list (Q * Q)) (k : Q) :
  InA Qeq k (map fst (firstn n l)) -> InA Qeq k (map fst l).
Proof.
  revert l. induction n as [|n IH]; intros [|x l]; simpl; intros H;
    try (now inversion H).
  inversion H; subst; [now left|]. right. now apply IH.
Qed.

Lemma firstn_distinct (n : nat) (l : list (Q * Q)) :
  distinct_prices l -> distinct_prices (firstn n l).
Proof.
  unfold distinct_prices. revert l.
  induction n as [|n IH]; intros [|x l]; simpl; intros Hd; try constructor.
  - inversion Hd; subst. intros Hin. apply firstn_keys in Hin. contradiction.
  - inversion Hd; subst. now apply IH.
Qed.

Lemma book_after_update (clk : Clock) (sys : UnifiedLevel2System.t) (ticker : Ticker) :
  current_bids (_on_ticker_update clk sys ticker) = aggregate (domBids ticker) /\
  current_asks (_on_ticker_update clk sys ticker) = aggregate (domAsks ticker).
Proof.
  unfold _on_ticker_update.
  destruct (negb (is_empty (aggregate (domBids ticker)))
            && negb (is_empty (aggregate (domAsks ticker)))); split; reflexivity.
Qed.

Lemma snapshot_book_only (clk1 clk2 : Clock) (s1 s2 : UnifiedLevel2System.t) :
  current_bids s1 = current_bids s2 -> current_asks s1 = current_asks s2 ->
  book_of (get_current_snapshot clk1 s1) = book_of (get_current_snapshot clk2 s2).
Proof.
  intros Hb Ha. unfold get_current_snapshot. rewrite Hb, Ha.
  destruct (is_empty (current_bids s2) || is_empty (current_asks s2)); [reflexivity|].
  destruct (sorted_bids (current_bids s2)) as [|[b0 bs0] bids]; [reflexivity|].
  destruct (sorted_asks (current_asks s2)) as [|[a0 as0] asks]; reflexivity.
Qed.

Lemma snapshot_distinct (clk : Clock) (sys : UnifiedLevel2System.t) (snap : Snapshot.t) :
  distinct_prices (current_bids sys) -> distinct_prices (current_asks sys) ->
  get_current_snapshot clk sys = Some snap ->
  distinct_prices (Snapshot.bids snap) /\ distinct_prices (Snapshot.asks snap).
Proof.
  intros Hb Ha. unfold get_current_snapshot.
  destruct (is_empty (current_bids sys) || is_empty (current_asks sys)); [discriminate|].
  destruct (sorted_bids (current_bids sys)) as [|[b0 bs0] bids] eqn:Eb; [discriminate|].
  destruct (sorted_asks (current_asks sys)) as [|[a0 as0] asks] eqn:Ea; [discriminate|].
  intros H. injection H as <-. simpl. rewrite <- Eb, <- Ea.
  split; apply firstn_distinct, py_sorted_distinct; assumption.
Qed.

Lemma apply_updates_distinct (batches : list (Clock * Ticker)) (sys : UnifiedLevel2System.t) :
  distinct_prices (current_bids sys) -> distinct_prices (current_asks sys) ->
  distinct_prices (current_bids (apply_updates sys batches)) /\
  distinct_prices (current_asks (apply_updates sys batches)).
Proof.
  unfold apply_updates. revert sys.
  induction batches as [|[clk ticker] batches IH]; simpl; intros sys Hb Ha.
  - now split.
  - destruct (book_after_update clk sys ticker) as [Eb Ea].
    apply IH; [rewrite Eb | rewrite Ea]; apply aggregate_distinct.
Qed.

Lemma dict_add_positive (price size : Q) (d : list (Q * Q)) :
  0 < size -> positive_sizes d -> positive_sizes (dict_add price size d).
Proof.
  intros Hs. unfold positive_sizes.
  induction d as [|[p s0] d IH]; simpl; intros Hd; [constructor|].
  inversion Hd as [|? ? Hp Hrest]; subst. simpl in Hp.
  destruct (Qeq_bool p price).
  - constructor; [simpl; lra | exact Hrest].
  - constructor; [exact Hp | now apply IH].
Qed.

Lemma aggregate_level_positive (book : list (Q * Q)) (level : DOMLevel) :
  positive_sizes book -> positive_sizes (aggregate_level book level).
Proof.
  intros Hd. unfold aggregate_level.
  destruct (Qltb 0 (dl_price level)); [|exact Hd].
  destruct (Qltb 0 (dl_size level)) eqn:E; [|exact Hd].
  apply Qltb_lt in E. cbn [andb].
  destruct (dict_contains (py_round (dl_price level) 2) book).
  - now apply dict_add_positive.
  - apply Forall_app. split; [exact Hd|]. constructor; [exact E | constructor].
Qed.

Lemma aggregate_positive (levels : list DOMLevel) : positive_sizes (aggregate levels).
Proof.
  unfold aggregate.
  assert (H : forall book, positive_sizes book ->
                           positive_sizes (fold_left aggregate_level levels book)).
  { induction levels as [|l levels IH]; simpl; intros book Hb; [exact Hb|].
    apply IH. now apply aggregate_level_positive. }
  apply H. constructor.
Qed.

Lemma insert_by_Forall {A : Type} (P : A -> Prop) (ltb : A -> A -> bool)
      (x : A) (l : list A) :
  P x -> Forall P l -> Forall P (insert_by ltb x l).
Proof.
  intros Hx. induction l as [|y l IH]; simpl; intros Hl.
  - now constructor.
  - inversion Hl; subst. destruct (ltb y x).
    + constructor; [assumption | now apply IH].
    + now constructor.
Qed.

Lemma py_sorted_Forall {A : Type} (P : A -> Prop) (ltb : A -> A -> bool) (l : list A) :
  Forall P l -> Forall P (py_sorted ltb l).
Proof.
  induction l as [|x l IH]; intros Hl; [exact Hl|].
  inversion Hl; subst.
  change (py_sorted ltb (x :: l)) with (insert_by ltb x (py_sorted ltb l)).
  apply insert_by_Forall; [assumption | now apply IH].
Qed.

Lemma firstn_Forall {A : Type} (P : A -> Prop) (n : nat) (l : list A) :
  Forall P l -> Forall P (firstn n l).
Proof.
  revert l. induction n as [|n IH]; intros [|x l] H; simpl; try constructor.
  - now inversion H.
  - apply IH. now inversion H.
Qed.

Lemma apply_updates_positive (batches : list (Clock * Ticker)) (sys : UnifiedLevel2System.t) :
  positive_sizes (current_bids sys) -> positive_sizes (current_asks sys) ->
  positive_sizes (current_bids (apply_updates sys batches)) /\
  positive_sizes (current_asks (apply_updates sys batches)).
Proof.
  unfold apply_updates. revert sys.
  induction batches as [|[clk ticker] batches IH]; simpl; intros sys Hb Ha.
  - now split.
  - destruct (book_after_update clk sys ticker) as [Eb Ea].
    apply IH; [rewrite Eb | rewrite Ea]; apply aggregate_positive.
Qed.

Lemma snapshot_positive (clk : Clock) (sys : UnifiedLevel2System.t) (snap : Snapshot.t) :
  positive_sizes (current_bids sys) -> positive_sizes (current_asks sys) ->
  get_current_snapshot clk sys = Some snap ->
  positive_sizes (Snapshot.bids snap) /\ positive_sizes (Snapshot.asks snap).
Proof.
  intros Hb Ha. unfold get_current_snapshot.
  destruct (is_empty (current_bids sys) || is_empty (current_asks sys)); [discriminate|].
  destruct (sorted_bids (current_bids sys)) as [|[b0 bs0] bids] eqn:Eb; [discriminate|].
  destruct (sorted_asks (current_asks sys)) as [|[a0 as0] asks] eqn:Ea; [discriminate|].
  intros H. injection H as <-. simpl. rewrite <- Eb, <- Ea.
  split; apply firstn_Forall, py_sorted_Forall; assumption.
Qed.

Lemma Forall_skipn {A : Type} (P : A -> Prop) (n : nat) (l : list A) :
  Forall P l -> Forall P (skipn n l).
Proof.
  revert l. induction n as [|n IH]; intros l H; [exact H|].
  destruct l as [|x l]; [constructor|].
  simpl. apply IH. now inversion H.
Qed.

Lemma deque_append_Forall {A : Type} (P : A -> Prop) (maxlen : nat) (d : list A) (x : A) :
  Forall P d -> P x -> Forall P (deque_append maxlen d x).
Proof.
  intros Hd Hx. unfold deque_append. apply Forall_skipn.
  apply Forall_app. split; [exact Hd | now constructor].
Qed.

Lemma update_history_distinct (clk : Clock) (sys : UnifiedLevel2System.t) (ticker : Ticker) :
  Forall record_distinct (order_book_history sys) ->
  Forall record_distinct (order_book_history (_on_ticker_update clk sys ticker)).
Proof.
  intros H. unfold _on_ticker_update.
  destruct (negb (is_empty (aggregate (domBids ticker)))
            && negb (is_empty (aggregate (domAsks ticker)))); [|exact H].
  cbn [order_book_history]. apply deque_append_Forall; [exact H|].
  split; cbn [br_bids br_asks]; apply firstn_distinct, py_sorted_distinct, aggregate_distinct.
Qed.

Lemma apply_updates_history_distinct (batches : list (Clock * Ticker))
      (sys : UnifiedLevel2System.t) :
  Forall record_distinct (order_book_history sys) ->
  Forall record_distinct (order_book_history (apply_updates sys batches)).
Proof.
  unfold apply_updates. revert sys.
  induction batches as [|[clk ticker] batches IH]; simpl; intros sys H; [exact H|].
  apply IH. now apply update_history_distinct.
Qed.



End BookProofs.

Module IcebergProofs.
Import HiddenOrderDetector Ref Examples.

Lemma refill_step_acc (sizes : list Q) (idx : list nat) (acc : nat) :
  fold_left (refill_step sizes) idx acc
  = (acc + fold_left (refill_step sizes) idx 0)%nat.
Proof.
  revert acc. induction idx as [|i idx IH]; intros acc; simpl; [lia|].
  rewrite (IH (refill_step sizes acc i)), (IH (refill_step sizes 0 i)).
  unfold refill_step. destruct (_ && _); lia.
Qed.

Lemma refill_step_shift (a : Q) (l : list Q) (i r : nat) :
  (1 <= i)%nat -> refill_step (a :: l) r (S i) = refill_step l r i.
Proof.
  intros Hi. unfold refill_step.
  replace (S i - 1)%nat with (S (i - 1)) by lia.
  reflexivity.
Qed.

Lemma refill_fold_shift (a : Q) (l : list Q) (n k acc : nat) :
  (1 <= k)%nat ->
  fold_left (refill_step (a :: l)) (seq (S k) n) acc
  = fold_left (refill_step l) (seq k n) acc.
Proof.
  revert k acc. induction n as [|n IH]; intros k acc Hk; simpl; [reflexivity|].
  rewrite refill_step_shift by exact Hk.
  apply IH. lia.
Qed.

Lemma count_refills_windows (sizes : list Q) :
  count_refills sizes = window_count refill_strict sizes.
Proof.
  induction sizes as [|a rest IH]; [reflexivity|].
  destruct rest as [|b [|c t]]; [reflexivity | reflexivity |].
  unfold count_refills in *.
  cbn [length Nat.sub] in *. rewrite Nat.sub_0_r in *.
  cbn [seq fold_left].
  rewrite refill_step_acc, refill_fold_shift by lia.
  rewrite IH.
  change (window_count refill_strict (a :: b :: c :: t))
    with ((if refill_strict a b c then 1 else 0)
          + window_count refill_strict (b :: c :: t))%nat.
  reflexivity.
Qed.

(** C2 as stated fails on the code.  With the comparisons the
    specification words (at most 50%, at least 80%) the history
    [100, 40, 85, 90, 45, 95] holds 2 refills; the loop of
    [detect_iceberg_orders] counts 1, because 45 is not below half of 90. *)
Lemma refill_history_counts_one_not_two :
  window_count refill_as_stated refill_sizes = 2%nat /\
  count_refills refill_sizes = 1%nat /\
  count_refills refill_sizes <> 2%nat.
Proof.
  repeat split; try reflexivity. vm_compute. discriminate.
Qed.

(** C2, amended.  The refill count of a level is the number of 3-sample
    windows of its size history whose middle sample is strictly below 50%
    of the preceding sample and whose following sample is strictly above
    80% of the preceding sample.  The history [100, 40, 85, 90, 45, 95]
    holds exactly 1 such window, and under the default (medium)
    thresholds a level with that history is not reported as an iceberg. *)
Theorem refills_are_strict_windows :
  (forall sizes : list Q, count_refills sizes = window_count refill_strict sizes) /\
  count_refills [100; 40; 85; 90; 45; 95] = 1%nat /\
  map (fun entry => map ls_size (snd entry)) (price_level_history refill_detector)
  = [[100; 40; 85; 90; 45; 95]; [50; 50; 50; 50; 50; 50]] /\
  thresholds refill_detector = _get_thresholds SensMedium /\
  detect_iceberg_orders refill_detector = Ok [].
Proof.
  split; [exact count_refills_windows|].
  repeat split; reflexivity.
Qed.

Lemma positive_length_nonzero (n : nat) :
  (0 < n)%nat -> Qeq_bool (inject_Z (Z.of_nat n)) 0 = false.
Proof.
  intros Hn. destruct (Qeq_bool (inject_Z (Z.of_nat n)) 0) eqn:E; [|reflexivity].
  apply Qeq_bool_eq in E. unfold Qeq in E. simpl in E. lia.
Qed.

Lemma np_mean_returns (l : list Q) :
  (0 < length l)%nat -> exists m, np_mean l = Ok m.
Proof.
  intros Hl. unfold np_mean, py_div.
  rewrite positive_length_nonzero by exact Hl. eauto.
Qed.

Lemma scan_level_returns (d : HiddenOrderDetector.t) (icebergs : list Iceberg)
      (entry : (BookSide * Q) * list LevelSample) :
  exists l, scan_level d icebergs entry = Ok l.
Proof.
  destruct entry as [[side price] history]. unfold scan_level.
  destruct (length history <? 5)%nat eqn:E; [eauto|].
  destruct (refresh_count (thresholds d) <=? count_refills (map ls_size history))%nat;
    [|eauto].
  apply Nat.ltb_ge in E.
  destruct (np_mean_returns (map ls_size history)) as [m Hm].
  { rewrite length_map. lia. }
  rewrite Hm. simpl. eauto.
Qed.

Lemma scan_levels_return (d : HiddenOrderDetector.t)
      (entries : list ((BookSide * Q) * list LevelSample)) (acc : list Iceberg) :
  exists l,
    fold_left (fun acc entry => icebergs <- acc ;; scan_level d icebergs entry)
              entries (Ok acc) = Ok l.
Proof.
  revert acc. induction entries as [|entry entries IH]; intros acc; simpl; [eauto|].
  destruct (scan_level_returns d acc entry) as [l Hl]. rewrite Hl. apply IH.
Qed.

Lemma detect_iceberg_orders_returns (d : HiddenOrderDetector.t) :
  exists l, detect_iceberg_orders d = Ok l.
Proof.
  unfold detect_iceberg_orders.
  destruct (length (order_book_snapshots d) <? 5)%nat; [eauto|].
  apply scan_levels_return.
Qed.

Lemma hidden_buyer_rule (clk_v clk_p : Clock) (d : HiddenOrderDetector.t)
      (vm : VolumeMetrics) (pc : Q) :
  (10 <= length (trades d))%nat -> (10 <= length (price_history d))%nat ->
  calculate_volume_metrics clk_v d 30 = Some vm ->
  calculate_price_change clk_p d 30 = Ok (Some pc) ->
  buy_volume vm * 1.5 < sell_volume vm -> -0.005 < pc ->
  exists r, detect_hidden_orders clk_v clk_p d = Ok r /\
            hidden_buyer r
            = Some (mkFlag (if Qltb 0 pc then HIGH else MEDIUM) (sell_volume vm) pc).
Proof.
  intros Ht Hp Hvm Hpc Hvol Hband.
  unfold detect_hidden_orders.
  apply Nat.ltb_ge in Ht. apply Nat.ltb_ge in Hp. rewrite Ht, Hp. simpl.
  rewrite Hvm, Hpc. simpl.
  destruct (detect_iceberg_orders_returns d) as [ice Hice]. rewrite Hice. simpl.
  apply Qltb_lt in Hvol. apply Qltb_lt in Hband. rewrite Hvol, Hband. simpl.
  eexists. split; reflexivity.
Qed.

(** C3 as stated fails on the code: with buy volume 10, sell volume 20
    and a price change of +0.001 over the window, the hidden buyer is
    flagged with strength HIGH, not MEDIUM; and with the same volumes and
    price change made of only two trades, no hidden buyer is flagged. *)
Lemma absorbed_selling_is_not_medium :
  (exists vm r flag,
     calculate_volume_metrics monday_10am absorbing_detector 30 = Some vm /\
     buy_volume vm == 10 /\ sell_volume vm == 20 /\
     calculate_price_change monday_10am absorbing_detector 30 = Ok (Some 0.001) /\
     detect_hidden_orders monday_10am monday_10am absorbing_detector = Ok r /\
     hidden_buyer r = Some flag /\
     hf_strength flag = HIGH /\ hf_strength flag <> MEDIUM) /\
  (exists vm r,
     calculate_volume_metrics monday_10am sparse_detector 30 = Some vm /\
     buy_volume vm == 10 /\ sell_volume vm == 20 /\
     calculate_price_change monday_10am sparse_detector 30 = Ok (Some 0.001) /\
     detect_hidden_orders monday_10am monday_10am sparse_detector = Ok r /\
     hidden_buyer r = None).
Proof.
  split.
  - do 3 eexists.
    split; [vm_compute; reflexivity|].
    split; [reflexivity|]. split; [reflexivity|].
    split; [vm_compute; reflexivity|].
    split; [vm_compute; reflexivity|].
    split; [reflexivity|].
    split; [reflexivity | discriminate].
  - do 2 eexists.
    split; [vm_compute; reflexivity|].
    split; [reflexivity|]. split; [reflexivity|].
    split; [vm_compute; reflexivity|].
    split; [vm_compute; reflexivity|].
    reflexivity.
Qed.

(** C3, amended.  With at least 10 trades and 10 price updates recorded,
    if the trades of the trailing 30-second window have buy volume 10 and
    sell volume 20 and the price change over that window is +0.001, then
    [detect_hidden_orders] returns and flags a hidden buyer with strength
    HIGH.  In general, when sell volume exceeds 1.5 times buy volume and
    the price change is above -0.5%, the hidden buyer is flagged, HIGH for
    a positive price change and MEDIUM otherwise. *)
Theorem absorbed_selling_flags_high_buyer :
  forall (clk_v clk_p : Clock) (d : HiddenOrderDetector.t) (vm : VolumeMetrics) (pc : Q),
    (10 <= length (trades d))%nat -> (10 <= length (price_history d))%nat ->
    calculate_volume_metrics clk_v d 30 = Some vm ->
    calculate_price_change clk_p d 30 = Ok (Some pc) ->
    (buy_volume vm == 10 -> sell_volume vm == 20 -> pc == 0.001 ->
     exists r flag, detect_hidden_orders clk_v clk_p d = Ok r /\
                    hidden_buyer r = Some flag /\ hf_strength flag = HIGH) /\
    (buy_volume vm * 1.5 < sell_volume vm -> -0.005 < pc ->
     exists r flag, detect_hidden_orders clk_v clk_p d = Ok r /\
                    hidden_buyer r = Some flag /\
                    (0 < pc -> hf_strength flag = HIGH) /\
                    (pc <= 0 -> hf_strength flag = MEDIUM)).
Proof.
  intros clk_v clk_p d vm pc Ht Hp Hvm Hpc.
  assert (G : buy_volume vm * 1.5 < sell_volume vm -> -0.005 < pc ->
              exists r flag, detect_hidden_orders clk_v clk_p d = Ok r /\
                             hidden_buyer r = Some flag /\
                             (0 < pc -> hf_strength flag = HIGH) /\
                             (pc <= 0 -> hf_strength flag = MEDIUM)).
  { intros Hvol Hband.
    destruct (hidden_buyer_rule clk_v clk_p d vm pc Ht Hp Hvm Hpc Hvol Hband)
      as [r [Hr Hflag]].
    exists r. eexists. split; [exact Hr|]. split; [exact Hflag|].
    simpl. split; intros H.
    - apply Qltb_lt in H. now rewrite H.
    - apply Qltb_ge in H. now rewrite H. }
  split; [|exact G].
  intros Hb Hs Hc.
  destruct G as [r [flag [Hr [Hflag [Hhigh _]]]]].
  - rewrite Hb, Hs. reflexivity.
  - rewrite Hc. reflexivity.
  - exists r, flag. repeat split; try assumption. apply Hhigh. rewrite Hc. reflexivity.
Qed.

Lemma absorbed_selling_flags_high_buyer_witness :
  exists r flag,
    detect_hidden_orders monday_10am monday_10am absorbing_detector = Ok r /\
    hidden_buyer r = Some flag /\ hf_strength flag = HIGH.
Proof.
  refine (proj1 (absorbed_selling_flags_high_buyer monday_10am monday_10am
                   absorbing_detector (mkVolume 10 20 (-10) 5 5) 0.001 _ _ _ _) _ _ _).
  - vm_compute. lia.
  - vm_compute. lia.
  - vm_compute. reflexivity.
  - vm_compute. reflexivity.
  - reflexivity.
  - reflexivity.
  - reflexivity.
Defined.

End IcebergProofs.

Module WeightedImbalanceProofs.
Import UnifiedLevel2System Ref Examples.

Lemma py_sum_acc (l : list Q) (a : Q) : fold_left Qplus l a == a + py_sum l.
Proof.
  unfold py_sum. revert a. induction l as [|x l IH]; intros a; simpl.
  - ring.
  - rewrite (IH (a + x)), (IH (0 + x)). ring.
Qed.

Lemma py_sum_cons (x : Q) (l : list Q) : py_sum (x :: l) == x + py_sum l.
Proof.
  unfold py_sum at 1. simpl. rewrite py_sum_acc. ring.
Qed.

Lemma weighted_terms_ranked (K : nat) (side : list (Q * Q)) (k : nat) :
  py_sum (map (fun e => snd (snd e) * inject_Z (Z.of_nat (K + 1 - fst e)))
              (combine (seq k (length side)) side))
  == ranked_sum (weight_shifted K) (S k) side.
Proof.
  revert k. induction side as [|[p size] side IH]; intros k.
  - reflexivity.
  - cbn [length seq combine map ranked_sum fst snd].
    rewrite py_sum_cons, IH. unfold weight_shifted.
    replace (K + 2 - S k)%nat with (K + 1 - k)%nat by lia.
    reflexivity.
Qed.

Lemma weighted_pressure_ranked (side : list (Q * Q)) (K : nat) :
  weighted_pressure side K == ranked_sum (weight_shifted K) 1 (firstn K side).
Proof.
  unfold weighted_pressure, enumerate. apply weighted_terms_ranked.
Qed.

Lemma guarded_imbalance_cases (a b : Q) :
  (0 < a + b -> guarded_imbalance a b == (a - b) / (a + b)) /\
  (a + b <= 0 -> guarded_imbalance a b == 0).
Proof.
  unfold guarded_imbalance. split; intros H.
  - apply Qltb_lt in H. rewrite H. reflexivity.
  - apply Qltb_ge in H. rewrite H. reflexivity.
Qed.

(** C4 as stated fails on the code.  On a book with bids of sizes 10, 20
    and asks of sizes 20, 10 (so K = 2) the weighted bid pressure is
    10*3 + 20*2 = 70 where the stated weights give 10*2 + 20*1 = 40, and
    the weighted imbalance is -1/15 where the stated weights give -1/9. *)
Lemma weights_are_not_K_down_to_one :
  exists f wb wi,
    get_order_book_features monday_10am monday_10am two_level_system = Ok (Some f) /\
    Features.bid_top f = [(100.00, 10); (99.00, 20)] /\
    Features.ask_top f = [(101.00, 20); (102.00, 10)] /\
    Features.weighted_bid_pressure f = Some wb /\ wb == 70 /\
    ranked_sum (weight_as_stated 2) 1 (Features.bid_top f) == 40 /\
    Features.weighted_imbalance f = Some wi /\ wi == - (1 # 15) /\
    weighted_imbalance_as_stated (Features.bid_top f) (Features.ask_top f) == - (1 # 9) /\
    ~ wi == weighted_imbalance_as_stated (Features.bid_top f) (Features.ask_top f).
Proof.
  do 3 eexists.
  split; [vm_compute; reflexivity|].
  cbn [Features.bid_top Features.ask_top Features.weighted_bid_pressure
       Features.weighted_imbalance].
  repeat split; try reflexivity.
  vm_compute. discriminate.
Qed.

Lemma weight_shifted_nonneg (K rank : nat) : 0 <= weight_shifted K rank.
Proof.
  unfold weight_shifted, Qle. simpl. lia.
Qed.

Lemma ranked_sum_nonneg (K rank : nat) (side : list (Q * Q)) :
  positive_sizes side -> 0 <= ranked_sum (weight_shifted K) rank side.
Proof.
  revert rank. induction side as [|[p size] side IH]; intros rank H; simpl.
  - lra.
  - inversion H as [|? ? Hsize Hrest]; subst. simpl in Hsize.
    specialize (IH (S rank) Hrest).
    pose proof (weight_shifted_nonneg K rank) as Hw.
    nra.
Qed.

Lemma ranked_sum_positive (K : nat) (side : list (Q * Q)) :
  positive_sizes side -> side <> [] -> 0 < ranked_sum (weight_shifted K) 1 side.
Proof.
  intros H Hne. destruct side as [|[p size] side]; [congruence|]. simpl.
  inversion H as [|? ? Hsize Hrest]; subst. simpl in Hsize.
  pose proof (ranked_sum_nonneg K 2 side Hrest) as Hsum.
  assert (Hw : 1 <= weight_shifted K 1).
  { unfold weight_shifted, Qle. simpl. lia. }
  nra.
Qed.

Lemma features_weighted (clk_s clk_q : Clock) (sys : UnifiedLevel2System.t)
      (f : Features.t) :
  get_order_book_features clk_s clk_q sys = Ok (Some f) ->
  exists snap wb wa wi,
    get_current_snapshot clk_s sys = Some snap /\
    Snapshot.bids snap <> [] /\ Snapshot.asks snap <> [] /\
    Features.weighted_bid_pressure f = Some wb /\
    Features.weighted_ask_pressure f = Some wa /\
    Features.weighted_imbalance f = Some wi /\
    let K := Nat.min 5 (Nat.min (length (Snapshot.bids snap))
                                (length (Snapshot.asks snap))) in
    wb == ranked_sum (weight_shifted K) 1 (firstn K (Snapshot.bids snap)) /\
    wa == ranked_sum (weight_shifted K) 1 (firstn K (Snapshot.asks snap)) /\
    (0 < wb + wa -> wi == (wb - wa) / (wb + wa)) /\
    (wb + wa <= 0 -> wi == 0).
Proof.
  intros H.
  unfold get_order_book_features in H.
  destruct (get_current_snapshot clk_s sys) as [snap|]; [|discriminate].
  exists snap.
  destruct (Snapshot.bids snap) as [|[bid0 bsize0] bids] eqn:Eb; [discriminate|].
  destruct (Snapshot.asks snap) as [|[ask0 asize0] asks] eqn:Ea; [discriminate|].
  destruct (calculate_microprice bid0 ask0 bsize0 asize0) as [m|e]; [|discriminate].
  cbn [bind] in H.
  destruct (calculate_queue_imbalance clk_q _ _ _) as [q|e]; [|discriminate].
  cbn [bind] in H.
  destruct (py_div (Snapshot.spread snap) m) as [r|e]; [|discriminate].
  cbn [bind] in H. injection H as <-.
  cbn [Features.weighted_bid_pressure Features.weighted_ask_pressure
       Features.weighted_imbalance].
  do 3 eexists. split; [reflexivity|].
  split; [discriminate|]. split; [discriminate|].
  do 3 (split; [reflexivity|]).
  cbv zeta. split; [|split; [|split]].
  - apply weighted_pressure_ranked.
  - apply weighted_pressure_ranked.
  - apply guarded_imbalance_cases.
  - apply guarded_imbalance_cases.
Qed.

Lemma firstn_nonempty {A : Type} (n : nat) (l : list A) :
  (1 <= n)%nat -> l <> [] -> firstn n l <> [].
Proof.
  intros Hn Hl. destruct n as [|n]; [lia|].
  destruct l as [|x l]; [congruence|]. discriminate.
Qed.

Lemma length_nonempty {A : Type} (l : list A) : l <> [] -> (1 <= length l)%nat.
Proof.
  destruct l; [congruence|]. simpl. lia.
Qed.

(** C4, amended.  Over the top K levels of each side, K the effective
    depth [min(5, len(bids), len(asks))], the weighted pressure of a side
    is the sum of its sizes weighted by descending rank, the rank-1 level
    with weight K + 1 and the rank-K level with weight 2; the weighted
    imbalance is [(weighted_bid - weighted_ask) / (weighted_bid +
    weighted_ask)] when that sum is positive, and 0 otherwise (so also
    when both sums are 0).  On every book the feed handler builds the sum
    is positive, and the imbalance is that quotient. *)
Theorem weighted_imbalance_rank_weights :
  (forall K : nat, weight_shifted K 1 == inject_Z (Z.of_nat K) + 1 /\
                   ((1 <= K)%nat -> weight_shifted K K == 2)) /\
  (forall (clk_s clk_q : Clock) (sys : UnifiedLevel2System.t) (f : Features.t),
     get_order_book_features clk_s clk_q sys = Ok (Some f) ->
     exists snap wb wa wi,
       get_current_snapshot clk_s sys = Some snap /\
       Features.weighted_bid_pressure f = Some wb /\
       Features.weighted_ask_pressure f = Some wa /\
       Features.weighted_imbalance f = Some wi /\
       let K := Nat.min 5 (Nat.min (length (Snapshot.bids snap))
                                   (length (Snapshot.asks snap))) in
       wb == ranked_sum (weight_shifted K) 1 (firstn K (Snapshot.bids snap)) /\
       wa == ranked_sum (weight_shifted K) 1 (firstn K (Snapshot.asks snap)) /\
       (0 < wb + wa -> wi == (wb - wa) / (wb + wa)) /\
       (wb + wa <= 0 -> wi == 0)) /\
  (forall (max_history : nat) (detect : bool) (batches : list (Clock * Ticker))
          (clk_s clk_q : Clock) (f : Features.t),
     get_order_book_features clk_s clk_q
       (apply_updates (init max_history detect) batches) = Ok (Some f) ->
     exists wb wa wi,
       Features.weighted_bid_pressure f = Some wb /\
       Features.weighted_ask_pressure f = Some wa /\
       Features.weighted_imbalance f = Some wi /\
       0 < wb + wa /\ wi == (wb - wa) / (wb + wa)).
Proof.
  split; [|split].
  - intros K. unfold weight_shifted. split.
    + replace (K + 2 - 1)%nat with (K + 1)%nat by lia.
      rewrite Nat2Z.inj_add, inject_Z_plus. reflexivity.
    + intros HK. replace (K + 2 - K)%nat with 2%nat by lia. reflexivity.
  - intros clk_s clk_q sys f H.
    destruct (features_weighted clk_s clk_q sys f H)
      as (snap & wb & wa & wi & Hs & _ & _ & Hb & Ha & Hi & Hrest).
    exists snap, wb, wa, wi. repeat (split; [assumption|]). exact Hrest.
  - intros max_history detect batches clk_s clk_q f H.
    destruct (features_weighted clk_s clk_q _ f H)
      as (snap & wb & wa & wi & Hs & Hbne & Hane & Hb & Ha & Hi & Hwb & Hwa & Hpos & _).
    assert (H0 : positive_sizes []) by constructor.
    destruct (BookProofs.apply_updates_positive batches (init max_history detect) H0 H0)
      as [Pb Pa].
    destruct (BookProofs.snapshot_positive clk_s _ snap Pb Pa Hs) as [Sb Sa].
    pose proof (length_nonempty _ Hbne) as Lb.
    pose proof (length_nonempty _ Hane) as La.
    set (K := Nat.min 5 (Nat.min (length (Snapshot.bids snap))
                                 (length (Snapshot.asks snap)))) in *.
    assert (HK : (1 <= K)%nat) by (unfold K; lia).
    assert (Hwb0 : 0 < wb).
    { rewrite Hwb. apply ranked_sum_positive.
      - now apply BookProofs.firstn_Forall.
      - now apply firstn_nonempty. }
    assert (Hwa0 : 0 < wa).
    { rewrite Hwa. apply ranked_sum_positive.
      - now apply BookProofs.firstn_Forall.
      - now apply firstn_nonempty. }
    exists wb, wa, wi. repeat (split; [assumption|]).
    assert (Hsum : 0 < wb + wa) by lra.
    split; [exact Hsum | exact (Hpos Hsum)].
Qed.

Lemma weighted_imbalance_rank_weights_witness :
  (exists snap wb wa wi,
     get_current_snapshot monday_10am two_level_system = Some snap /\
     Features.weighted_bid_pressure two_level_features = Some wb /\
     Features.weighted_ask_pressure two_level_features = Some wa /\
     Features.weighted_imbalance two_level_features = Some wi /\
     let K := Nat.min 5 (Nat.min (length (Snapshot.bids snap))
                                 (length (Snapshot.asks snap))) in
     wb == ranked_sum (weight_shifted K) 1 (firstn K (Snapshot.bids snap)) /\
     wa == ranked_sum (weight_shifted K) 1 (firstn K (Snapshot.asks snap)) /\
     (0 < wb + wa -> wi == (wb - wa) / (wb + wa)) /\
     (wb + wa <= 0 -> wi == 0)) /\
  (exists wb wa wi,
     Features.weighted_bid_pressure two_level_features = Some wb /\
     Features.weighted_ask_pressure two_level_features = Some wa /\
     Features.weighted_imbalance two_level_features = Some wi /\
     0 < wb + wa /\ wi == (wb - wa) / (wb + wa)).
Proof.
  split.
  - apply (proj1 (proj2 weighted_imbalance_rank_weights) monday_10am monday_5am
             two_level_system two_level_features).
    vm_compute. reflexivity.
  - apply (proj2 (proj2 weighted_imbalance_rank_weights) 1000%nat false
             [(monday_10am, two_level_batch)] monday_10am monday_5am
             two_level_features).
    vm_compute. reflexivity.
Defined.

End WeightedImbalanceProofs.

Module SignalProofs.
Import SignalGenerator Ref Examples.

Lemma Qltb_comp (x x' y y' : Q) : x == x' -> y == y' -> Qltb x y = Qltb x' y'.
Proof.
  intros Hx Hy. unfold Qltb. f_equal. now apply Qleb_comp.
Qed.

Lemma round_half_even_comp (x y : Q) : x == y -> round_half_even x = round_half_even y.
Proof.
  intros H. unfold round_half_even.
  rewrite (Qfloor_comp x y H).
  assert (Hr : x - inject_Z (Qfloor y) == y - inject_Z (Qfloor y)) by (rewrite H; reflexivity).
  rewrite (Qltb_comp _ _ (1 # 2) (1 # 2) Hr (Qeq_refl _)).
  rewrite (Qltb_comp (1 # 2) (1 # 2) _ _ (Qeq_refl _) Hr).
  reflexivity.
Qed.

Lemma py_round_comp (x y : Q) (n : nat) : x == y -> py_round x n = py_round y n.
Proof.
  intros H. unfold py_round. f_equal.
  apply round_half_even_comp. rewrite H. reflexivity.
Qed.

Lemma short_history_no_levels (g : SignalGenerator.t) :
  (length (price_history g) < 20)%nat ->
  find_support_resistance g = (g, Ok ([], [])).
Proof.
  intros H. unfold find_support_resistance.
  apply Nat.ltb_lt in H. now rewrite H.
Qed.

Lemma final_signal_cases (s : Q) :
  (3 <= s -> final_signal s = (BUY, py_round (Qmin (Qabs s / 8 * 100) 100) 1)) /\
  (s <= -3 -> final_signal s = (SELL, py_round (Qmin (Qabs s / 8 * 100) 100) 1)) /\
  (-3 < s -> s < 3 -> final_signal s = (NEUTRAL, py_round 30 1)).
Proof.
  unfold final_signal. split; [|split].
  - intros H. assert (E : Qle_bool 3 s = true) by now apply Qle_bool_iff.
    rewrite E. f_equal. apply py_round_comp.
    rewrite (Qabs_pos s) by lra. reflexivity.
  - intros H. destruct (Qle_bool 3 s) eqn:E1.
    { apply Qle_bool_iff in E1. lra. }
    assert (E : Qle_bool s (-3) = true) by now apply Qle_bool_iff.
    rewrite E. reflexivity.
  - intros Hlo Hhi. destruct (Qle_bool 3 s) eqn:E1.
    { apply Qle_bool_iff in E1. lra. }
    destruct (Qle_bool s (-3)) eqn:E2.
    { apply Qle_bool_iff in E2. lra. }
    reflexivity.
Qed.

Lemma generate_signal_scored (g g' : SignalGenerator.t) (f : Features.t)
      (h : option HiddenResults) (out : SignalOut) :
  generate_signal g (Some f) h = (g', Ok out) ->
  exists s, score out = Some s /\ (signal out, confidence out) = final_signal s.
Proof.
  unfold generate_signal.
  destruct (find_support_resistance g) as [g1 [[su re]|e]]; cbn [bind];
    [|discriminate].
  destruct (level_rule su re _ _) as [st|e]; cbn [bind]; [|discriminate].
  destruct (session_rule _ (hidden_rule h st)) as [s rs].
  destruct (final_signal s) as [sig conf] eqn:E.
  intros H. injection H as _ <-. exists s. split; [reflexivity|].
  cbn [signal confidence]. now rewrite E.
Qed.

Lemma generate_signal_warming_up (g : SignalGenerator.t) (f : Features.t)
      (h : option HiddenResults) :
  (length (price_history g) < 20)%nat ->
  generate_signal g (Some f) h
  = (g,
     let st := queue_rule (get_default (Features.queue_imbalance f) 0) (0, []) in
     let st := weighted_rule (get_default (Features.weighted_imbalance f) 0) st in
     let st := spread_rule (get_default (Features.spread_bps f) 0) st in
     let st := hidden_rule h st in
     let st := session_rule (get_default (Features.session f) "REGULAR") st in
     Ok (mkSignal (fst (final_signal (fst st))) (snd (final_signal (fst st)))
                  (snd st) (Some (fst st))
                  (Some (get_default (Features.microprice f)
                                     (get_default (Features.mid_price f) 0))))).
Proof.
  intros H. unfold generate_signal.
  rewrite (short_history_no_levels g H). cbn [bind level_rule]. cbv zeta.
  destruct (session_rule _ _) as [s rs]. cbn [fst snd].
  destruct (final_signal s) as [sig conf]. reflexivity.
Qed.




Lemma queue_rule_cases (q s : Q) (rs : list Reason) :
  (0.3 < q -> queue_rule q (s, rs) = (s + 3, rs ++ [StrongBuyPressure q])) /\
  (0.15 < q -> q <= 0.3 -> queue_rule q (s, rs) = (s + 1, rs ++ [ModerateBuyPressure q])) /\
  (q < -0.3 -> queue_rule q (s, rs) = (s - 3, rs ++ [StrongSellPressure q])) /\
  (-0.3 <= q -> q < -0.15 -> queue_rule q (s, rs) = (s - 1, rs ++ [ModerateSellPressure q])) /\
  (-0.15 <= q -> q <= 0.15 -> queue_rule q (s, rs) = (s, rs)).
Proof.
  unfold queue_rule.
  destruct (Qltb 0.3 q) eqn:E1; [apply Qltb_lt in E1 | apply Qltb_ge in E1];
  destruct (Qltb 0.15 q) eqn:E2; [apply Qltb_lt in E2 | apply Qltb_ge in E2 |
                                  apply Qltb_lt in E2 | apply Qltb_ge in E2];
  destruct (Qltb q (-0.3)) eqn:E3; [apply Qltb_lt in E3 | apply Qltb_ge in E3 |
                                    apply Qltb_lt in E3 | apply Qltb_ge in E3 |
                                    apply Qltb_lt in E3 | apply Qltb_ge in E3 |
                                    apply Qltb_lt in E3 | apply Qltb_ge in E3];
  destruct (Qltb q (-0.15)) eqn:E4;
    try apply Qltb_lt in E4; try apply Qltb_ge in E4;
  repeat split; intros; try reflexivity; exfalso; lra.
Qed.

(** C5 as stated fails on the code: a queue imbalance of exactly 0.30
    contributes +1 (moderate buy pressure), not +3, and a queue imbalance
    of exactly 0.15 contributes nothing, not +1. *)
Lemma queue_thresholds_are_not_inclusive :
  (exists out,
     snd (generate_signal SignalGenerator.default
            (Some (scorer_features None (Some 0.30) None None None)) None) = Ok out /\
     score out = Some 1 /\ reasons out = [ModerateBuyPressure 0.30] /\ ~ 1 == 3) /\
  (exists out,
     snd (generate_signal SignalGenerator.default
            (Some (scorer_features None (Some 0.15) None None None)) None) = Ok out /\
     score out = Some 0 /\ reasons out = [] /\ ~ 0 == 1).
Proof.
  split; eexists; (split; [vm_compute; reflexivity|]);
    cbn [score reasons]; repeat split; try reflexivity; vm_compute; discriminate.
Qed.

(** C5, amended.  The queue-imbalance rule of [generate_signal]
    contributes +3 when the queue imbalance is above 0.30, +1 when it is
    above 0.15 (and at most 0.30), -3 when it is below -0.30, -1 when it
    is below -0.15 (and at least -0.30), and nothing otherwise: a queue
    imbalance of exactly 0.30 contributes +1 and one of exactly 0.15
    contributes nothing (thresholds exclusive).  The first part states
    this of the rule on any running score, the second of the score
    [generate_signal] returns when the queue imbalance is the only
    feature and fewer than 20 prices are recorded. *)
Theorem queue_rule_exclusive_thresholds :
  (forall (q s : Q) (rs : list Reason),
     (0.3 < q -> fst (queue_rule q (s, rs)) = s + 3) /\
     (0.15 < q -> q <= 0.3 -> fst (queue_rule q (s, rs)) = s + 1) /\
     (q < -0.3 -> fst (queue_rule q (s, rs)) = s - 3) /\
     (-0.3 <= q -> q < -0.15 -> fst (queue_rule q (s, rs)) = s - 1) /\
     (-0.15 <= q -> q <= 0.15 -> fst (queue_rule q (s, rs)) = s) /\
     fst (queue_rule 0.30 (s, rs)) = s + 1 /\
     fst (queue_rule 0.15 (s, rs)) = s) /\
  (forall (g : SignalGenerator.t) (q : Q),
     (length (price_history g) < 20)%nat ->
     exists out s,
       generate_signal g (Some (scorer_features None (Some q) None None None)) None
       = (g, Ok out) /\
       score out = Some s /\
       (0.3 < q -> s == 3) /\
       (0.15 < q -> q <= 0.3 -> s == 1) /\
       (q < -0.3 -> s == -3) /\
       (-0.3 <= q -> q < -0.15 -> s == -1) /\
       (-0.15 <= q -> q <= 0.15 -> s == 0)).
Proof.
  split.
  - intros q s rs.
    destruct (queue_rule_cases q s rs) as (H1 & H2 & H3 & H4 & H5).
    repeat split; intros.
    + now rewrite H1.
    + now rewrite H2.
    + now rewrite H3.
    + now rewrite H4.
    + now rewrite H5.
  - intros g q Hg.
    rewrite (generate_signal_warming_up g _ None Hg).
    cbn [scorer_features Features.queue_imbalance Features.weighted_imbalance
         Features.spread_bps Features.session Features.microprice Features.mid_price
         get_default].
    destruct (queue_rule_cases q 0 []) as (H1 & H2 & H3 & H4 & H5).
    do 2 eexists. split; [reflexivity|]. split; [reflexivity|].
    cbn [score].
    repeat split; intros.
    + rewrite H1 by assumption. reflexivity.
    + rewrite H2 by assumption. reflexivity.
    + rewrite H3 by assumption. reflexivity.
    + rewrite H4 by assumption. reflexivity.
    + rewrite H5 by assumption. reflexivity.
Qed.

Lemma queue_rule_exclusive_thresholds_witness :
  fst (queue_rule 0.30 (0, [])) = 0 + 1 /\
  exists out s,
    generate_signal SignalGenerator.default
      (Some (scorer_features None (Some 0.30) None None None)) None
    = (SignalGenerator.default, Ok out) /\
    score out = Some s /\ s == 1.
Proof.
  split.
  - apply (proj1 queue_rule_exclusive_thresholds 0.30 0 []);
      vm_compute; first [reflexivity | discriminate].
  - destruct (proj2 queue_rule_exclusive_thresholds SignalGenerator.default 0.30)
      as (out & s & Hout & Hs & _ & Hmod & _).
    + vm_compute. lia.
    + exists out, s. split; [exact Hout|]. split; [exact Hs|].
      apply Hmod; vm_compute; first [reflexivity | discriminate].
Defined.

Lemma generate_signal_stages (g g' : SignalGenerator.t) (su re : list Q)
      (f : Features.t) (h : option HiddenResults) :
  find_support_resistance g = (g', Ok (su, re)) ->
  generate_signal g (Some f) h
  = (g',
     st <- level_rule su re (current_price_of f) (before_levels f) ;;
     Ok (after_levels f h st)).
Proof.
  intros H. unfold generate_signal. rewrite H. cbn [bind].
  fold (current_price_of f). fold (before_levels f).
  destruct (level_rule su re (current_price_of f) (before_levels f)) as [st|e];
    cbn [bind]; [|reflexivity].
  unfold after_levels.
  destruct (session_rule _ (hidden_rule h st)) as [s rs]. cbn [fst snd].
  destruct (final_signal s). reflexivity.
Qed.

Lemma level_rule_either_empty (su re : list Q) (cp : Q) (st : Q * list Reason) :
  su = [] \/ re = [] -> level_rule su re cp st = Ok st.
Proof.
  destruct su, re; intros [H|H]; try discriminate; reflexivity.
Qed.

Lemma within_half_percent_true (cp level : Q) :
  within_half_percent cp level ->
  Qltb (Qabs (cp - level) / cp) 0.005 = true.
Proof.
  intros H. now apply Qltb_lt.
Qed.

Lemma within_half_percent_false (cp level : Q) :
  ~ within_half_percent cp level ->
  Qltb (Qabs (cp - level) / cp) 0.005 = false.
Proof.
  intros H. destruct (Qltb (Qabs (cp - level) / cp) 0.005) eqn:E; [|reflexivity].
  apply Qltb_lt in E. contradiction.
Qed.

Lemma level_rule_both (su re : list Q) (cp s : Q) (rs : list Reason) :
  su <> [] -> re <> [] -> ~ cp == 0 ->
  level_rule su re cp (s, rs)
  = Ok (let st1 :=
          if Qltb (Qabs (cp - nearest su cp) / cp) 0.005
          then (s + 2, rs ++ [NearSupport (nearest su cp)])
          else (s, rs) in
        if Qltb (Qabs (cp - nearest re cp) / cp) 0.005
        then (fst st1 - 2, snd st1 ++ [NearResistance (nearest re cp)])
        else st1).
Proof.
  intros Hsu Hre Hcp.
  destruct su as [|x su]; [congruence|]. destruct re as [|y re]; [congruence|].
  unfold level_rule, py_div.
  destruct (Qeq_bool cp 0) eqn:E; [apply Qeq_bool_eq in E; contradiction|].
  cbn [bind]. fold (nearest (x :: su) cp). fold (nearest (y :: re) cp).
  destruct (Qltb (Qabs (cp - nearest (x :: su) cp) / cp) 0.005); reflexivity.
Qed.




End SignalProofs.

(** * Further properties of the code *)

(** Refutes an equation between two different numbers. *)
Ltac nonzero := let H := fresh in intros H; vm_compute in H; discriminate H.

Module BufferProofs.
Import UnifiedLevel2System Feed.

#[local] Arguments deque_append : simpl never.

Lemma deque_append_length {A : Type} (maxlen : nat) (d : list A) (x : A) :
  length (deque_append maxlen d x) = Nat.min (S (length d)) maxlen.
Proof.
  unfold deque_append. rewrite length_skipn, length_app. cbn [length]. lia.
Qed.

Lemma deque_append_last {A : Type} (maxlen : nat) (d : list A) (x dflt : A) :
  (1 <= maxlen)%nat -> last (deque_append maxlen d x) dflt = x.
Proof.
  intros Hm. unfold deque_append.
  assert (Hk : (length (d ++ [x]) - maxlen <= length d)%nat)
    by (rewrite length_app; simpl; lia).
  rewrite skipn_app.
  replace (length (d ++ [x]) - maxlen - length d)%nat with 0%nat by lia.
  simpl. apply last_last.
Qed.

Lemma history_append_bounded (h : list ((BookSide * Q) * list LevelSample))
      (key : BookSide * Q) (sample : LevelSample) :
  Forall (fun entry => (1 <= length (snd entry) <= 50)%nat) h ->
  Forall (fun entry => (1 <= length (snd entry) <= 50)%nat)
         (HiddenOrderDetector.history_append h key sample).
Proof.
  induction h as [|[k samples] rest IH]; simpl; intros H.
  - constructor; [|constructor]. simpl. lia.
  - inversion H as [|? ? Hk Hrest]; subst.
    destruct (HiddenOrderDetector.key_eqb k key).
    + constructor; [|exact Hrest]. simpl. rewrite deque_append_length. lia.
    + constructor; [exact Hk | now apply IH].
Qed.

Lemma fold_history_append_bounded (side : BookSide) (timestamp : Z)
      (levels : list (Q * Q)) (h : list ((BookSide * Q) * list LevelSample)) :
  Forall (fun entry => (1 <= length (snd entry) <= 50)%nat) h ->
  Forall (fun entry => (1 <= length (snd entry) <= 50)%nat)
         (fold_left (fun h ps => HiddenOrderDetector.history_append h (side, fst ps)
                                   (mkSample timestamp (snd ps)))
                    levels h).
Proof.
  revert h. induction levels as [|ps levels IH]; simpl; intros h H; [exact H|].
  apply IH. now apply history_append_bounded.
Qed.

Lemma add_trade_bounded (d : HiddenOrderDetector.t) (price size : Q)
      (side : TradeSide) (timestamp : Z) :
  detector_bounded d ->
  detector_bounded (HiddenOrderDetector.add_trade d price size side timestamp).
Proof.
  unfold detector_bounded. intros (H1 & H2 & H3 & H4 & H5 & H6). simpl.
  rewrite !deque_append_length. repeat split; try assumption; lia.
Qed.

Lemma add_price_update_bounded (d : HiddenOrderDetector.t) (price : Q) (timestamp : Z) :
  detector_bounded d ->
  detector_bounded (HiddenOrderDetector.add_price_update d price timestamp).
Proof.
  unfold detector_bounded. intros (H1 & H2 & H3 & H4 & H5 & H6). simpl.
  rewrite !deque_append_length. repeat split; try assumption; lia.
Qed.

Lemma add_order_book_snapshot_bounded (d : HiddenOrderDetector.t)
      (bids asks : list (Q * Q)) (timestamp : Z) :
  detector_bounded d ->
  detector_bounded (HiddenOrderDetector.add_order_book_snapshot d bids asks timestamp).
Proof.
  unfold detector_bounded. intros (H1 & H2 & H3 & H4 & H5 & H6). simpl.
  rewrite deque_append_length.
  repeat split; try assumption; try lia.
  now apply fold_history_append_bounded, fold_history_append_bounded.
Qed.

Lemma add_trade_aligned (d : HiddenOrderDetector.t) (price size : Q)
      (side : TradeSide) (timestamp : Z) :
  detector_aligned d ->
  detector_aligned (HiddenOrderDetector.add_trade d price size side timestamp).
Proof.
  unfold detector_aligned. intros [H1 H2]. simpl.
  rewrite !deque_append_length. split; [lia | exact H2].
Qed.

Lemma add_price_update_aligned (d : HiddenOrderDetector.t) (price : Q) (timestamp : Z) :
  detector_aligned d ->
  detector_aligned (HiddenOrderDetector.add_price_update d price timestamp).
Proof.
  unfold detector_aligned. intros [H1 H2]. simpl.
  rewrite !deque_append_length. split; [exact H1 | lia].
Qed.

Lemma step_max_history (sys : UnifiedLevel2System.t) (ev : Event) :
  max_history (step sys ev) = max_history sys.
Proof.
  destruct ev as [clk ticker|tick]; simpl.
  - unfold _on_ticker_update. destruct (_ && _); reflexivity.
  - unfold _on_trade. destruct (detect_hidden_orders sys); [|reflexivity].
    destruct (hidden_detector sys); reflexivity.
Qed.

Lemma step_bounded (sys : UnifiedLevel2System.t) (ev : Event) :
  (length (order_book_history sys) <= max_history sys)%nat /\
  on_detector detector_bounded sys /\ on_detector detector_aligned sys ->
  (length (order_book_history (step sys ev)) <= max_history (step sys ev))%nat /\
  on_detector detector_bounded (step sys ev) /\
  on_detector detector_aligned (step sys ev).
Proof.
  intros (Hh & Hb & Ha). rewrite step_max_history.
  unfold on_detector in *.
  destruct ev as [clk ticker|tick]; simpl.
  - unfold _on_ticker_update. destruct (_ && _); simpl.
    + rewrite deque_append_length. split; [lia|].
      destruct (hidden_detector sys) as [d|]; [|split; exact I].
      split; [now apply add_order_book_snapshot_bounded | exact Ha].
    + repeat split; assumption.
  - unfold _on_trade. destruct (detect_hidden_orders sys); [|repeat split; assumption].
    destruct (hidden_detector sys) as [d|] eqn:E; simpl; [|rewrite E; tauto].
    split; [exact Hh|]. split.
    + now apply add_price_update_bounded, add_trade_bounded.
    + now apply add_price_update_aligned, add_trade_aligned.
Qed.

Lemma run_bounded (events : list Event) (sys : UnifiedLevel2System.t) :
  (length (order_book_history sys) <= max_history sys)%nat /\
  on_detector detector_bounded sys /\ on_detector detector_aligned sys ->
  (length (order_book_history (run sys events)) <= max_history (run sys events))%nat /\
  on_detector detector_bounded (run sys events) /\
  on_detector detector_aligned (run sys events).
Proof.
  unfold run. revert sys. induction events as [|ev events IH]; simpl; intros sys H.
  - exact H.
  - apply IH. now apply step_bounded.
Qed.

Lemma init_bounded (max_history : nat) (detect : bool) :
  (length (order_book_history (init max_history detect)) <= max_history)%nat /\
  on_detector detector_bounded (init max_history detect) /\
  on_detector detector_aligned (init max_history detect).
Proof.
  split; [simpl; lia|]. unfold on_detector, detector_bounded, detector_aligned.
  destruct detect; simpl; repeat split; try lia; constructor.
Qed.

Lemma run_max_history (events : list Event) (sys : UnifiedLevel2System.t) :
  max_history (run sys events) = max_history sys.
Proof.
  unfold run. revert sys. induction events as [|ev events IH]; simpl; intros sys.
  - reflexivity.
  - rewrite IH. apply step_max_history.
Qed.

(** X1.  Whatever the feed delivers, every rolling buffer stays within its
    capacity: the book history holds at most [max_history] records, and
    the detector at most 1000 trades, 200 prices, 100 depth snapshots and
    50 samples per price level (the number of price levels tracked is not
    capped). *)
Theorem buffers_stay_bounded :
  forall (max_history : nat) (detect : bool) (events : list Event),
    let sys := run (init max_history detect) events in
    (length (order_book_history sys) <= max_history)%nat /\
    on_detector detector_bounded sys.
Proof.
  intros mh detect events sys.
  destruct (run_bounded events _ (init_bounded mh detect)) as (H1 & H2 & _).
  fold sys in H1, H2. unfold sys in H1 at 2.
  rewrite run_max_history in H1. split; assumption.
Qed.

End BufferProofs.

Module TapeProofs.
Import UnifiedLevel2System Feed.

Lemma hd_In {A : Type} (l : list A) (dflt : A) : l <> [] -> In (hd dflt l) l.
Proof.
  destruct l; [congruence|]. intros _. now left.
Qed.

Lemma last_In {A : Type} (l : list A) (dflt : A) : l <> [] -> In (last l dflt) l.
Proof.
  induction l as [|x l IH]; [congruence|]. intros _.
  destruct l as [|y l]; [now left|].
  right. apply IH. discriminate.
Qed.

Lemma recent_index_in_range (cutoff : Z) (timestamps : list Z) (i : nat) :
  In i (map fst (filter (fun its => (cutoff <=? snd its)%Z) (enumerate timestamps))) ->
  (i < length timestamps)%nat.
Proof.
  intros H. apply in_map_iff in H. destruct H as [[j ts] [Hj Hin]].
  simpl in Hj. subst j. apply filter_In in Hin. destruct Hin as [Hin _].
  unfold enumerate in Hin. apply in_combine_l in Hin.
  apply in_seq in Hin. lia.
Qed.

Lemma py_index_in_range (l : list Q) (i : nat) :
  (i < length l)%nat -> exists x, py_index l i = Ok x /\ In x l.
Proof.
  intros H. unfold py_index.
  destruct (nth_error l i) as [x|] eqn:E.
  - exists x. split; [reflexivity|]. now apply nth_error_In in E.
  - apply nth_error_None in E. lia.
Qed.

(** On aligned buffers the price change is undefined, or the division of
    two recorded prices' difference by the first of them. *)
Lemma calculate_price_change_aligned (clk : Clock) (d : HiddenOrderDetector.t)
      (seconds : Z) :
  detector_aligned d ->
  HiddenOrderDetector.calculate_price_change clk d seconds = Ok None \/
  exists start_price end_price,
    In start_price (HiddenOrderDetector.price_history d) /\
    In end_price (HiddenOrderDetector.price_history d) /\
    HiddenOrderDetector.calculate_price_change clk d seconds
    = (change <- py_div (end_price - start_price) start_price ;; Ok (Some change)).
Proof.
  intros [_ Hlen]. unfold HiddenOrderDetector.calculate_price_change.
  destruct (length (HiddenOrderDetector.price_history d) <? 2)%nat; [now left|].
  set (recent := map fst (filter _ (enumerate (HiddenOrderDetector.timestamp_history d)))).
  destruct (length recent <? 2)%nat eqn:E; [now left|]. right.
  apply Nat.ltb_ge in E.
  assert (Hne : recent <> []) by (destruct recent; [simpl in E; lia | discriminate]).
  destruct (py_index_in_range (HiddenOrderDetector.price_history d) (hd 0%nat recent))
    as [sp [Hsp Hspin]].
  { rewrite Hlen. apply (recent_index_in_range (HiddenOrderDetector.cutoff_time clk seconds)).
    now apply hd_In. }
  destruct (py_index_in_range (HiddenOrderDetector.price_history d) (last recent 0%nat))
    as [ep [Hep Hepin]].
  { rewrite Hlen. apply (recent_index_in_range (HiddenOrderDetector.cutoff_time clk seconds)).
    now apply last_In. }
  exists sp, ep. rewrite Hsp, Hep. cbn [bind]. auto.
Qed.

Lemma detect_hidden_orders_aligned (clk_v clk_p : Clock) (d : HiddenOrderDetector.t) :
  detector_aligned d ->
  (exists r, HiddenOrderDetector.detect_hidden_orders clk_v clk_p d = Ok r) \/
  (HiddenOrderDetector.detect_hidden_orders clk_v clk_p d = Raise ZeroDivisionError /\
   exists p, In p (HiddenOrderDetector.price_history d) /\ p == 0).
Proof.
  intros Hal. unfold HiddenOrderDetector.detect_hidden_orders.
  destruct (_ || _); [left; eauto|].
  destruct (IcebergProofs.detect_iceberg_orders_returns d) as [ice Hice].
  destruct (calculate_price_change_aligned clk_p d 30 Hal) as [E|(sp & ep & Hsp & Hep & E)];
    rewrite E.
  - cbn [bind]. rewrite Hice. cbn [bind]. left. eauto.
  - unfold py_div. destruct (Qeq_bool sp 0) eqn:Ez.
    + right. split; [reflexivity|]. exists sp. split; [exact Hsp|].
      now apply Qeq_bool_eq.
    + cbn [bind]. rewrite Hice. cbn [bind]. left. eauto.
Qed.

Lemma step_prices (P : Q -> Prop) (sys : UnifiedLevel2System.t) (ev : Event) :
  on_detector (fun d => Forall P (HiddenOrderDetector.price_history d)) sys ->
  Forall (fun t => P (tick_price t)) (ticks_of [ev]) ->
  on_detector (fun d => Forall P (HiddenOrderDetector.price_history d)) (step sys ev).
Proof.
  unfold on_detector. intros H Ht.
  destruct ev as [clk ticker|tick]; simpl.
  - unfold _on_ticker_update. destruct (_ && _); simpl; [|exact H].
    destruct (hidden_detector sys); [exact H | exact I].
  - unfold _on_trade. destruct (detect_hidden_orders sys); [|exact H].
    destruct (hidden_detector sys) as [d|] eqn:E; simpl; [|now rewrite E].
    apply BookProofs.deque_append_Forall; [exact H|].
    simpl in Ht. now inversion Ht.
Qed.

Lemma run_prices (P : Q -> Prop) (events : list Event) (sys : UnifiedLevel2System.t) :
  on_detector (fun d => Forall P (HiddenOrderDetector.price_history d)) sys ->
  Forall (fun t => P (tick_price t)) (ticks_of events) ->
  on_detector (fun d => Forall P (HiddenOrderDetector.price_history d)) (run sys events).
Proof.
  unfold run. revert sys. induction events as [|ev events IH]; simpl; intros sys H Ht.
  - exact H.
  - change (ticks_of (ev :: events)) with (ticks_of [ev] ++ ticks_of events) in Ht.
    apply Forall_app in Ht. destruct Ht as [Hev Hrest].
    apply IH; [|exact Hrest].
    apply (step_prices P); [exact H | destruct ev; exact Hev].
Qed.

(** X2.  On a system driven by the feed, hidden-order detection never fails on
    an index: it returns, or raises ZeroDivisionError because a price of
    zero was recorded.  When no trade tick has a zero price it always
    returns. *)
Theorem hidden_detection_returns :
  forall (max_history : nat) (detect : bool) (events : list Event)
         (clk_v clk_p : Clock) (d : HiddenOrderDetector.t),
    hidden_detector (run (init max_history detect) events) = Some d ->
    ((exists r, HiddenOrderDetector.detect_hidden_orders clk_v clk_p d = Ok r) \/
     HiddenOrderDetector.detect_hidden_orders clk_v clk_p d = Raise ZeroDivisionError) /\
    (Forall (fun t => ~ tick_price t == 0) (ticks_of events) ->
     exists r, HiddenOrderDetector.detect_hidden_orders clk_v clk_p d = Ok r).
Proof.
  intros mh detect events clk_v clk_p d Hd.
  destruct (BufferProofs.run_bounded events _ (BufferProofs.init_bounded mh detect))
    as (_ & _ & Hal).
  unfold on_detector in Hal. rewrite Hd in Hal.
  destruct (detect_hidden_orders_aligned clk_v clk_p d Hal) as [Hok|[Hraise Hzero]].
  - split; [now left | intros _; exact Hok].
  - split; [now right|]. intros Hticks. exfalso.
    assert (Hp : on_detector
                   (fun d => Forall (fun p => ~ p == 0) (HiddenOrderDetector.price_history d))
                   (run (init mh detect) events)).
    { apply (run_prices (fun p => ~ p == 0)); [|exact Hticks].
      unfold on_detector. destruct detect; simpl; [constructor | exact I]. }
    unfold on_detector in Hp. rewrite Hd in Hp.
    destruct Hzero as (p & Hin & Hz).
    rewrite Forall_forall in Hp. exact (Hp p Hin Hz).
Qed.

Lemma hidden_detection_returns_witness :
  exists r,
    HiddenOrderDetector.detect_hidden_orders Examples.monday_10am Examples.monday_10am
      FeedExamples.flat_tape_detector = Ok r.
Proof.
  assert (Hd : UnifiedLevel2System.hidden_detector
                 (Feed.run (UnifiedLevel2System.init 100 true) FeedExamples.flat_tape)
               = Some FeedExamples.flat_tape_detector) by (vm_compute; reflexivity).
  apply (hidden_detection_returns 100 true FeedExamples.flat_tape Examples.monday_10am
           Examples.monday_10am FeedExamples.flat_tape_detector Hd).
  vm_compute Feed.ticks_of. repeat constructor; nonzero.
Defined.

End TapeProofs.

Module LevelProofs.
Import HiddenOrderDetector Levels Ref.

Lemma key_eqb_true (a b : BookSide * Q) : key_eqb a b = true <-> same_key a b.
Proof.
  unfold key_eqb, same_key. rewrite andb_true_iff, Qeq_bool_iff.
  destruct a as [[|] pa], b as [[|] pb]; simpl; intuition congruence.
Qed.

Lemma key_eqb_false (a b : BookSide * Q) : key_eqb a b = false <-> ~ same_key a b.
Proof.
  rewrite <- key_eqb_true. destruct (key_eqb a b); intuition congruence.
Qed.

Lemma same_key_sym (a b : BookSide * Q) : same_key a b -> same_key b a.
Proof.
  unfold same_key. intros [H1 H2]. split; [congruence | now symmetry].
Qed.

Lemma same_key_trans (a b c : BookSide * Q) : same_key a b -> same_key b c -> same_key a c.
Proof.
  unfold same_key. intros [H1 H2] [H3 H4]. split; [congruence|].
  now rewrite H2.
Qed.

Lemma lookup_history_append (h : list ((BookSide * Q) * list LevelSample))
      (key key' : BookSide * Q) (sample : LevelSample) :
  lookup (history_append h key sample) key'
  = if key_eqb key key' then deque_append 50 (lookup h key') sample else lookup h key'.
Proof.
  unfold lookup. induction h as [|[k0 samples] rest IH]; cbn [history_append find fst snd].
  - destruct (key_eqb key key'); reflexivity.
  - destruct (key_eqb k0 key) eqn:E0; cbn [find fst snd].
    + apply key_eqb_true in E0.
      destruct (key_eqb key key') eqn:E1.
      * apply key_eqb_true in E1.
        assert (E2 : key_eqb k0 key' = true)
          by (apply key_eqb_true; eapply same_key_trans; eassumption).
        rewrite E2. reflexivity.
      * apply key_eqb_false in E1.
        assert (E2 : key_eqb k0 key' = false).
        { apply key_eqb_false. intros Hk. apply E1.
          eapply same_key_trans; [apply same_key_sym; eassumption | exact Hk]. }
        rewrite E2. reflexivity.
    + apply key_eqb_false in E0.
      destruct (key_eqb k0 key') eqn:E2.
      * apply key_eqb_true in E2.
        assert (E1 : key_eqb key key' = false).
        { apply key_eqb_false. intros Hk. apply E0.
          eapply same_key_trans; [exact E2 | apply same_key_sym; exact Hk]. }
        rewrite E1. reflexivity.
      * exact IH.
Qed.

Lemma lookup_fold_other (side side' : BookSide) (timestamp : Z) (levels : list (Q * Q))
      (h : list ((BookSide * Q) * list LevelSample)) (price : Q) :
  side <> side' \/ ~ InA Qeq price (map fst levels) ->
  lookup (fold_left (fun h ps => history_append h (side, fst ps)
                                   (mkSample timestamp (snd ps)))
                    levels h) (side', price)
  = lookup h (side', price).
Proof.
  revert h. induction levels as [|[p s] levels IH]; intros h H; [reflexivity|].
  cbn [fold_left fst snd]. rewrite IH.
  - rewrite lookup_history_append.
    assert (E : key_eqb (side, p) (side', price) = false).
    { apply key_eqb_false. intros [Hs Hp]. simpl in Hs, Hp.
      destruct H as [H|H]; [contradiction|]. apply H. simpl. left. now symmetry. }
    now rewrite E.
  - destruct H as [H|H]; [now left|]. right. intros Hin. apply H. simpl. now right.
Qed.

Lemma lookup_fold_member (side : BookSide) (timestamp : Z) (levels : list (Q * Q))
      (h : list ((BookSide * Q) * list LevelSample)) (price size : Q) :
  distinct_prices levels -> In (price, size) levels ->
  lookup (fold_left (fun h ps => history_append h (side, fst ps)
                                   (mkSample timestamp (snd ps)))
                    levels h) (side, price)
  = deque_append 50 (lookup h (side, price)) (mkSample timestamp size).
Proof.
  unfold distinct_prices.
  revert h. induction levels as [|[p s] levels IH]; intros h Hd Hin; [contradiction|].
  cbn [fold_left fst snd]. cbn [map fst] in Hd.
  inversion Hd as [|? ? Hp Hrest]; subst.
  destruct Hin as [Heq|Hin].
  - injection Heq as -> ->.
    rewrite lookup_fold_other by (right; exact Hp).
    rewrite lookup_history_append.
    assert (E : key_eqb (side, price) (side, price) = true)
      by (apply key_eqb_true; split; reflexivity).
    now rewrite E.
  - rewrite (IH _ Hrest Hin). rewrite lookup_history_append.
    assert (E : key_eqb (side, p) (side, price) = false).
    { apply key_eqb_false. intros [_ Hk]. simpl in Hk. apply Hp.
      apply InA_alt. exists price. split; [exact Hk|].
      apply in_map_iff. exists (price, size). split; [reflexivity | exact Hin]. }
    now rewrite E.
Qed.

(** X3.  Recording a depth snapshot whose sides have pairwise different prices
    appends exactly one sample, carrying the snapshot's time and the
    level's size, to the history of every level in the snapshot, and
    leaves the history of every other level as it was. *)
Theorem snapshot_round_trip :
  forall (d : HiddenOrderDetector.t) (bids asks : list (Q * Q)) (timestamp : Z),
    distinct_prices bids -> distinct_prices asks ->
    let d' := add_order_book_snapshot d bids asks timestamp in
    (forall price size, In (price, size) bids ->
       level_history d' Bid price
       = deque_append 50 (level_history d Bid price) (mkSample timestamp size)) /\
    (forall price size, In (price, size) asks ->
       level_history d' Ask price
       = deque_append 50 (level_history d Ask price) (mkSample timestamp size)) /\
    (forall price, ~ InA Qeq price (map fst bids) ->
       level_history d' Bid price = level_history d Bid price) /\
    (forall price, ~ InA Qeq price (map fst asks) ->
       level_history d' Ask price = level_history d Ask price).
Proof.
  intros d bids asks timestamp Hb Ha d'.
  unfold d', level_history, add_order_book_snapshot. cbn [price_level_history].
  repeat split.
  - intros price size Hin.
    change (lookup (fold_left (fun h ps => history_append h (Ask, fst ps)
                                            (mkSample timestamp (snd ps))) asks
                      (fold_left (fun h ps => history_append h (Bid, fst ps)
                                                (mkSample timestamp (snd ps))) bids
                         (price_level_history d))) (Bid, price)
            = deque_append 50 (lookup (price_level_history d) (Bid, price))
                (mkSample timestamp size)).
    rewrite lookup_fold_other by (left; discriminate).
    now apply lookup_fold_member.
  - intros price size Hin.
    change (lookup (fold_left (fun h ps => history_append h (Ask, fst ps)
                                            (mkSample timestamp (snd ps))) asks
                      (fold_left (fun h ps => history_append h (Bid, fst ps)
                                                (mkSample timestamp (snd ps))) bids
                         (price_level_history d))) (Ask, price)
            = deque_append 50 (lookup (price_level_history d) (Ask, price))
                (mkSample timestamp size)).
    rewrite (lookup_fold_member Ask timestamp asks _ price size Ha Hin).
    now rewrite lookup_fold_other by (left; discriminate).
  - intros price Hnot.
    change (lookup (fold_left (fun h ps => history_append h (Ask, fst ps)
                                            (mkSample timestamp (snd ps))) asks
                      (fold_left (fun h ps => history_append h (Bid, fst ps)
                                                (mkSample timestamp (snd ps))) bids
                         (price_level_history d))) (Bid, price)
            = lookup (price_level_history d) (Bid, price)).
    rewrite lookup_fold_other by (left; discriminate).
    now rewrite lookup_fold_other by (right; exact Hnot).
  - intros price Hnot.
    change (lookup (fold_left (fun h ps => history_append h (Ask, fst ps)
                                            (mkSample timestamp (snd ps))) asks
                      (fold_left (fun h ps => history_append h (Bid, fst ps)
                                                (mkSample timestamp (snd ps))) bids
                         (price_level_history d))) (Ask, price)
            = lookup (price_level_history d) (Ask, price)).
    rewrite lookup_fold_other by (right; exact Hnot).
    now rewrite lookup_fold_other by (left; discriminate).
Qed.

Lemma snapshot_round_trip_witness :
  Levels.level_history
    (HiddenOrderDetector.add_order_book_snapshot Examples.refill_detector
       [(100, 10); (99, 20)] [(101, 20)] 7) Bid 100
  = deque_append 50 (Levels.level_history Examples.refill_detector Bid 100) (mkSample 7 10).
Proof.
  assert (Hb : Ref.distinct_prices [(100, 10); (99, 20)]).
  { unfold Ref.distinct_prices. cbn [map fst].
    repeat constructor; intros H; inversion H as [? ? E|? ? E]; subst;
      first [vm_compute in E; discriminate E | inversion E]. }
  assert (Ha : Ref.distinct_prices [(101, 20)]).
  { unfold Ref.distinct_prices. cbn [map fst].
    repeat constructor; intros H; inversion H. }
  destruct (snapshot_round_trip Examples.refill_detector _ _ 7 Hb Ha) as (Hbids & _).
  apply Hbids. now left.
Defined.

End LevelProofs.

Module RefillProofs.
Import HiddenOrderDetector Ref Levels Reports Feed.

Lemma no_consecutive_refills (a b c e : Q) :
  0 < a -> refill_strict a b c = true -> refill_strict b c e = false.
Proof.
  unfold refill_strict. intros Ha H.
  apply andb_true_iff in H. destruct H as [H1 H2].
  apply Qltb_lt in H1. apply Qltb_lt in H2.
  destruct (Qltb c (b * 0.5)) eqn:E; [|reflexivity].
  apply Qltb_lt in E. exfalso. lra.
Qed.

Lemma window_count_bound (n : nat) :
  forall sizes : list Q,
    (length sizes <= n)%nat -> Forall (fun s => 0 < s) sizes ->
    (2 * window_count refill_strict sizes <= length sizes - 1)%nat.
Proof.
  induction n as [n IH] using (well_founded_induction lt_wf).
  intros sizes Hlen Hpos.
  destruct sizes as [|a [|b [|c t]]]; try (simpl; lia).
  inversion Hpos as [|? ? Ha Hrest]; subst.
  change (window_count refill_strict (a :: b :: c :: t))
    with ((if refill_strict a b c then 1 else 0)
          + window_count refill_strict (b :: c :: t))%nat.
  destruct (refill_strict a b c) eqn:E.
  - inversion Hrest as [|? ? Hb Hrest']; subst.
    assert (Hskip : window_count refill_strict (b :: c :: t)
                    = window_count refill_strict (c :: t)).
    { destruct t as [|e t]; [reflexivity|].
      change (window_count refill_strict (b :: c :: e :: t))
        with ((if refill_strict b c e then 1 else 0)
              + window_count refill_strict (c :: e :: t))%nat.
      now rewrite (no_consecutive_refills a b c e Ha E). }
    rewrite Hskip.
    assert (H2 := IH (length (c :: t)) ltac:(simpl in *; lia) (c :: t) (le_n _) Hrest').
    simpl in *. lia.
  - assert (H2 := IH (length (b :: c :: t)) ltac:(simpl in *; lia)
                     (b :: c :: t) (le_n _) Hrest).
    simpl in *. lia.
Qed.

Lemma count_refills_bound (sizes : list Q) :
  Forall (fun s => 0 < s) sizes ->
  (2 * count_refills sizes <= length sizes - 1)%nat.
Proof.
  intros Hpos. rewrite IcebergProofs.count_refills_windows.
  now apply (window_count_bound (length sizes)).
Qed.



Lemma py_sum_positive (l : list Q) :
  Forall (fun s => 0 < s) l -> l <> [] -> 0 < py_sum l.
Proof.
  induction l as [|x l IH]; [congruence|]. intros H _.
  inversion H as [|? ? Hx Hl]; subst.
  rewrite WeightedImbalanceProofs.py_sum_cons.
  destruct l as [|y l].
  - unfold py_sum. simpl. lra.
  - assert (0 < py_sum (y :: l)) by (apply IH; [exact Hl | discriminate]). lra.
Qed.

Lemma np_mean_positive (l : list Q) (m : Q) :
  Forall (fun s => 0 < s) l -> l <> [] -> np_mean l = Ok m -> 0 < m.
Proof.
  intros Hpos Hne. unfold np_mean, py_div.
  destruct (Qeq_bool _ 0); [discriminate|]. intros H. injection H as <-.
  assert (Hs := py_sum_positive l Hpos Hne).
  assert (Hn : 0 < inject_Z (Z.of_nat (length l))).
  { destruct l; [congruence|]. unfold Qlt. simpl. lia. }
  apply Qlt_shift_div_l; [exact Hn | lra].
Qed.

Lemma scan_level_sound (d : HiddenOrderDetector.t) (icebergs : list Iceberg)
      (entry : (BookSide * Q) * list LevelSample) :
  In entry (price_level_history d) ->
  Forall (fun sample => 0 < ls_size sample) (snd entry) ->
  Forall (iceberg_sound d) icebergs ->
  exists l, scan_level d icebergs entry = Ok l /\
            Forall (iceberg_sound d) l /\
            (length l <= S (length icebergs))%nat.
Proof.
  destruct entry as [[side price] history]. cbn [snd]. intros Hin Hpos Hacc.
  unfold scan_level.
  destruct (length history <? 5)%nat eqn:E5; [eauto|].
  apply Nat.ltb_ge in E5.
  destruct (refresh_count (thresholds d) <=? count_refills (map ls_size history))%nat
    eqn:Er; [|eauto].
  apply Nat.leb_le in Er.
  destruct (IcebergProofs.np_mean_returns (map ls_size history)) as [m Hm].
  { rewrite length_map. lia. }
  rewrite Hm. cbn [bind].
  eexists. split; [reflexivity|]. split.
  - apply Forall_app. split; [exact Hacc|]. constructor; [|constructor].
    assert (Hsizes : Forall (fun s => 0 < s) (map ls_size history)).
    { apply Forall_map. exact Hpos. }
    exists history. cbn [ice_side ice_price ice_refills ice_strength ice_avg_size].
    split; [exact Hin|]. split; [exact E5|]. split; [reflexivity|]. split; [exact Er|].
    split.
    { pose proof (count_refills_bound _ Hsizes) as Hb.
      rewrite length_map in Hb. lia. }
    split.
    { destruct (5 <=? count_refills (map ls_size history))%nat eqn:Eh.
      - apply Nat.leb_le in Eh. tauto.
      - apply Nat.leb_gt in Eh. split; [discriminate | lia]. }
    split; [exact Hm|].
    apply (np_mean_positive (map ls_size history)); [exact Hsizes | | exact Hm].
    destruct history; [simpl in E5; lia | discriminate].
  - rewrite length_app. simpl. lia.
Qed.

Lemma scan_levels_sound (d : HiddenOrderDetector.t)
      (entries : list ((BookSide * Q) * list LevelSample)) (acc : list Iceberg) :
  (forall entry, In entry entries -> In entry (price_level_history d)) ->
  Forall (fun entry => Forall (fun sample => 0 < ls_size sample) (snd entry)) entries ->
  Forall (iceberg_sound d) acc ->
  exists l,
    fold_left (fun acc entry => icebergs <- acc ;; scan_level d icebergs entry)
              entries (Ok acc) = Ok l /\
    Forall (iceberg_sound d) l /\
    (length l <= length acc + length entries)%nat.
Proof.
  revert acc. induction entries as [|entry entries IH]; intros acc Hsub Hpos Hacc.
  - exists acc. simpl. repeat split; [exact Hacc | lia].
  - inversion Hpos as [|? ? He Hrest]; subst.
    destruct (scan_level_sound d acc entry (Hsub entry (or_introl eq_refl)) He Hacc)
      as (l1 & H1 & Hs1 & Hl1).
    cbn [fold_left bind]. rewrite H1.
    destruct (IH l1 (fun e Hin => Hsub e (or_intror Hin)) Hrest Hs1) as (l & H2 & Hs & Hl).
    exists l. split; [exact H2|]. split; [exact Hs|]. simpl. lia.
Qed.

Lemma detect_iceberg_orders_sound (d : HiddenOrderDetector.t) :
  positive_histories d ->
  exists l, detect_iceberg_orders d = Ok l /\
            Forall (iceberg_sound d) l /\
            (length l <= length (price_level_history d))%nat /\
            ((length (order_book_snapshots d) < 5)%nat -> l = []).
Proof.
  intros Hpos. unfold detect_iceberg_orders.
  destruct (length (order_book_snapshots d) <? 5)%nat eqn:E.
  - exists []. repeat split; [constructor | simpl; lia].
  - apply Nat.ltb_ge in E.
    destruct (scan_levels_sound d (price_level_history d) [] (fun e H => H) Hpos
                (Forall_nil _)) as (l & H & Hs & Hl).
    exists l. repeat split; try assumption. lia.
Qed.

Lemma history_append_positive (h : list ((BookSide * Q) * list LevelSample))
      (key : BookSide * Q) (sample : LevelSample) :
  0 < ls_size sample ->
  Forall (fun entry => Forall (fun s => 0 < ls_size s) (snd entry)) h ->
  Forall (fun entry => Forall (fun s => 0 < ls_size s) (snd entry))
         (history_append h key sample).
Proof.
  intros Hs. induction h as [|[k samples] rest IH]; cbn [history_append]; intros H.
  - constructor; [|constructor]. cbn [snd].
    apply BookProofs.deque_append_Forall; [constructor | exact Hs].
  - inversion H as [|? ? Hk Hrest]; subst.
    destruct (key_eqb k key).
    + constructor; [|exact Hrest]. cbn [snd] in *.
      now apply BookProofs.deque_append_Forall.
    + constructor; [exact Hk | now apply IH].
Qed.

Lemma fold_history_append_positive (side : BookSide) (timestamp : Z)
      (levels : list (Q * Q)) (h : list ((BookSide * Q) * list LevelSample)) :
  positive_sizes levels ->
  Forall (fun entry => Forall (fun s => 0 < ls_size s) (snd entry)) h ->
  Forall (fun entry => Forall (fun s => 0 < ls_size s) (snd entry))
         (fold_left (fun h ps => history_append h (side, fst ps)
                                   (mkSample timestamp (snd ps)))
                    levels h).
Proof.
  unfold positive_sizes. revert h.
  induction levels as [|ps levels IH]; cbn [fold_left]; intros h Hl H; [exact H|].
  inversion Hl as [|? ? Hp Hrest]; subst.
  apply IH; [exact Hrest|]. now apply history_append_positive.
Qed.

Lemma step_positive_histories (sys : UnifiedLevel2System.t) (ev : Event) :
  on_detector positive_histories sys -> on_detector positive_histories (step sys ev).
Proof.
  unfold on_detector, positive_histories. intros H.
  destruct ev as [clk ticker|tick]; cbn [step].
  - unfold UnifiedLevel2System._on_ticker_update. destruct (_ && _); [|exact H].
    cbn [UnifiedLevel2System.hidden_detector].
    destruct (UnifiedLevel2System.hidden_detector sys) as [d|]; [|exact I].
    cbn [add_order_book_snapshot price_level_history].
    apply fold_history_append_positive.
    + apply BookProofs.firstn_Forall, BookProofs.py_sorted_Forall,
        BookProofs.aggregate_positive.
    + apply fold_history_append_positive; [|exact H].
      apply BookProofs.firstn_Forall, BookProofs.py_sorted_Forall,
        BookProofs.aggregate_positive.
  - unfold UnifiedLevel2System._on_trade.
    destruct (UnifiedLevel2System.detect_hidden_orders sys); [|exact H].
    destruct (UnifiedLevel2System.hidden_detector sys) as [d|] eqn:E;
      cbn [UnifiedLevel2System.hidden_detector]; [exact H | now rewrite E].
Qed.

Lemma run_positive_histories (events : list Event) (sys : UnifiedLevel2System.t) :
  on_detector positive_histories sys ->
  on_detector positive_histories (run sys events).
Proof.
  unfold run. revert sys. induction events as [|ev events IH]; simpl; intros sys H.
  - exact H.
  - apply IH. now apply step_positive_histories.
Qed.



End RefillProofs.

Module FeatureProofs.
Import UnifiedLevel2System Ref Feed Sides.

Lemma step_book (sys : UnifiedLevel2System.t) (ev : Event) :
  (current_bids (step sys ev) = current_bids sys /\
   current_asks (step sys ev) = current_asks sys) \/
  exists ticker, current_bids (step sys ev) = aggregate (domBids ticker) /\
                 current_asks (step sys ev) = aggregate (domAsks ticker).
Proof.
  destruct ev as [clk ticker|tick]; cbn [step].
  - right. exists ticker. apply BookProofs.book_after_update.
  - left. unfold _on_trade. destruct (detect_hidden_orders sys); [|now split].
    destruct (hidden_detector sys); now split.
Qed.

(** What holds of the empty side and of every aggregated side holds of
    both sides of a book the feed built. *)
Lemma run_book_invariant (P : list (Q * Q) -> Prop) :
  P [] -> (forall levels, P (aggregate levels)) ->
  forall (max_history : nat) (detect : bool) (events : list Event),
    P (current_bids (run (init max_history detect) events)) /\
    P (current_asks (run (init max_history detect) events)).
Proof.
  intros Hnil Hagg mh detect events. unfold run.
  assert (H : forall sys, P (current_bids sys) /\ P (current_asks sys) ->
                          P (current_bids (fold_left step events sys)) /\
                          P (current_asks (fold_left step events sys))).
  { induction events as [|ev events IH]; simpl; intros sys Hs; [exact Hs|].
    apply IH. destruct (step_book sys ev) as [[Eb Ea]|[ticker [Eb Ea]]];
      rewrite Eb, Ea; [exact Hs | split; apply Hagg]. }
  apply H. simpl. now split.
Qed.

Lemma round_half_even_nonneg (x : Q) : 0 <= x -> (0 <= round_half_even x)%Z.
Proof.
  intros Hx. unfold round_half_even.
  assert (Hf : (0 <= Qfloor x)%Z).
  { change 0%Z with (Qfloor 0). now apply Qfloor_resp_le. }
  destruct (Qltb _ _); [exact Hf|].
  destruct (Qltb _ _); [lia|].
  destruct (Z.even _); lia.
Qed.

Lemma py_round_nonneg (x : Q) (n : nat) : 0 <= x -> 0 <= py_round x n.
Proof.
  intros Hx. unfold py_round, Qle. simpl. rewrite Z.mul_1_r.
  apply round_half_even_nonneg.
  apply Qmult_le_0_compat; [exact Hx|]. unfold Qle. simpl. lia.
Qed.

Lemma aggregate_nonneg_prices (levels : list DOMLevel) : nonneg_prices (aggregate levels).
Proof.
  unfold aggregate.
  assert (H : forall book, nonneg_prices book ->
                           nonneg_prices (fold_left aggregate_level levels book)).
  { induction levels as [|l levels IH]; simpl; intros book Hb; [exact Hb|].
    apply IH. unfold aggregate_level.
    destruct (Qltb 0 (dl_price l)) eqn:Ep; [|exact Hb].
    destruct (Qltb 0 (dl_size l)); [|exact Hb]. cbn [andb].
    apply Qltb_lt in Ep.
    destruct (dict_contains _ book).
    - unfold nonneg_prices in *. rewrite Forall_forall in *.
      intros [p s] Hin.
      assert (Hk : In p (map fst (dict_add (py_round (dl_price l) 2) (dl_size l) book)))
        by (apply in_map_iff; exists (p, s); split; [reflexivity | exact Hin]).
      rewrite BookProofs.dict_add_keys in Hk. apply in_map_iff in Hk.
      destruct Hk as [[p' s'] [Heq Hin']]. simpl in Heq. subst p'.
      exact (Hb _ Hin').
    - apply Forall_app. split; [exact Hb|]. constructor; [|constructor].
      cbn [fst]. apply py_round_nonneg. lra. }
  apply H. constructor.
Qed.

Lemma py_sum_nonneg (l : list Q) : Forall (fun x => 0 <= x) l -> 0 <= py_sum l.
Proof.
  induction l as [|x l IH]; intros H.
  - unfold py_sum. simpl. lra.
  - inversion H; subst. rewrite WeightedImbalanceProofs.py_sum_cons.
    specialize (IH H3). lra.
Qed.

Lemma enumerated_terms_nonneg (side : list (Q * Q)) (term : nat * (Q * Q) -> Q) :
  positive_sizes side ->
  (forall i ps, 0 < snd ps -> 0 <= term (i, ps)) ->
  0 <= py_sum (map term (enumerate side)).
Proof.
  intros Hpos Hterm. apply py_sum_nonneg. apply Forall_map.
  rewrite Forall_forall. intros [i ps] Hin. apply Hterm.
  unfold enumerate in Hin. apply in_combine_r in Hin.
  unfold positive_sizes in Hpos. rewrite Forall_forall in Hpos. now apply Hpos.
Qed.

Lemma pressure_nonneg (side : list (Q * Q)) (levels : nat) :
  positive_sizes side -> 0 <= pressure side levels.
Proof.
  intros Hpos. unfold pressure. apply enumerated_terms_nonneg.
  - now apply BookProofs.firstn_Forall.
  - intros i ps Hs. cbn [fst snd].
    apply Qle_shift_div_l; [unfold Qlt; simpl; lia | lra].
Qed.

Lemma weighted_pressure_nonneg (side : list (Q * Q)) (depth : nat) :
  positive_sizes side -> 0 <= weighted_pressure side depth.
Proof.
  intros Hpos. unfold weighted_pressure. apply enumerated_terms_nonneg.
  - now apply BookProofs.firstn_Forall.
  - intros i ps Hs. cbn [fst snd].
    apply Qmult_le_0_compat; [lra | unfold Qle; simpl; lia].
Qed.

Lemma volume_nonneg (side : list (Q * Q)) (depth : nat) :
  positive_sizes side -> 0 <= volume side depth.
Proof.
  intros Hpos. unfold volume. apply py_sum_nonneg. apply Forall_map.
  apply BookProofs.firstn_Forall with (n := depth) in Hpos.
  unfold positive_sizes in Hpos. rewrite Forall_forall in *.
  intros ps Hin. specialize (Hpos ps Hin). simpl in Hpos. lra.
Qed.

Lemma ratio_in_unit_interval (a b : Q) :
  0 <= a -> 0 <= b -> 0 < a + b -> -1 <= (a - b) / (a + b) /\ (a - b) / (a + b) <= 1.
Proof.
  intros Ha Hb Hs. split.
  - apply Qle_shift_div_l; [exact Hs | lra].
  - apply Qle_shift_div_r; [exact Hs | lra].
Qed.

Lemma guarded_imbalance_in_unit_interval (a b : Q) :
  0 <= a -> 0 <= b -> -1 <= guarded_imbalance a b /\ guarded_imbalance a b <= 1.
Proof.
  intros Ha Hb. unfold guarded_imbalance.
  destruct (Qltb 0 (a + b)) eqn:E.
  - apply Qltb_lt in E. now apply ratio_in_unit_interval.
  - split; lra.
Qed.

Lemma calculate_queue_imbalance_in_unit_interval (clk : Clock) (bids asks : list (Q * Q))
      (levels : nat) :
  positive_sizes bids -> positive_sizes asks ->
  exists q, calculate_queue_imbalance clk bids asks levels = Ok q /\ -1 <= q /\ q <= 1.
Proof.
  intros Hb Ha. unfold calculate_queue_imbalance.
  destruct (is_empty bids || is_empty asks).
  { exists 0. split; [reflexivity|]. split; lra. }
  set (n := if extended_session (get_market_session clk) then _ else levels).
  pose proof (pressure_nonneg bids n Hb) as Hpb.
  pose proof (pressure_nonneg asks n Ha) as Hpa.
  destruct (Qeq_bool (pressure bids n + pressure asks n) 0) eqn:E.
  { exists 0. split; [reflexivity|]. split; lra. }
  unfold py_div. rewrite E. eexists. split; [reflexivity|].
  apply Qeq_bool_neq in E. apply ratio_in_unit_interval; try assumption.
  destruct (Qlt_le_dec 0 (pressure bids n + pressure asks n)) as [H|H]; [exact H|].
  exfalso. apply E. lra.
Qed.

Lemma snapshot_sides (clk : Clock) (sys : UnifiedLevel2System.t) (snap : Snapshot.t) :
  get_current_snapshot clk sys = Some snap ->
  Snapshot.bids snap = sorted_bids (current_bids sys) /\
  Snapshot.asks snap = sorted_asks (current_asks sys) /\
  (exists size rest, Snapshot.bids snap = (Snapshot.best_bid snap, size) :: rest) /\
  (exists size rest, Snapshot.asks snap = (Snapshot.best_ask snap, size) :: rest) /\
  Snapshot.spread snap = Snapshot.best_ask snap - Snapshot.best_bid snap /\
  Snapshot.bid_count snap = length (Snapshot.bids snap) /\
  Snapshot.ask_count snap = length (Snapshot.asks snap).
Proof.
  unfold get_current_snapshot.
  destruct (is_empty (current_bids sys) || is_empty (current_asks sys)); [discriminate|].
  destruct (sorted_bids (current_bids sys)) as [|[b0 bs0] bids] eqn:Eb; [discriminate|].
  destruct (sorted_asks (current_asks sys)) as [|[a0 as0] asks] eqn:Ea; [discriminate|].
  intros H. injection H as <-. simpl. repeat split; eauto.
Qed.

(** X6.  Every imbalance feature of a book the feed built (queue, weighted,
    volume and top-of-book size imbalance) lies between -1 and 1. *)
Theorem imbalances_in_unit_interval :
  forall (max_history : nat) (detect : bool) (events : list Event)
         (clk_s clk_q : Clock) (f : Features.t) (x : Q),
    get_order_book_features clk_s clk_q (run (init max_history detect) events)
    = Ok (Some f) ->
    In (Some x) (imbalances f) ->
    -1 <= x /\ x <= 1.
Proof.
  intros mh detect events clk_s clk_q f x H Hin.
  destruct (run_book_invariant positive_sizes (Forall_nil _) BookProofs.aggregate_positive
              mh detect events) as [Pb Pa].
  unfold get_order_book_features in H.
  destruct (get_current_snapshot clk_s _) as [snap|] eqn:Es; [|discriminate].
  destruct (BookProofs.snapshot_positive clk_s _ snap Pb Pa Es) as [Sb Sa].
  destruct (Snapshot.bids snap) as [|[bid0 bsize0] bids] eqn:Eb; [discriminate|].
  destruct (Snapshot.asks snap) as [|[ask0 asize0] asks] eqn:Ea; [discriminate|].
  destruct (calculate_microprice bid0 ask0 bsize0 asize0) as [m|e]; [|discriminate].
  cbn [bind] in H.
  destruct (calculate_queue_imbalance_in_unit_interval clk_q
              ((bid0, bsize0) :: bids) ((ask0, asize0) :: asks)
              (Nat.min 5 (Nat.min (length ((bid0, bsize0) :: bids))
                                  (length ((ask0, asize0) :: asks)))) Sb Sa)
    as (q & Hq & Hq1 & Hq2).
  rewrite Hq in H. cbn [bind] in H.
  destruct (py_div (Snapshot.spread snap) m) as [r|e]; [|discriminate].
  cbn [bind] in H. injection H as <-.
  unfold imbalances in Hin.
  cbn [Features.queue_imbalance Features.weighted_imbalance Features.volume_imbalance
       Features.size_imbalance_top] in Hin.
  assert (Hs0 : 0 < bsize0) by (inversion Sb; assumption).
  assert (Ha0 : 0 < asize0) by (inversion Sa; assumption).
  destruct Hin as [Hx|[Hx|[Hx|[Hx|[]]]]]; injection Hx as <-.
  - now split.
  - apply guarded_imbalance_in_unit_interval; now apply weighted_pressure_nonneg.
  - apply guarded_imbalance_in_unit_interval; now apply volume_nonneg.
  - apply guarded_imbalance_in_unit_interval; lra.
Qed.

Lemma imbalances_in_unit_interval_witness :
  -1 <= get_default (Features.queue_imbalance Examples.two_level_features) 0 /\
  get_default (Features.queue_imbalance Examples.two_level_features) 0 <= 1.
Proof.
  assert (Hf : UnifiedLevel2System.get_order_book_features Examples.monday_10am
                 Examples.monday_5am
                 (Feed.run (UnifiedLevel2System.init 1000 false) FeedExamples.two_level_feed)
               = Ok (Some Examples.two_level_features)) by (vm_compute; reflexivity).
  apply (imbalances_in_unit_interval 1000 false FeedExamples.two_level_feed Examples.monday_10am
           Examples.monday_5am Examples.two_level_features _ Hf).
  left. vm_compute. reflexivity.
Defined.

End FeatureProofs.

Module FeatureErrorProofs.
Import UnifiedLevel2System Ref Feed Sides.

Lemma snapshot_Forall (P : Q * Q -> Prop) (clk : Clock) (sys : UnifiedLevel2System.t)
      (snap : Snapshot.t) :
  Forall P (current_bids sys) -> Forall P (current_asks sys) ->
  get_current_snapshot clk sys = Some snap ->
  Forall P (Snapshot.bids snap) /\ Forall P (Snapshot.asks snap).
Proof.
  intros Hb Ha Hs.
  destruct (FeatureProofs.snapshot_sides clk sys snap Hs) as (Eb & Ea & _).
  rewrite Eb, Ea. unfold sorted_bids, sorted_asks.
  split; apply BookProofs.firstn_Forall, BookProofs.py_sorted_Forall; assumption.
Qed.

Lemma microprice_of_positive_sizes (best_bid best_ask bid_size ask_size : Q) :
  0 < bid_size -> 0 < ask_size ->
  calculate_microprice best_bid best_ask bid_size ask_size
  = Ok ((best_bid * ask_size + best_ask * bid_size) / (bid_size + ask_size)).
Proof.
  intros Hb Ha. unfold calculate_microprice, py_div.
  destruct (Qeq_bool (bid_size + ask_size) 0) eqn:E; [|reflexivity].
  apply Qeq_bool_eq in E. lra.
Qed.

Lemma features_on_sound_book (clk_s clk_q : Clock) (sys : UnifiedLevel2System.t)
      (snap : Snapshot.t) :
  positive_sizes (current_bids sys) -> positive_sizes (current_asks sys) ->
  nonneg_prices (current_bids sys) -> nonneg_prices (current_asks sys) ->
  get_current_snapshot clk_s sys = Some snap ->
  0 <= Snapshot.best_bid snap /\ 0 <= Snapshot.best_ask snap /\
  (0 < Snapshot.best_bid snap \/ 0 < Snapshot.best_ask snap ->
   exists f m, get_order_book_features clk_s clk_q sys = Ok (Some f) /\
               Features.microprice f = Some m /\ 0 < m) /\
  (Snapshot.best_bid snap == 0 -> Snapshot.best_ask snap == 0 ->
   get_order_book_features clk_s clk_q sys = Raise ZeroDivisionError).
Proof.
  intros Pb Pa Nb Na Hs.
  destruct (snapshot_Forall _ clk_s sys snap Pb Pa Hs) as [Sb Sa].
  destruct (snapshot_Forall _ clk_s sys snap Nb Na Hs) as [Tb Ta].
  destruct (FeatureProofs.snapshot_sides clk_s sys snap Hs)
    as (_ & _ & (bs & brest & Eb) & (sa & arest & Ea) & Esp & _).
  rewrite Eb in Sb, Tb. rewrite Ea in Sa, Ta.
  assert (Hbs : 0 < bs) by (inversion Sb; assumption).
  assert (Hsa : 0 < sa) by (inversion Sa; assumption).
  assert (Hbb : 0 <= Snapshot.best_bid snap) by (inversion Tb; assumption).
  assert (Hba : 0 <= Snapshot.best_ask snap) by (inversion Ta; assumption).
  split; [exact Hbb|]. split; [exact Hba|].
  unfold get_order_book_features. rewrite Hs, Eb, Ea.
  rewrite (microprice_of_positive_sizes _ _ _ _ Hbs Hsa). cbn [bind].
  destruct (FeatureProofs.calculate_queue_imbalance_in_unit_interval clk_q
              ((Snapshot.best_bid snap, bs) :: brest)
              ((Snapshot.best_ask snap, sa) :: arest)
              (Nat.min 5 (Nat.min (length ((Snapshot.best_bid snap, bs) :: brest))
                                  (length ((Snapshot.best_ask snap, sa) :: arest))))
              Sb Sa) as (q & Hq & _).
  rewrite Hq. cbn [bind].
  set (m := (Snapshot.best_bid snap * sa + Snapshot.best_ask snap * bs) / (bs + sa)).
  split.
  - intros Hpos.
    assert (Hm : 0 < m).
    { unfold m. apply Qlt_shift_div_l; [lra|]. destruct Hpos; nra. }
    unfold py_div.
    destruct (Qeq_bool m 0) eqn:E; [apply Qeq_bool_eq in E; lra|].
    cbn [bind]. do 2 eexists. split; [reflexivity|].
    cbn [Features.microprice]. split; [reflexivity | exact Hm].
  - intros Hb0 Ha0.
    assert (Hm : m == 0).
    { unfold m. rewrite Hb0, Ha0. field. lra. }
    unfold py_div. apply Qeq_eq_bool in Hm. rewrite Hm. reflexivity.
Qed.

(** X7.  On a book the feed built, the best bid and the best ask are never
    negative, and feature extraction fails in one case only: when both
    round to 0.00 the microprice is 0 and the spread in basis points
    divides by it (ZeroDivisionError).  Otherwise the features are
    returned and the microprice is positive. *)
Theorem features_fail_only_at_zero_prices :
  forall (max_history : nat) (detect : bool) (events : list Event)
         (clk_s clk_q : Clock) (snap : Snapshot.t),
    let sys := run (init max_history detect) events in
    get_current_snapshot clk_s sys = Some snap ->
    0 <= Snapshot.best_bid snap /\ 0 <= Snapshot.best_ask snap /\
    (0 < Snapshot.best_bid snap \/ 0 < Snapshot.best_ask snap ->
     exists f m, get_order_book_features clk_s clk_q sys = Ok (Some f) /\
                 Features.microprice f = Some m /\ 0 < m) /\
    (Snapshot.best_bid snap == 0 -> Snapshot.best_ask snap == 0 ->
     get_order_book_features clk_s clk_q sys = Raise ZeroDivisionError).
Proof.
  intros mh detect events clk_s clk_q snap sys Hs.
  destruct (FeatureProofs.run_book_invariant positive_sizes (Forall_nil _)
              BookProofs.aggregate_positive mh detect events) as [Pb Pa].
  destruct (FeatureProofs.run_book_invariant nonneg_prices (Forall_nil _)
              FeatureProofs.aggregate_nonneg_prices mh detect events) as [Nb Na].
  now apply features_on_sound_book.
Qed.

Lemma features_fail_only_at_zero_prices_witness :
  UnifiedLevel2System.get_order_book_features Examples.monday_10am Examples.monday_10am
    (Feed.run (UnifiedLevel2System.init 1000 false) FeedExamples.sub_cent_feed)
  = Raise ZeroDivisionError.
Proof.
  assert (Hs : UnifiedLevel2System.get_current_snapshot Examples.monday_10am
                 (Feed.run (UnifiedLevel2System.init 1000 false) FeedExamples.sub_cent_feed)
               = Some (FeedExamples.snapshot_of Examples.monday_10am
                         (Feed.run (UnifiedLevel2System.init 1000 false)
                             FeedExamples.sub_cent_feed)))
    by (vm_compute; reflexivity).
  apply (features_fail_only_at_zero_prices 1000 false FeedExamples.sub_cent_feed
      Examples.monday_10am
           Examples.monday_10am _ Hs); vm_compute; reflexivity.
Defined.

End FeatureErrorProofs.

Module LadderProofs.
Import UnifiedLevel2System Ref Feed Ladder.

Lemma item_ltb_true (a b : Q * Q) :
  item_ltb a b = true <-> fst a < fst b \/ (fst a == fst b /\ snd a < snd b).
Proof.
  unfold item_ltb. rewrite orb_true_iff, andb_true_iff, !Qltb_lt, Qeq_bool_iff.
  reflexivity.
Qed.

Lemma item_ltb_false (a b : Q * Q) :
  item_ltb a b = false <-> fst b < fst a \/ (fst a == fst b /\ snd b <= snd a).
Proof.
  split.
  - intros H.
    destruct (Q_dec (fst a) (fst b)) as [[Hlt|Hgt]|Heq].
    + assert (item_ltb a b = true) by (apply item_ltb_true; now left). congruence.
    + now left.
    + right. split; [exact Heq|].
      destruct (Qlt_le_dec (snd a) (snd b)) as [Hs|Hs]; [|exact Hs].
      assert (item_ltb a b = true) by (apply item_ltb_true; now right). congruence.
  - intros H. destruct (item_ltb a b) eqn:E; [|reflexivity].
    apply item_ltb_true in E. exfalso.
    destruct H as [H|[H1 H2]], E as [E|[E1 E2]]; lra.
Qed.

Section InsertionSort.
Variable ltb : Q * Q -> Q * Q -> bool.
Hypothesis ltb_asym : forall a b, ltb a b = true -> ltb b a = false.
Hypothesis ltb_negtrans :
  forall a b c, ltb b a = false -> ltb c b = false -> ltb c a = false.

(** [a] does not come after [b]. *)
Let before (a b : Q * Q) : Prop := ltb b a = false.

Lemma insert_by_sorted (x : Q * Q) (l : list (Q * Q)) :
  StronglySorted before l -> StronglySorted before (insert_by ltb x l).
Proof.
  induction l as [|y l IH]; simpl; intros Hs.
  - constructor; constructor.
  - inversion Hs as [|? ? Hl Hy]; subst.
    destruct (ltb y x) eqn:E.
    + constructor; [now apply IH|].
      apply BookProofs.insert_by_Forall; [|exact Hy].
      unfold before. now apply ltb_asym.
    + constructor; [exact Hs|]. constructor; [exact E|].
      rewrite Forall_forall in *. intros z Hz.
      unfold before in *. apply (ltb_negtrans x y z); [exact E | now apply Hy].
Qed.

Lemma py_sorted_sorted (l : list (Q * Q)) : StronglySorted before (py_sorted ltb l).
Proof.
  induction l as [|x l IH]; [constructor|].
  change (py_sorted ltb (x :: l)) with (insert_by ltb x (py_sorted ltb l)).
  now apply insert_by_sorted.
Qed.

Lemma insert_by_In (x y : Q * Q) (l : list (Q * Q)) :
  In y (insert_by ltb x l) <-> y = x \/ In y l.
Proof.
  induction l as [|z l IH]; simpl; [intuition|].
  destruct (ltb z x); simpl; rewrite ?IH; intuition.
Qed.

Lemma py_sorted_In (y : Q * Q) (l : list (Q * Q)) :
  In y (py_sorted ltb l) <-> In y l.
Proof.
  induction l as [|x l IH]; [reflexivity|].
  change (py_sorted ltb (x :: l)) with (insert_by ltb x (py_sorted ltb l)).
  rewrite insert_by_In, IH. simpl. intuition.
Qed.

End InsertionSort.

Lemma item_ltb_asym (a b : Q * Q) : item_ltb a b = true -> item_ltb b a = false.
Proof.
  intros H. apply item_ltb_true in H. apply item_ltb_false.
  destruct H as [H|[H1 H2]]; [now left|]. right. split; [now symmetry | lra].
Qed.

Lemma item_ltb_negtrans (a b c : Q * Q) :
  item_ltb b a = false -> item_ltb c b = false -> item_ltb c a = false.
Proof.
  intros H1 H2. apply item_ltb_false in H1. apply item_ltb_false in H2.
  apply item_ltb_false.
  destruct H1 as [H1|[H1 H1']], H2 as [H2|[H2 H2']].
  - left. lra.
  - left. lra.
  - left. lra.
  - right. split; [lra | lra].
Qed.

Lemma item_gtb_asym (a b : Q * Q) : item_gtb a b = true -> item_gtb b a = false.
Proof.
  unfold item_gtb. apply item_ltb_asym.
Qed.

Lemma item_gtb_negtrans (a b c : Q * Q) :
  item_gtb b a = false -> item_gtb c b = false -> item_gtb c a = false.
Proof.
  unfold item_gtb. intros H1 H2.
  destruct (item_ltb a c) eqn:E; [|reflexivity].
  assert (H3 : item_ltb c a = false) by now apply item_ltb_asym.
  pose proof (item_ltb_negtrans c b a) as Hn.
  (* a < c with not (a < b): so b <= a < c, against not (b < c) *)
  apply item_ltb_true in E. apply item_ltb_false in H1. apply item_ltb_false in H2.
  exfalso.
  destruct E as [E|[E E']], H1 as [H1|[H1 H1']], H2 as [H2|[H2 H2']]; lra.
Qed.

Lemma strict_of_distinct (strict weak : Q * Q -> Q * Q -> Prop) (l : list (Q * Q)) :
  (forall a b, weak a b -> ~ fst a == fst b -> strict a b) ->
  distinct_prices l -> StronglySorted weak l -> StronglySorted strict l.
Proof.
  intros Hsw. unfold distinct_prices.
  induction l as [|a l IH]; intros Hd Hs; [constructor|].
  inversion Hd as [|? ? Ha Hrest]; subst.
  inversion Hs as [|? ? Hl Hall]; subst.
  constructor; [now apply IH|].
  rewrite Forall_forall in *. intros b Hb. apply Hsw; [now apply Hall|].
  intros Heq. apply Ha. apply InA_alt. exists (fst b). split; [exact Heq|].
  now apply in_map.
Qed.

Lemma sorted_asks_ascending (book : list (Q * Q)) :
  distinct_prices book -> ascending (py_sorted item_ltb book).
Proof.
  intros Hd. unfold ascending.
  apply (strict_of_distinct _ (fun a b => item_ltb b a = false)).
  - intros a b Hw Hne. apply item_ltb_false in Hw.
    destruct Hw as [Hw|[Hw _]]; [exact Hw|]. exfalso. apply Hne. now symmetry.
  - now apply BookProofs.py_sorted_distinct.
  - apply py_sorted_sorted; [exact item_ltb_asym | exact item_ltb_negtrans].
Qed.

Lemma sorted_bids_descending (book : list (Q * Q)) :
  distinct_prices book -> descending (py_sorted item_gtb book).
Proof.
  intros Hd. unfold descending.
  apply (strict_of_distinct _ (fun a b => item_gtb b a = false)).
  - intros a b Hw Hne. unfold item_gtb in Hw. apply item_ltb_false in Hw.
    destruct Hw as [Hw|[Hw _]]; [exact Hw|]. exfalso. apply Hne. exact Hw.
  - now apply BookProofs.py_sorted_distinct.
  - apply py_sorted_sorted; [exact item_gtb_asym | exact item_gtb_negtrans].
Qed.

Lemma firstn_In {A : Type} (n : nat) (l : list A) (x : A) :
  In x (firstn n l) -> In x l.
Proof.
  revert l. induction n as [|n IH]; intros [|y l] H; simpl in *; try contradiction.
  destruct H as [H|H]; [now left | right; now apply IH].
Qed.

Lemma StronglySorted_firstn {A : Type} (R : A -> A -> Prop) (n : nat) (l : list A) :
  StronglySorted R l -> StronglySorted R (firstn n l).
Proof.
  revert l. induction n as [|n IH]; intros [|x l] H; simpl; try constructor.
  - apply IH. now inversion H.
  - inversion H; subst. now apply BookProofs.firstn_Forall.
Qed.

Lemma StronglySorted_split {A : Type} (R : A -> A -> Prop) (l1 l2 : list A) :
  StronglySorted R (l1 ++ l2) -> forall a b, In a l1 -> In b l2 -> R a b.
Proof.
  induction l1 as [|x l1 IH]; simpl; intros H a b Ha Hb; [contradiction|].
  inversion H as [|? ? Hs Hall]; subst.
  destruct Ha as [<-|Ha].
  - rewrite Forall_forall in Hall. apply Hall. apply in_or_app. now right.
  - now apply (IH Hs).
Qed.

Lemma top_of_sorted {A : Type} (R : A -> A -> Prop) (n : nat) (l : list A) (x : A) :
  StronglySorted R l -> In x l ->
  In x (firstn n l) \/
  (length (firstn n l) = n /\ forall y, In y (firstn n l) -> R y x).
Proof.
  intros Hs Hin. rewrite <- (firstn_skipn n l) in Hin, Hs.
  apply in_app_or in Hin. destruct Hin as [Hin|Hin]; [now left|]. right. split.
  - rewrite length_firstn. apply Nat.min_l.
    destruct (Nat.le_gt_cases n (length l)) as [H|H]; [exact H|].
    rewrite skipn_all2 in Hin by lia. contradiction.
  - intros y Hy. now apply (StronglySorted_split R _ _ Hs).
Qed.

(** X8.  The snapshot of a book the feed built lists at most 20 bids, highest
    price first with prices strictly falling, and at most 20 asks, lowest
    price first with prices strictly rising.  Every level listed is a
    level of the live book; a level of the live book that is not listed
    is beyond the 20 listed ones: below every listed bid, above every
    listed ask. *)
Theorem snapshot_is_sorted_top_20 :
  forall (max_history : nat) (detect : bool) (events : list Event)
         (clk : Clock) (snap : Snapshot.t),
    let sys := run (init max_history detect) events in
    get_current_snapshot clk sys = Some snap ->
    descending (Snapshot.bids snap) /\ ascending (Snapshot.asks snap) /\
    (length (Snapshot.bids snap) <= 20)%nat /\ (length (Snapshot.asks snap) <= 20)%nat /\
    (forall level, In level (Snapshot.bids snap) -> In level (current_bids sys)) /\
    (forall level, In level (Snapshot.asks snap) -> In level (current_asks sys)) /\
    (forall level, In level (current_bids sys) ->
       In level (Snapshot.bids snap) \/
       (length (Snapshot.bids snap) = 20%nat /\
        forall listed, In listed (Snapshot.bids snap) -> fst level < fst listed)) /\
    (forall level, In level (current_asks sys) ->
       In level (Snapshot.asks snap) \/
       (length (Snapshot.asks snap) = 20%nat /\
        forall listed, In listed (Snapshot.asks snap) -> fst listed < fst level)).
Proof.
  intros mh detect events clk snap sys Hs.
  destruct (FeatureProofs.run_book_invariant distinct_prices
              ltac:(constructor) BookProofs.aggregate_distinct mh detect events)
    as [Db Da].
  fold sys in Db, Da.
  destruct (FeatureProofs.snapshot_sides clk sys snap Hs) as (Eb & Ea & _).
  rewrite Eb, Ea. unfold sorted_bids, sorted_asks.
  pose proof (sorted_bids_descending _ Db) as Sb.
  pose proof (sorted_asks_ascending _ Da) as Sa.
  split; [now apply StronglySorted_firstn|].
  split; [now apply StronglySorted_firstn|].
  split; [apply firstn_le_length|]. split; [apply firstn_le_length|].
  split.
  { intros level Hin. apply firstn_In in Hin. now apply py_sorted_In in Hin. }
  split.
  { intros level Hin. apply firstn_In in Hin. now apply py_sorted_In in Hin. }
  split.
  - intros level Hin. apply (py_sorted_In item_gtb) in Hin.
    exact (top_of_sorted _ 20 _ level Sb Hin).
  - intros level Hin. apply (py_sorted_In item_ltb) in Hin.
    exact (top_of_sorted _ 20 _ level Sa Hin).
Qed.

Lemma snapshot_is_sorted_top_20_witness :
  Ladder.descending
    (Snapshot.bids (FeedExamples.snapshot_of Examples.monday_10am
                      (Feed.run (UnifiedLevel2System.init 1000 false)
                          FeedExamples.two_level_feed))) /\
  Ladder.ascending
    (Snapshot.asks (FeedExamples.snapshot_of Examples.monday_10am
                      (Feed.run (UnifiedLevel2System.init 1000 false)
                          FeedExamples.two_level_feed))).
Proof.
  assert (Hs : UnifiedLevel2System.get_current_snapshot Examples.monday_10am
                 (Feed.run (UnifiedLevel2System.init 1000 false) FeedExamples.two_level_feed)
               = Some (FeedExamples.snapshot_of Examples.monday_10am
                         (Feed.run (UnifiedLevel2System.init 1000 false)
                             FeedExamples.two_level_feed)))
    by (vm_compute; reflexivity).
  destruct (snapshot_is_sorted_top_20 1000 false FeedExamples.two_level_feed
      Examples.monday_10am _ Hs)
    as (Hd & Ha & _).
  split; assumption.
Defined.

End LadderProofs.

Module AggregationProofs.
Import UnifiedLevel2System Ref Aggregation.

Lemma py_sum_app (l1 l2 : list Q) : py_sum (l1 ++ l2) == py_sum l1 + py_sum l2.
Proof.
  induction l1 as [|x l1 IH]; simpl.
  - unfold py_sum at 2. simpl. ring.
  - rewrite !WeightedImbalanceProofs.py_sum_cons, IH. ring.
Qed.

Lemma dict_add_sum (price size : Q) (d : list (Q * Q)) :
  dict_contains price d = true ->
  py_sum (map snd (dict_add price size d)) == py_sum (map snd d) + size.
Proof.
  unfold dict_contains. induction d as [|[p s] d IH]; simpl; intros H; [discriminate|].
  destruct (Qeq_bool p price) eqn:E; simpl.
  - rewrite !WeightedImbalanceProofs.py_sum_cons. ring.
  - simpl in H. rewrite !WeightedImbalanceProofs.py_sum_cons, (IH H). ring.
Qed.

Lemma aggregate_level_sum (book : list (Q * Q)) (level : DOMLevel) :
  py_sum (map snd (aggregate_level book level))
  == py_sum (map snd book) + (if valid_level level then dl_size level else 0).
Proof.
  unfold aggregate_level. fold (valid_level level).
  destruct (valid_level level); [|ring].
  destruct (dict_contains _ book) eqn:E.
  - now apply dict_add_sum.
  - rewrite map_app, py_sum_app. simpl. unfold py_sum at 2. simpl. ring.
Qed.

(** X9.  Aggregation neither loses nor invents size: the sizes of a rebuilt
    side add up to the sizes of the feed levels with positive price and
    size (levels at one rounded price are summed, the others dropped). *)
Theorem aggregation_conserves_size :
  forall levels : list DOMLevel,
    py_sum (map snd (aggregate levels))
    == py_sum (map dl_size (filter valid_level levels)).
Proof.
  intros levels. unfold aggregate.
  assert (H : forall book,
             py_sum (map snd (fold_left aggregate_level levels book))
             == py_sum (map snd book) + py_sum (map dl_size (filter valid_level levels))).
  { induction levels as [|l levels IH]; intros book; simpl.
    - unfold py_sum at 3. simpl. ring.
    - rewrite IH, aggregate_level_sum.
      destruct (valid_level l); simpl.
      + rewrite WeightedImbalanceProofs.py_sum_cons. ring.
      + ring. }
  rewrite H. unfold py_sum at 1. simpl. ring.
Qed.

Lemma round_half_even_error (y : Q) :
  - (1 # 2) <= inject_Z (round_half_even y) - y /\
  inject_Z (round_half_even y) - y <= 1 # 2.
Proof.
  unfold round_half_even.
  pose proof (Qfloor_le y) as Hlo.
  pose proof (Qlt_floor y) as Hhi.
  rewrite inject_Z_plus in Hhi. change (inject_Z 1) with 1 in Hhi.
  destruct (Qltb (y - inject_Z (Qfloor y)) (1 # 2)) eqn:E1.
  { apply Qltb_lt in E1. split; lra. }
  apply Qltb_ge in E1.
  destruct (Qltb (1 # 2) (y - inject_Z (Qfloor y))) eqn:E2.
  { rewrite inject_Z_plus. change (inject_Z 1) with 1. split; lra. }
  apply Qltb_ge in E2.
  destruct (Z.even (Qfloor y));
    [|rewrite inject_Z_plus; change (inject_Z 1) with 1]; split; lra.
Qed.

Lemma py_round_cents_error (x : Q) :
  - (0.005) <= py_round x 2 - x /\ py_round x 2 - x <= 0.005.
Proof.
  unfold py_round. change (Z.to_pos (10 ^ Z.of_nat 2)) with 100%positive.
  destruct (round_half_even_error (x * inject_Z 100)) as [Hlo Hhi].
  rewrite (Qmake_Qdiv (round_half_even (x * inject_Z 100)) 100).
  set (n := inject_Z (round_half_even (x * inject_Z 100))) in *.
  change (inject_Z (Zpos 100)) with 100 in *.
  assert (E : n / 100 - x == (n - x * 100) / 100) by (field).
  rewrite E. split.
  - apply Qle_shift_div_l; [reflexivity | lra].
  - apply Qle_shift_div_r; [reflexivity | lra].
Qed.

Lemma dict_add_keeps (price size p s : Q) (d : list (Q * Q)) :
  In (p, s) d -> In (p, s) (dict_add price size d) \/ In (p, s + size) (dict_add price size d).
Proof.
  induction d as [|[p0 s0] d IH]; simpl; intros H; [contradiction|].
  destruct (Qeq_bool p0 price).
  - destruct H as [H|H].
    + injection H as -> ->. right. now left.
    + left. now right.
  - destruct H as [H|H].
    + left. now left.
    + destruct (IH H) as [H'|H']; [left | right]; now right.
Qed.

Lemma dict_add_hit (price size : Q) (d : list (Q * Q)) :
  dict_contains price d = true ->
  exists p s, In (p, s) d /\ p == price /\ In (p, s + size) (dict_add price size d).
Proof.
  unfold dict_contains. induction d as [|[p0 s0] d IH]; simpl; intros H; [discriminate|].
  destruct (Qeq_bool p0 price) eqn:E.
  - exists p0, s0. split; [now left|]. split; [now apply Qeq_bool_eq | now left].
  - simpl in H. destruct (IH H) as (p & s & Hin & Hp & Hadd).
    exists p, s. split; [now right|]. split; [exact Hp | now right].
Qed.

Lemma holds_level_step (book : list (Q * Q)) (level : DOMLevel) (price size : Q) :
  holds_level book price size -> holds_level (aggregate_level book level) price size.
Proof.
  intros (p & s & Hin & Hp & Hs). unfold aggregate_level.
  destruct (Qltb 0 (dl_price level)); [|exists p, s; auto].
  destruct (Qltb 0 (dl_size level)) eqn:Ez; [|exists p, s; auto]. cbn [andb].
  apply Qltb_lt in Ez.
  destruct (dict_contains _ book).
  - destruct (dict_add_keeps (py_round (dl_price level) 2) (dl_size level) p s book Hin)
      as [H|H].
    + exists p, s. auto.
    + exists p, (s + dl_size level). split; [exact H|]. split; [exact Hp | lra].
  - exists p, s. split; [apply in_or_app; now left | auto].
Qed.

Lemma holds_level_new (book : list (Q * Q)) (level : DOMLevel) :
  positive_sizes book -> valid_level level = true ->
  holds_level (aggregate_level book level) (py_round (dl_price level) 2) (dl_size level).
Proof.
  intros Hpos Hv. unfold aggregate_level. fold (valid_level level). rewrite Hv.
  destruct (dict_contains _ book) eqn:E.
  - destruct (dict_add_hit _ (dl_size level) book E) as (p & s & Hin & Hp & Hadd).
    exists p, (s + dl_size level). split; [exact Hadd|]. split; [exact Hp|].
    unfold positive_sizes in Hpos. rewrite Forall_forall in Hpos.
    specialize (Hpos _ Hin). simpl in Hpos. lra.
  - exists (py_round (dl_price level) 2), (dl_size level).
    split; [apply in_or_app; right; now left|]. split; [reflexivity | lra].
Qed.

Lemma fold_holds_level (levels : list DOMLevel) (book : list (Q * Q)) (price size : Q) :
  holds_level book price size ->
  holds_level (fold_left aggregate_level levels book) price size.
Proof.
  revert book. induction levels as [|l levels IH]; simpl; intros book H; [exact H|].
  apply IH. now apply holds_level_step.
Qed.

Lemma fold_positive (levels : list DOMLevel) (book : list (Q * Q)) :
  positive_sizes book -> positive_sizes (fold_left aggregate_level levels book).
Proof.
  revert book. induction levels as [|l levels IH]; simpl; intros book H; [exact H|].
  apply IH. now apply BookProofs.aggregate_level_positive.
Qed.

Lemma fold_keys_from_levels (levels : list DOMLevel) (book : list (Q * Q)) (p : Q) :
  In p (map fst (fold_left aggregate_level levels book)) ->
  In p (map fst book) \/
  exists level, In level levels /\ valid_level level = true /\
                p = py_round (dl_price level) 2.
Proof.
  revert book. induction levels as [|l levels IH]; simpl; intros book H; [now left|].
  destruct (IH _ H) as [Hk|(level & Hin & Hv & Hp)].
  - unfold aggregate_level in Hk. fold (valid_level l) in Hk.
    destruct (valid_level l) eqn:Ev; [|now left].
    destruct (dict_contains _ book).
    + rewrite BookProofs.dict_add_keys in Hk. now left.
    + rewrite map_app in Hk. apply in_app_or in Hk.
      destruct Hk as [Hk|Hk]; [now left|]. simpl in Hk.
      destruct Hk as [Hk|[]]. right. exists l. split; [now left|]. split; [exact Ev|].
      now symmetry.
  - right. exists level. split; [now right|]. now split.
Qed.

(** X10.  Every feed level with positive price and size is held by the rebuilt
    side at its price rounded to cents, which is within half a cent of
    the feed's price, with at least its size; and every price of the
    rebuilt side is the rounded price of such a feed level. *)
Theorem aggregation_rounds_to_cents :
  forall levels : list DOMLevel,
    (forall level, In level levels -> valid_level level = true ->
       holds_level (aggregate levels) (py_round (dl_price level) 2) (dl_size level) /\
       - (0.005) <= py_round (dl_price level) 2 - dl_price level /\
       py_round (dl_price level) 2 - dl_price level <= 0.005) /\
    (forall p s, In (p, s) (aggregate levels) ->
       exists level, In level levels /\ valid_level level = true /\
                     p = py_round (dl_price level) 2).
Proof.
  intros levels. split.
  - intros level Hin Hv. split; [|apply py_round_cents_error].
    unfold aggregate. apply in_split in Hin. destruct Hin as (l1 & l2 & ->).
    rewrite fold_left_app. cbn [fold_left].
    apply fold_holds_level. apply holds_level_new; [|exact Hv].
    apply fold_positive. constructor.
  - intros p s Hin. unfold aggregate in Hin.
    destruct (fold_keys_from_levels levels [] p) as [H|H].
    + apply in_map_iff. exists (p, s). now split.
    + simpl in H. contradiction.
    + exact H.
Qed.

End AggregationProofs.

Module NoDataProofs.
Import UnifiedLevel2System Ref Aggregation.

Lemma aggregate_invalid (levels : list DOMLevel) :
  Forall (fun level => valid_level level = false) levels -> aggregate levels = [].
Proof.
  unfold aggregate.
  induction levels as [|l levels IH]; intros H; [reflexivity|].
  inversion H as [|? ? Hl Hrest]; subst. simpl.
  unfold aggregate_level at 2. fold (valid_level l). rewrite Hl. now apply IH.
Qed.

Lemma no_snapshot_no_signal (clk_s clk_q clk_v clk_p : Clock) (sys : UnifiedLevel2System.t) :
  get_current_snapshot clk_s sys = None ->
  get_order_book_features clk_s clk_q sys = Ok None /\
  get_trading_signal clk_s clk_q clk_v clk_p sys = (sys, Ok None).
Proof.
  intros H. unfold get_trading_signal, get_order_book_features. rewrite H. now split.
Qed.

(** X11.  A depth batch one side of which has no level with positive price and
    size wipes the book instead of keeping the previous one: nothing is
    recorded in the history or passed to the detector, and until the next
    batch the snapshot, the features and the trading signal are all
    "no data" ([None]), the signal request leaving the system untouched. *)
Theorem batch_without_a_side_gives_no_data :
  forall (clk : Clock) (sys : UnifiedLevel2System.t) (ticker : Ticker),
    Forall (fun level => valid_level level = false) (domBids ticker) \/
    Forall (fun level => valid_level level = false) (domAsks ticker) ->
    let sys' := _on_ticker_update clk sys ticker in
    order_book_history sys' = order_book_history sys /\
    hidden_detector sys' = hidden_detector sys /\
    signal_generator sys' = signal_generator sys /\
    (forall clk_s, get_current_snapshot clk_s sys' = None) /\
    (forall clk_s clk_q, get_order_book_features clk_s clk_q sys' = Ok None) /\
    (forall clk_s clk_q clk_v clk_p,
       get_trading_signal clk_s clk_q clk_v clk_p sys' = (sys', Ok None)).
Proof.
  intros clk sys ticker H sys'.
  assert (Hempty : aggregate (domBids ticker) = [] \/ aggregate (domAsks ticker) = []).
  { destruct H as [H|H]; [left | right]; now apply aggregate_invalid. }
  assert (Hguard : negb (is_empty (aggregate (domBids ticker)))
                   && negb (is_empty (aggregate (domAsks ticker))) = false).
  { destruct Hempty as [E|E]; rewrite E; simpl; [reflexivity | apply andb_false_r]. }
  assert (Hsnap : forall clk_s, get_current_snapshot clk_s sys' = None).
  { intros clk_s. unfold get_current_snapshot.
    destruct (BookProofs.book_after_update clk sys ticker) as [Eb Ea].
    fold sys' in Eb, Ea. rewrite Eb, Ea.
    destruct Hempty as [E|E]; rewrite E; simpl; [reflexivity | now rewrite orb_true_r]. }
  unfold sys', _on_ticker_update in *. rewrite Hguard in *. cbn [order_book_history
    hidden_detector signal_generator].
  repeat split; try reflexivity.
  - exact Hsnap.
  - intros clk_s clk_q.
    now apply (no_snapshot_no_signal clk_s clk_q clk_s clk_s).
  - intros clk_s clk_q clk_v clk_p. now apply no_snapshot_no_signal.
Qed.

Lemma batch_without_a_side_gives_no_data_witness :
  UnifiedLevel2System.get_current_snapshot Examples.monday_10am
    (UnifiedLevel2System._on_ticker_update Examples.monday_10am Examples.two_level_system
       FeedExamples.one_sided_batch)
  = None.
Proof.
  assert (H : Forall (fun level => Aggregation.valid_level level = false)
                     (domBids FeedExamples.one_sided_batch) \/
              Forall (fun level => Aggregation.valid_level level = false)
                     (domAsks FeedExamples.one_sided_batch)) by (right; constructor).
  apply (batch_without_a_side_gives_no_data Examples.monday_10am Examples.two_level_system
           FeedExamples.one_sided_batch H).
Defined.

End NoDataProofs.

Module ScoreProofs.
Import SignalGenerator Ref.

Lemma round_half_even_between (y : Q) (a b : Z) :
  inject_Z a <= y -> y <= inject_Z b ->
  (a <= round_half_even y <= b)%Z.
Proof.
  intros Ha Hb.
  assert (Hfa : (a <= Qfloor y)%Z).
  { rewrite <- (Qfloor_Z a). now apply Qfloor_resp_le. }
  pose proof (Qfloor_le y) as Hfl.
  assert (Hfb : (Qfloor y <= b)%Z).
  { rewrite Zle_Qle. lra. }
  assert (Hup : 1 # 2 <= y - inject_Z (Qfloor y) -> (Qfloor y + 1 <= b)%Z).
  { intros Hr. destruct (Z.eq_dec (Qfloor y) b) as [E|E]; [|lia].
    rewrite E in Hr. lra. }
  unfold round_half_even.
  destruct (Qltb (y - inject_Z (Qfloor y)) (1 # 2)) eqn:E1; [lia|].
  apply Qltb_ge in E1. specialize (Hup E1).
  destruct (Qltb _ _); [lia|]. destruct (Z.even _); lia.
Qed.

Ltac constant_divisions :=
  unfold Qdiv in *;
  change (/ 10) with (1 # 10) in *;
  change (/ 8) with (1 # 8) in *.

Lemma py_round_tenths_between (c : Q) (a b : Z) :
  inject_Z a / 10 <= c -> c <= inject_Z b / 10 ->
  inject_Z a / 10 <= py_round c 1 /\ py_round c 1 <= inject_Z b / 10.
Proof.
  intros Ha Hb. unfold py_round. change (Z.to_pos (10 ^ Z.of_nat 1)) with 10%positive.
  change (inject_Z (Zpos 10)) with 10.
  assert (H1 : inject_Z a <= c * 10) by (constant_divisions; lra).
  assert (H2 : c * 10 <= inject_Z b) by (constant_divisions; lra).
  destruct (round_half_even_between _ a b H1 H2) as [Hlo Hhi].
  rewrite Zle_Qle in Hlo, Hhi. cbv zeta.
  set (r := round_half_even (c * 10)) in *.
  assert (E : r # 10 == inject_Z r * (1 # 10)).
  { unfold Qeq. simpl. lia. }
  rewrite E. constant_divisions. split; lra.
Qed.

Lemma tenths_lo (c : Q) : 37.5 <= c -> inject_Z 375 / 10 <= c.
Proof. intros H. change (inject_Z 375) with 375. constant_divisions. lra. Qed.

Lemma tenths_hi (c : Q) : c <= 100 -> c <= inject_Z 1000 / 10.
Proof. intros H. change (inject_Z 1000) with 1000. constant_divisions. lra. Qed.

Lemma final_signal_confidence (s : Q) :
  (fst (final_signal s) = NEUTRAL /\ snd (final_signal s) == 30) \/
  (fst (final_signal s) <> NEUTRAL /\
   37.5 <= snd (final_signal s) /\ snd (final_signal s) <= 100).
Proof.
  unfold final_signal.
  destruct (Qle_bool 3 s) eqn:E1; cbn [fst snd].
  - right. split; [discriminate|]. apply Qle_bool_iff in E1.
    assert (Hc : 37.5 <= Qmin (s / 8 * 100) 100 /\ Qmin (s / 8 * 100) 100 <= 100).
    { split; [|apply Q.le_min_r]. apply Q.min_glb; [|lra].
      constant_divisions. lra. }
    destruct Hc as [Hlo Hhi].
    destruct (py_round_tenths_between _ 375 1000 (tenths_lo _ Hlo) (tenths_hi _ Hhi))
        as [Rlo Rhi].
      change (inject_Z 375) with 375 in Rlo. change (inject_Z 1000) with 1000 in Rhi.
      constant_divisions. split; lra.
  - destruct (Qle_bool s (-3)) eqn:E2; cbn [fst snd].
    + right. split; [discriminate|]. apply Qle_bool_iff in E2.
      assert (Hc : 37.5 <= Qmin (Qabs s / 8 * 100) 100 /\
                   Qmin (Qabs s / 8 * 100) 100 <= 100).
      { split; [|apply Q.le_min_r]. apply Q.min_glb; [|lra].
        rewrite (Qabs_neg s) by lra. constant_divisions. lra. }
      destruct Hc as [Hlo Hhi].
      destruct (py_round_tenths_between _ 375 1000 (tenths_lo _ Hlo) (tenths_hi _ Hhi))
        as [Rlo Rhi].
      change (inject_Z 375) with 375 in Rlo. change (inject_Z 1000) with 1000 in Rhi.
      constant_divisions. split; lra.
    + left. split; reflexivity.
Qed.



End ScoreProofs.

Module HiddenFlagProofs.
Import HiddenOrderDetector.

Lemma side_volume_nonneg (side : TradeSide) (ts : list Trade) :
  Forall (fun tr => 0 <= t_size tr) ts -> 0 <= side_volume side ts.
Proof.
  intros H. unfold side_volume. apply FeatureProofs.py_sum_nonneg.
  rewrite Forall_map. apply Forall_forall. intros tr Hin.
  apply filter_In in Hin. rewrite Forall_forall in H. now apply H.
Qed.

Lemma volume_metrics_nonneg (clk : Clock) (d : HiddenOrderDetector.t) (seconds : Z)
      (vm : VolumeMetrics) :
  Forall (fun tr => 0 <= t_size tr) (trades d) ->
  calculate_volume_metrics clk d seconds = Some vm ->
  0 <= buy_volume vm /\ 0 <= sell_volume vm.
Proof.
  intros H. unfold calculate_volume_metrics.
  destruct (trades d) as [|tr0 ts] eqn:Et; [discriminate|].
  set (recent := filter _ (tr0 :: ts)).
  assert (Hr : Forall (fun tr => 0 <= t_size tr) recent).
  { apply Forall_forall. intros tr Hin. apply filter_In in Hin.
    rewrite Forall_forall in H. now apply H. }
  destruct recent as [|r0 rs] eqn:Er; [discriminate|].
  intros E. injection E as <-. cbn [buy_volume sell_volume].
  split; now apply side_volume_nonneg.
Qed.

(** X13.  When no recorded trade has a negative size, a detection never flags a
    hidden buyer and a hidden seller together.  A flagged buyer stands for
    a positive sell volume with a price change above -0.5%, HIGH exactly
    when the price rose; a flagged seller for a positive buy volume with a
    price change below 0.5%, HIGH exactly when the price fell. *)
Theorem hidden_buyer_and_seller_exclude_each_other :
  forall (clk_v clk_p : Clock) (d : HiddenOrderDetector.t) (r : HiddenResults),
    Forall (fun tr => 0 <= t_size tr) (trades d) ->
    detect_hidden_orders clk_v clk_p d = Ok r ->
    (hidden_buyer r = None \/ hidden_seller r = None) /\
    (forall hb, hidden_buyer r = Some hb ->
       0 < hf_volume hb /\ -0.005 < hf_price_change hb /\
       (hf_strength hb = HIGH <-> 0 < hf_price_change hb)) /\
    (forall hs, hidden_seller r = Some hs ->
       0 < hf_volume hs /\ hf_price_change hs < 0.005 /\
       (hf_strength hs = HIGH <-> hf_price_change hs < 0)).
Proof.
  intros clk_v clk_p d r Hsizes. unfold detect_hidden_orders.
  destruct (_ || _).
  { intros E. injection E as <-. cbn. repeat split; try (now left); discriminate. }
  destruct (calculate_price_change clk_p d 30) as [pc|e]; cbn [bind]; [|discriminate].
  destruct (detect_iceberg_orders d) as [ice|e]; cbn [bind]; [|discriminate].
  destruct (calculate_volume_metrics clk_v d 30) as [vm|] eqn:Ev.
  2:{ intros E. injection E as <-. cbn. repeat split; try (now left); discriminate. }
  destruct pc as [pc|].
  2:{ intros E. injection E as <-. cbn. repeat split; try (now left); discriminate. }
  destruct (volume_metrics_nonneg clk_v d 30 vm Hsizes Ev) as [Hb Hs].
  intros E. injection E as <-. cbn [hidden_buyer hidden_seller].
  destruct (Qltb (buy_volume vm * 1.5) (sell_volume vm)) eqn:E1;
    destruct (Qltb (-0.005) pc) eqn:E2;
    destruct (Qltb (sell_volume vm * 1.5) (buy_volume vm)) eqn:E3;
    destruct (Qltb pc 0.005) eqn:E4; cbn [andb];
    try apply Qltb_lt in E1; try apply Qltb_lt in E2;
    try apply Qltb_lt in E3; try apply Qltb_lt in E4;
    try (exfalso; lra);
    (split; [first [now left | now right]|]);
    (split; intros fl Hfl; try discriminate; injection Hfl as <-;
     cbn [hf_volume hf_price_change hf_strength]);
    (split; [lra|]); (split; [assumption|]).
  all: match goal with
       | |- (if Qltb ?a ?b then _ else _) = HIGH <-> _ =>
           destruct (Qltb a b) eqn:E5;
           [apply Qltb_lt in E5; split; [intros _; exact E5 | reflexivity]
           |apply Qltb_ge in E5; split; [discriminate | intros; exfalso; lra]]
       end.
Qed.

Lemma hidden_buyer_and_seller_exclude_each_other_witness :
  hidden_buyer (FeedExamples.results_of (HiddenOrderDetector.detect_hidden_orders
      Examples.monday_10am
                              Examples.monday_10am Examples.absorbing_detector)) = None \/
  hidden_seller (FeedExamples.results_of (HiddenOrderDetector.detect_hidden_orders
      Examples.monday_10am
                               Examples.monday_10am Examples.absorbing_detector)) = None.
Proof.
  assert (Hs : Forall (fun tr => 0 <= t_size tr)
                      (HiddenOrderDetector.trades Examples.absorbing_detector)).
  { vm_compute HiddenOrderDetector.trades. repeat constructor; vm_compute; discriminate. }
  assert (H : HiddenOrderDetector.detect_hidden_orders Examples.monday_10am
                Examples.monday_10am Examples.absorbing_detector
              = Ok (FeedExamples.results_of (HiddenOrderDetector.detect_hidden_orders
                  Examples.monday_10am
                                  Examples.monday_10am Examples.absorbing_detector)))
    by (vm_compute; reflexivity).
  apply (hidden_buyer_and_seller_exclude_each_other _ _ _ _ Hs H).
Defined.

End HiddenFlagProofs.

Module ScoreBoundProofs.
Import SignalGenerator Ref.

Lemma queue_rule_bound (q : Q) (st : Q * list Reason) (b : Q) :
  - b <= fst st <= b ->
  - (b + 3) <= fst (queue_rule q st) <= b + 3 /\
  (length (snd (queue_rule q st)) <= length (snd st) + 1)%nat.
Proof.
  destruct st as [s rs]. unfold queue_rule. cbn [fst snd]. intros H.
  repeat (destruct (Qltb _ _)); cbn [fst snd]; rewrite ?length_app; cbn [length];
    (split; [split; lra | lia]).
Qed.

Lemma weighted_rule_bound (w : Q) (st : Q * list Reason) (b : Q) :
  - b <= fst st <= b ->
  - (b + 1) <= fst (weighted_rule w st) <= b + 1 /\
  (length (snd (weighted_rule w st)) <= length (snd st) + 1)%nat.
Proof.
  destruct st as [s rs]. unfold weighted_rule. cbn [fst snd]. intros H.
  repeat (destruct (Qltb _ _)); cbn [fst snd]; rewrite ?length_app; cbn [length];
    (split; [split; lra | lia]).
Qed.

Lemma spread_rule_bound (bps : Q) (st : Q * list Reason) (b : Q) :
  - b <= fst st <= b ->
  - b <= fst (spread_rule bps st) <= b /\
  (length (snd (spread_rule bps st)) <= length (snd st) + 1)%nat.
Proof.
  destruct st as [s rs]. unfold spread_rule. cbn [fst snd]. intros H.
  destruct (Qltb _ _); cbn [fst snd]; rewrite ?length_app; cbn [length];
    (split; [split; lra | lia]).
Qed.

Lemma level_rule_bound (su re : list Q) (cp : Q) (st st' : Q * list Reason) (b : Q) :
  - b <= fst st <= b ->
  level_rule su re cp st = Ok st' ->
  - (b + 2) <= fst st' <= b + 2 /\
  (length (snd st') <= length (snd st) + 2)%nat.
Proof.
  destruct st as [s rs]. cbn [fst snd]. intros H. unfold level_rule.
  destruct su as [|x su]; [intros E; injection E as <-; cbn [fst snd]; split; [lra | lia]|].
  destruct re as [|y re]; [intros E; injection E as <-; cbn [fst snd]; split; [lra | lia]|].
  destruct (py_div _ cp) as [ds|e]; cbn [bind]; [|discriminate].
  destruct (py_div _ cp) as [dr|e]; cbn [bind]; [|destruct (Qltb ds 0.005); discriminate].
  destruct (Qltb ds 0.005); destruct (Qltb dr 0.005); intros E; injection E as <-;
    cbn [fst snd]; rewrite ?length_app; cbn [length]; (split; [split; lra | lia]).
Qed.

Lemma iceberg_step_bound (st : Q * list Reason) (ice : Iceberg) (b : Q) :
  - b <= fst st <= b ->
  - (b + 1) <= fst (iceberg_step st ice) <= b + 1 /\
  (length (snd (iceberg_step st ice)) <= length (snd st) + 1)%nat.
Proof.
  destruct st as [s rs]. unfold iceberg_step. cbn [fst snd]. intros H.
  destruct (ice_side ice); cbn [fst snd]; rewrite length_app; cbn [length];
    (split; [split; lra | lia]).
Qed.

Lemma iceberg_steps_bound (l : list Iceberg) (st : Q * list Reason) (b : Q) :
  (length l <= 2)%nat ->
  - b <= fst st <= b ->
  - (b + 2) <= fst (fold_left iceberg_step l st) <= b + 2 /\
  (length (snd (fold_left iceberg_step l st)) <= length (snd st) + 2)%nat.
Proof.
  intros Hl H.
  destruct l as [|i1 [|i2 [|i3 l]]]; cbn [fold_left]; cbn [length] in Hl; [| | |lia].
  - split; [lra | lia].
  - destruct (iceberg_step_bound st i1 b H). split; [lra | lia].
  - destruct (iceberg_step_bound st i1 b H) as [H1 L1].
    destruct (iceberg_step_bound _ i2 (b + 1) H1) as [H2 L2]. split; [lra | lia].
Qed.

Lemma hidden_rule_bound (h : option HiddenResults) (st : Q * list Reason) (b : Q) :
  - b <= fst st <= b ->
  - (b + 4) <= fst (hidden_rule h st) <= b + 4 /\
  (length (snd (hidden_rule h st)) <= length (snd st) + 4)%nat.
Proof.
  destruct st as [s rs]. cbn [fst snd]. intros H. unfold hidden_rule.
  destruct h as [h|]; [|cbn [fst snd]; split; [lra | lia]].
  assert (Hl : (length (firstn 2 (icebergs h)) <= 2)%nat) by apply firstn_le_length.
  destruct (hidden_buyer h); destruct (hidden_seller h); cbv zeta;
    match goal with
    | |- context [fold_left iceberg_step ?l ?st] =>
        assert (H2 : - (b + 2) <= fst st <= b + 2 /\
                     (length (snd st) <= length rs + 2)%nat)
          by (cbn [fst snd]; rewrite ?length_app; cbn [length];
              split; [split; lra | lia]);
        destruct H2 as [H2 L2];
        destruct (iceberg_steps_bound l st (b + 2) Hl H2) as [H3 L3];
        split; [lra | lia]
    end.
Qed.

Lemma session_rule_bound (session : string) (st : Q * list Reason) (b : Q) :
  - b <= fst st <= b ->
  - b <= fst (session_rule session st) <= b /\
  (length (snd (session_rule session st)) <= length (snd st) + 1)%nat.
Proof.
  destruct st as [s rs]. unfold session_rule. cbn [fst snd]. intros H.
  destruct (_ || _); cbn [fst snd]; rewrite ?length_app; cbn [length];
    (split; [split; lra | lia]).
Qed.



End ScoreBoundProofs.

Module SessionProofs.
Import SignalGenerator Ref Sessions.

Lemma round_half_even_mono (x y : Q) :
  x <= y -> (round_half_even x <= round_half_even y)%Z.
Proof.
  intros H. pose proof (Qfloor_resp_le x y H) as Hf.
  pose proof (Qfloor_le x) as Hx. pose proof (Qfloor_le y) as Hy.
  unfold round_half_even.
  destruct (Z.eq_dec (Qfloor x) (Qfloor y)) as [E|E].
  - rewrite <- E in *.
    destruct (Qltb (x - inject_Z (Qfloor x)) (1 # 2)) eqn:X1.
    { repeat (destruct (Qltb _ _)); try (destruct (Z.even _)); lia. }
    apply Qltb_ge in X1.
    destruct (Qltb (y - inject_Z (Qfloor x)) (1 # 2)) eqn:Y1.
    { apply Qltb_lt in Y1. lra. }
    destruct (Qltb (1 # 2) (x - inject_Z (Qfloor x))) eqn:X2.
    { apply Qltb_lt in X2.
      destruct (Qltb (1 # 2) (y - inject_Z (Qfloor x))) eqn:Y2; [lia|].
      apply Qltb_ge in Y2. lra. }
    destruct (Qltb (1 # 2) (y - inject_Z (Qfloor x))); destruct (Z.even _); lia.
  - assert (Hlt : (Qfloor x + 1 <= Qfloor y)%Z) by lia.
    repeat (destruct (Qltb _ _)); repeat (destruct (Z.even _)); lia.
Qed.

Lemma py_round_mono (x y : Q) (n : nat) : x <= y -> py_round x n <= py_round y n.
Proof.
  intros H. unfold py_round. cbv zeta.
  set (scale := Z.to_pos (10 ^ Z.of_nat n)).
  assert (Hs : x * inject_Z (Zpos scale) <= y * inject_Z (Zpos scale)).
  { apply Qmult_le_compat_r; [exact H|]. unfold Qle. simpl. lia. }
  apply round_half_even_mono in Hs. unfold Qle. cbn [Qnum Qden]. nia.
Qed.

Lemma current_price_with_session (f : Features.t) (session : option string) :
  current_price_of (with_session f session) = current_price_of f.
Proof. reflexivity. Qed.

Lemma before_levels_with_session (f : Features.t) (session : option string) :
  before_levels (with_session f session) = before_levels f.
Proof. reflexivity. Qed.

Lemma session_rule_cautious (session : string) (st : Q * list Reason) :
  cautious session ->
  session_rule session st = (fst st * 0.8, snd st ++ [SessionCaution session]).
Proof.
  intros [-> | ->]; destruct st; reflexivity.
Qed.

Lemma session_rule_regular (st : Q * list Reason) : session_rule "REGULAR" st = st.
Proof. destruct st; reflexivity. Qed.

Lemma final_signal_dampened (s : Q) :
  (fst (final_signal (s * 0.8)) = BUY -> fst (final_signal s) = BUY) /\
  (fst (final_signal (s * 0.8)) = SELL -> fst (final_signal s) = SELL) /\
  snd (final_signal (s * 0.8)) <= snd (final_signal s).
Proof.
  unfold final_signal.
  destruct (Qle_bool 3 (s * 0.8)) eqn:A1; destruct (Qle_bool (s * 0.8) (-3)) eqn:A2;
    destruct (Qle_bool 3 s) eqn:B1; destruct (Qle_bool s (-3)) eqn:B2;
    cbn [fst snd];
    try (apply Qle_bool_iff in A1); try (apply Qle_bool_iff in A2);
    try (apply Qle_bool_iff in B1); try (apply Qle_bool_iff in B2);
    try (assert (~ 3 <= s * 0.8) by (rewrite <- Qle_bool_iff; congruence));
    try (assert (~ s * 0.8 <= -3) by (rewrite <- Qle_bool_iff; congruence));
    try (assert (~ 3 <= s) by (rewrite <- Qle_bool_iff; congruence));
    try (assert (~ s <= -3) by (rewrite <- Qle_bool_iff; congruence));
    try (exfalso; lra);
    (split; [intros; first [reflexivity | discriminate]|]);
    (split; [intros; first [reflexivity | discriminate]|]);
    apply py_round_mono.
  - apply Q.min_le_compat_r. ScoreProofs.constant_divisions. lra.
  - apply Q.min_le_compat_r. rewrite (Qabs_neg s), (Qabs_neg (s * 0.8)) by lra.
    ScoreProofs.constant_divisions. lra.
  - apply Q.min_glb; [|lra]. ScoreProofs.constant_divisions. lra.
  - apply Q.min_glb; [|lra]. rewrite (Qabs_neg s) by lra.
    ScoreProofs.constant_divisions. lra.
  - lra.
Qed.



(** X16.  A session other than PREMARKET and AFTERHOURS (CLOSED on a weekend or
    at night, or no session entry at all) is scored exactly as REGULAR
    hours are: the same signal, with the same confidence, is returned. *)
Theorem closed_market_is_scored_as_regular :
  forall (g : SignalGenerator.t) (f : Features.t) (h : option HiddenResults)
         (session : option string),
    (forall name, session = Some name -> ~ cautious name) ->
    generate_signal g (Some (with_session f session)) h
    = generate_signal g (Some (with_session f (Some "REGULAR"))) h.
Proof.
  intros g f h session Hn.
  assert (E : forall st, session_rule (get_default session "REGULAR") st
                         = session_rule "REGULAR" st).
  { intros [s rs]. destruct session as [name|]; [|reflexivity].
    unfold session_rule. cbn [get_default].
    destruct (String.eqb name "PREMARKET") eqn:E1.
    { apply String.eqb_eq in E1. exfalso. apply (Hn name eq_refl). now left. }
    destruct (String.eqb name "AFTERHOURS") eqn:E2.
    { apply String.eqb_eq in E2. exfalso. apply (Hn name eq_refl). now right. }
    reflexivity. }
  unfold generate_signal. cbn [with_session Features.session Features.microprice
    Features.mid_price Features.queue_imbalance Features.weighted_imbalance
    Features.spread_bps].
  destruct (find_support_resistance g) as [g0 [[su re]|e]]; cbn [bind]; [|reflexivity].
  destruct (level_rule su re _ _) as [st|e]; cbn [bind]; [|reflexivity].
  rewrite E. reflexivity.
Qed.

Lemma closed_market_is_scored_as_regular_witness :
  SignalGenerator.generate_signal SignalGenerator.default
    (Some (Sessions.with_session FeedExamples.pressing_features (Some "CLOSED")))
    (Some Examples.buyer_and_iceberg)
  = SignalGenerator.generate_signal SignalGenerator.default
      (Some (Sessions.with_session FeedExamples.pressing_features (Some "REGULAR")))
      (Some Examples.buyer_and_iceberg).
Proof.
  apply closed_market_is_scored_as_regular.
  intros name E. injection E as <-. intros [H|H]; discriminate H.
Defined.

End SessionProofs.

Module ClusterProofs.
Import SignalGenerator.

Lemma insert_by_length {A : Type} (ltb : A -> A -> bool) (x : A) (l : list A) :
  length (insert_by ltb x l) = S (length l).
Proof.
  induction l as [|y l IH]; simpl; [reflexivity|].
  destruct (ltb y x); simpl; [now rewrite IH | reflexivity].
Qed.

Lemma py_sorted_length {A : Type} (ltb : A -> A -> bool) (l : list A) :
  length (py_sorted ltb l) = length l.
Proof.
  induction l as [|x l IH]; [reflexivity|].
  change (py_sorted ltb (x :: l)) with (insert_by ltb x (py_sorted ltb l)).
  rewrite insert_by_length, IH. reflexivity.
Qed.

Lemma py_sum_bounds (l : list Q) (lo hi : Q) :
  Forall (fun x => lo <= x <= hi) l ->
  lo * inject_Z (Z.of_nat (length l)) <= py_sum l /\
  py_sum l <= hi * inject_Z (Z.of_nat (length l)).
Proof.
  induction l as [|x l IH]; intros H.
  - change (inject_Z (Z.of_nat (length (@nil Q)))) with 0.
    change (py_sum []) with 0. split; lra.
  - inversion H as [|? ? [Hx1 Hx2] Hl]; subst. destruct (IH Hl) as [Ilo Ihi].
    rewrite WeightedImbalanceProofs.py_sum_cons.
    cbn [length]. rewrite Nat2Z.inj_succ, <- Z.add_1_r, inject_Z_plus.
    change (inject_Z 1) with 1.
    set (n := inject_Z (Z.of_nat (length l))) in *. clearbody n.
    split; nra.
Qed.

Lemma np_mean_between (lo hi : Q) (l : list Q) :
  l <> [] -> Forall (fun x => lo <= x <= hi) l ->
  exists m, np_mean l = Ok m /\ lo <= m <= hi.
Proof.
  intros Hne H. unfold np_mean, py_div.
  assert (Hlen : (0 < length l)%nat) by (destruct l; [congruence | simpl; lia]).
  rewrite (IcebergProofs.positive_length_nonzero _ Hlen).
  eexists. split; [reflexivity|].
  destruct (py_sum_bounds l lo hi H) as [Hlo Hhi].
  assert (Hn : 0 < inject_Z (Z.of_nat (length l))).
  { unfold Qlt. simpl. lia. }
  split; [apply Qle_shift_div_l | apply Qle_shift_div_r]; assumption.
Qed.

Lemma np_mean_of_positive (l : list Q) :
  l <> [] -> Forall (fun x => 0 < x) l -> exists m, np_mean l = Ok m /\ 0 < m.
Proof.
  intros Hne H.
  destruct (IcebergProofs.np_mean_returns l) as [m Hm].
  { destruct l; [congruence | simpl; lia]. }
  exists m. split; [exact Hm|]. exact (RefillProofs.np_mean_positive l m H Hne Hm).
Qed.

Lemma py_div_nonzero (x y : Q) : ~ y == 0 -> py_div x y = Ok (x / y).
Proof.
  intros H. unfold py_div.
  destruct (Qeq_bool y 0) eqn:E; [apply Qeq_bool_eq in E; contradiction | reflexivity].
Qed.

Lemma local_extrema_exclusive (prices : list Q) (i : nat) :
  local_minimum prices i && local_maximum prices i = false.
Proof.
  unfold local_minimum, local_maximum.
  destruct (Qltb (nth i prices 0) (nth (i - 1) prices 0)) eqn:E1; [|reflexivity].
  destruct (Qltb (nth (i - 1) prices 0) (nth i prices 0)) eqn:E2;
    [|now rewrite andb_false_r].
  apply Qltb_lt in E1, E2. lra.
Qed.

Lemma exclusive_filters {A : Type} (p q : A -> bool) (l : list A) :
  (forall x, p x && q x = false) ->
  (length (filter p l) + length (filter q l) <= length l)%nat.
Proof.
  intros H. induction l as [|x l IH]; simpl; [lia|].
  specialize (H x). destruct (p x); destruct (q x); simpl in *; try discriminate; lia.
Qed.

Lemma picked_prices (P : Q -> Prop) (prices : list Q) (keep : nat -> bool) :
  Forall P prices ->
  Forall P (map (fun i => nth i prices 0)
                (filter keep (seq 2 (length prices - 4)))).
Proof.
  intros H. rewrite Forall_map. apply Forall_forall. intros i Hi.
  apply filter_In in Hi. destruct Hi as [Hi _]. apply in_seq in Hi.
  rewrite Forall_forall in H. apply H, nth_In. lia.
Qed.

Section Clustering.
Variable P : Q -> Prop.
Hypothesis P_positive : forall x, P x -> 0 < x.
Hypothesis P_mean :
  forall l, l <> [] -> Forall P l -> exists m, np_mean l = Ok m /\ P m.

Lemma cluster_fold (tolerance : Q) (rest clusters current : list Q) :
  Forall P rest -> Forall P clusters -> Forall P current -> current <> [] ->
  exists clusters' current',
    fold_left
      (fun acc level =>
         ' (clusters, current_cluster) <- acc ;;
         ratio <- py_div (Qabs (level - last current_cluster 0))
                         (last current_cluster 0) ;;
         if Qltb ratio tolerance then Ok (clusters, current_cluster ++ [level])
         else
           m <- np_mean current_cluster ;;
           Ok (clusters ++ [m], [level]))
      rest (Ok (clusters, current))
    = Ok (clusters', current') /\
    Forall P clusters' /\ Forall P current' /\ current' <> [] /\
    (length clusters' + length current'
     <= length clusters + length current + length rest)%nat.
Proof.
  revert clusters current.
  induction rest as [|level rest IH]; intros clusters current Hr Hc Hcur Hne.
  - exists clusters, current. simpl. repeat split; try assumption. lia.
  - inversion Hr as [|? ? Hlevel Hrest]; subst.
    cbn [fold_left bind].
    assert (Hlast : 0 < last current 0).
    { apply P_positive. rewrite Forall_forall in Hcur. apply Hcur.
      now apply TapeProofs.last_In. }
    rewrite (py_div_nonzero _ (last current 0)) by lra.
    cbn [bind].
    destruct (Qltb (Qabs (level - last current 0) / last current 0) tolerance).
    + destruct (IH clusters (current ++ [level])) as (cl & cu & Hf & H1 & H2 & H3 & H4);
        try assumption.
      { apply Forall_app. split; [assumption | now constructor]. }
      { destruct current; discriminate. }
      exists cl, cu. rewrite Hf. repeat split; try assumption.
      rewrite length_app in H4. simpl in *. lia.
    + destruct (P_mean current Hne Hcur) as (m & Hm & Pm). rewrite Hm. cbn [bind].
      destruct (IH (clusters ++ [m]) [level]) as (cl & cu & Hf & H1 & H2 & H3 & H4);
        try assumption.
      { apply Forall_app. split; [assumption | now constructor]. }
      { now constructor. }
      { discriminate. }
      exists cl, cu. rewrite Hf. repeat split; try assumption.
      rewrite length_app in H4. simpl in *.
      assert (1 <= length current)%nat by (destruct current; [congruence | simpl; lia]).
      lia.
Qed.

Lemma cluster_levels_sound (tolerance : Q) (levels : list Q) :
  levels <> [] -> Forall P levels ->
  exists cs, _cluster_levels levels tolerance = Ok cs /\
             Forall P cs /\ cs <> [] /\ (length cs <= length levels)%nat.
Proof.
  intros Hne H. destruct levels as [|x levels]; [congruence|].
  unfold _cluster_levels.
  pose proof (BookProofs.py_sorted_Forall P Qltb _ H) as Hs.
  pose proof (py_sorted_length Qltb (x :: levels)) as Hl.
  destruct (py_sorted Qltb (x :: levels)) as [|h rest]; [discriminate|].
  cbn [hd tl]. inversion Hs as [|? ? Hh Hrest]; subst.
  destruct (cluster_fold tolerance rest [] [h]) as (cl & cu & Hf & H1 & H2 & H3 & H4);
    try assumption; try (now constructor); try discriminate.
  rewrite Hf. cbn [bind].
  destruct (P_mean cu H3 H2) as (m & Hm & Pm).
  destruct cu as [|c cu]; [congruence|]. rewrite Hm. cbn [bind].
  exists (cl ++ [m]). split; [reflexivity|].
  split; [apply Forall_app; split; [assumption | now constructor]|].
  split; [destruct cl; discriminate|].
  rewrite length_app. simpl in *. lia.
Qed.

Lemma cluster_if_any_sound (levels : list Q) :
  Forall P levels ->
  exists cs, cluster_if_any levels = Ok cs /\
             Forall P cs /\ (length cs <= length levels)%nat.
Proof.
  intros H. destruct levels as [|x levels].
  - exists []. simpl. repeat split; [constructor | lia].
  - destruct (cluster_levels_sound 0.01 (x :: levels)) as (cs & Hc & Hp & _ & Hl);
      [discriminate | exact H|].
    exists cs. unfold cluster_if_any. now rewrite Hc.
Qed.

Lemma find_support_resistance_sound (g : SignalGenerator.t) :
  Forall P (price_history g) ->
  exists g' su re,
    find_support_resistance g = (g', Ok (su, re)) /\
    Forall P su /\ Forall P re /\
    (length su + length re <= length (price_history g) - 4)%nat /\
    price_history g' = price_history g /\
    feature_history g' = feature_history g /\
    lookback_window g' = lookback_window g /\
    ((20 <= length (price_history g))%nat ->
     support_levels g' = su /\ resistance_levels g' = re) /\
    ((length (price_history g) < 20)%nat -> g' = g /\ su = [] /\ re = []).
Proof.
  intros H. unfold find_support_resistance.
  destruct (length (price_history g) <? 20)%nat eqn:E.
  - apply Nat.ltb_lt in E. exists g, [], []. repeat split; try constructor; simpl; lia.
  - apply Nat.ltb_ge in E.
    destruct (cluster_if_any_sound _ (picked_prices P _ (local_minimum (price_history g)) H))
      as (su & Hsu & Psu & Lsu).
    destruct (cluster_if_any_sound _ (picked_prices P _ (local_maximum (price_history g)) H))
      as (re & Hre & Pre & Lre).
    cbv zeta. rewrite Hsu, Hre.
    do 3 eexists. split; [reflexivity|].
    split; [exact Psu|]. split; [exact Pre|].
    rewrite length_map in Lsu, Lre.
    pose proof (exclusive_filters _ _ (seq 2 (length (price_history g) - 4))
                  (local_extrema_exclusive (price_history g))) as Hx.
    rewrite length_seq in Hx.
    repeat split; try reflexivity; lia.
Qed.

End Clustering.





End ClusterProofs.

Module PollingProofs.
Import UnifiedLevel2System Ref Sides Polling.

Lemma with_generator_same (sys : UnifiedLevel2System.t) :
  with_generator sys (signal_generator sys) = sys.
Proof. destruct sys; reflexivity. Qed.

Lemma feed_step_with_generator (sys : UnifiedLevel2System.t) (g : SignalGenerator.t)
      (ev : Feed.Event) :
  Feed.step (with_generator sys g) ev = with_generator (Feed.step sys ev) g.
Proof.
  destruct ev as [clk ticker|tick]; cbn [Feed.step].
  - unfold _on_ticker_update, with_generator.
    cbn [max_history detect_hidden_orders order_book_history current_bids current_asks
         hidden_detector signal_generator last_price last_trade_time].
    destruct (_ && _); reflexivity.
  - unfold _on_trade, with_generator.
    destruct sys as [mh dh history bids asks detector generator lp lt].
    cbn [max_history detect_hidden_orders order_book_history current_bids current_asks
         hidden_detector signal_generator last_price last_trade_time].
    destruct dh; [|reflexivity]. destruct detector; reflexivity.
Qed.

Lemma features_cases (clk_s clk_q : Clock) (sys : UnifiedLevel2System.t) :
  positive_sizes (current_bids sys) -> positive_sizes (current_asks sys) ->
  nonneg_prices (current_bids sys) -> nonneg_prices (current_asks sys) ->
  (get_current_snapshot clk_s sys = None /\
   get_order_book_features clk_s clk_q sys = Ok None) \/
  (exists f m, get_order_book_features clk_s clk_q sys = Ok (Some f) /\
               Features.microprice f = Some m /\ 0 < m) \/
  (get_order_book_features clk_s clk_q sys = Raise ZeroDivisionError /\
   exists snap, get_current_snapshot clk_s sys = Some snap /\
                Snapshot.best_bid snap == 0 /\ Snapshot.best_ask snap == 0).
Proof.
  intros Pb Pa Nb Na.
  destruct (get_current_snapshot clk_s sys) as [snap|] eqn:Hs.
  - destruct (FeatureErrorProofs.features_on_sound_book clk_s clk_q sys snap
                Pb Pa Nb Na Hs) as (Hb & Ha & Hpos & Hzero).
    destruct (Qlt_le_dec 0 (Snapshot.best_bid snap)) as [Lb|Lb];
      [right; left; apply Hpos; now left|].
    destruct (Qlt_le_dec 0 (Snapshot.best_ask snap)) as [La|La];
      [right; left; apply Hpos; now right|].
    assert (Eb : Snapshot.best_bid snap == 0) by lra.
    assert (Ea : Snapshot.best_ask snap == 0) by lra.
    right; right. split; [now apply Hzero|]. exists snap. now repeat split.
  - left. split; [reflexivity|]. unfold get_order_book_features. now rewrite Hs.
Qed.

Lemma add_features_sound (g : SignalGenerator.t) (f : Features.t) (m : Q) :
  generator_sound g -> Features.microprice f = Some m -> 0 < m ->
  generator_sound (SignalGenerator.add_features g f).
Proof.
  intros (Hw & Hp & Hf & Hpos) Hm Hlt. unfold generator_sound, SignalGenerator.add_features.
  cbn [SignalGenerator.lookback_window SignalGenerator.price_history
       SignalGenerator.feature_history]. rewrite Hm, Hw.
  rewrite !BufferProofs.deque_append_length.
  repeat split; try lia.
  apply BookProofs.deque_append_Forall; assumption.
Qed.

Lemma generate_signal_generator (g : SignalGenerator.t) (f : Features.t)
      (h : option HiddenResults) :
  fst (SignalGenerator.generate_signal g (Some f) h)
  = fst (SignalGenerator.find_support_resistance g).
Proof.
  unfold SignalGenerator.generate_signal.
  destruct (SignalGenerator.find_support_resistance g). reflexivity.
Qed.

Lemma find_support_resistance_keeps_sound (g : SignalGenerator.t) :
  generator_sound g ->
  generator_sound (fst (SignalGenerator.find_support_resistance g)) /\
  exists su re, snd (SignalGenerator.find_support_resistance g) = Ok (su, re).
Proof.
  intros (Hw & Hp & Hf & Hpos).
  destruct (ClusterProofs.find_support_resistance_sound (fun x => 0 < x)
              (fun x Hx => Hx) ClusterProofs.np_mean_of_positive g Hpos)
    as (g' & su & re & E & _ & _ & _ & Ep & Ef & Ew & _).
  rewrite E. cbn [fst snd]. split; [|eauto].
  unfold generator_sound. rewrite Ep, Ef, Ew. now repeat split.
Qed.

Lemma level_rule_returns (su re : list Q) (cp : Q) (st : Q * list Reason) :
  ~ cp == 0 -> exists st', SignalGenerator.level_rule su re cp st = Ok st'.
Proof.
  intros Hcp. destruct st as [s rs].
  destruct su as [|x su]; [eexists; reflexivity|].
  destruct re as [|y re]; [eexists; reflexivity|].
  rewrite SignalProofs.level_rule_both by (try discriminate; exact Hcp). eauto.
Qed.

Lemma generate_signal_returns (g : SignalGenerator.t) (f : Features.t)
      (h : option HiddenResults) (m : Q) :
  generator_sound g -> Features.microprice f = Some m -> 0 < m ->
  exists out, snd (SignalGenerator.generate_signal g (Some f) h) = Ok out.
Proof.
  intros Hg Hm Hlt.
  destruct (find_support_resistance_keeps_sound g Hg) as (_ & su & re & E).
  destruct (SignalGenerator.find_support_resistance g) as [g' levels] eqn:Ef.
  cbn [snd] in E. subst levels.
  rewrite (SignalProofs.generate_signal_stages g g' su re f h Ef). cbn [snd].
  destruct (level_rule_returns su re (current_price_of f) (before_levels f)) as [st Hst].
  { unfold current_price_of. rewrite Hm. cbn [get_default]. lra. }
  rewrite Hst. cbn [bind]. eauto.
Qed.

Lemma request_keeps_sound (clk_s clk_q clk_v clk_p : Clock) (sys : UnifiedLevel2System.t) :
  positive_sizes (current_bids sys) -> positive_sizes (current_asks sys) ->
  nonneg_prices (current_bids sys) -> nonneg_prices (current_asks sys) ->
  generator_sound (signal_generator sys) ->
  exists g, fst (get_trading_signal clk_s clk_q clk_v clk_p sys) = with_generator sys g /\
            generator_sound g.
Proof.
  intros Pb Pa Nb Na Hg. unfold get_trading_signal.
  destruct (features_cases clk_s clk_q sys Pb Pa Nb Na)
    as [[_ E]|[(f & m & E & Hm & Hlt)|[E _]]]; rewrite E.
  - exists (signal_generator sys). now rewrite with_generator_same.
  - pose proof (add_features_sound _ f m Hg Hm Hlt) as Hg1.
    cbv zeta.
    destruct (match hidden_detector sys with
              | Some d => _
              | None => _
              end) as [hr|e].
    + pose proof (generate_signal_generator
                    (SignalGenerator.add_features (signal_generator sys) f) f hr) as Eg.
      destruct (SignalGenerator.generate_signal _ (Some f) hr) as [g2 out].
      cbn [fst] in *. subst g2. eexists. split; [reflexivity|].
      now apply find_support_resistance_keeps_sound.
    + eexists. split; [reflexivity | exact Hg1].
  - exists (signal_generator sys). now rewrite with_generator_same.
Qed.

Lemma run_snoc (sys : UnifiedLevel2System.t) (events : list Event) (ev : Event) :
  run sys (events ++ [ev]) = step (run sys events) ev.
Proof. unfold run. now rewrite fold_left_app. Qed.

Lemma feed_run_snoc (sys : UnifiedLevel2System.t) (events : list Feed.Event)
      (ev : Feed.Event) :
  Feed.run sys (events ++ [ev]) = Feed.step (Feed.run sys events) ev.
Proof. unfold Feed.run. now rewrite fold_left_app. Qed.

Lemma feed_books_sound (max_history : nat) (detect : bool) (events : list Feed.Event) :
  let sys := Feed.run (init max_history detect) events in
  positive_sizes (current_bids sys) /\ positive_sizes (current_asks sys) /\
  nonneg_prices (current_bids sys) /\ nonneg_prices (current_asks sys).
Proof.
  intros sys.
  destruct (FeatureProofs.run_book_invariant positive_sizes (Forall_nil _)
              BookProofs.aggregate_positive max_history detect events) as [Pb Pa].
  destruct (FeatureProofs.run_book_invariant nonneg_prices (Forall_nil _)
              FeatureProofs.aggregate_nonneg_prices max_history detect events) as [Nb Na].
  now repeat split.
Qed.

(** A run with signal requests is the run of its feed events, with a
    sound generator. *)
Lemma run_shape (max_history : nat) (detect : bool) (events : list Event) :
  exists g,
    run (init max_history detect) events
    = with_generator (Feed.run (init max_history detect) (feed_of events)) g /\
    generator_sound g.
Proof.
  induction events as [|ev events IH] using rev_ind.
  - exists SignalGenerator.default. split; [reflexivity|].
    unfold generator_sound. simpl. repeat split; try lia. constructor.
  - destruct IH as (g & E & Hg). rewrite run_snoc, E.
    unfold feed_of. rewrite flat_map_app. fold (feed_of events).
    destruct ev as [fe|clk_s clk_q clk_v clk_p]; cbn [flat_map step].
    + rewrite app_nil_r, feed_run_snoc, feed_step_with_generator. eauto.
    + rewrite !app_nil_r.
      destruct (feed_books_sound max_history detect (feed_of events))
        as (Pb & Pa & Nb & Na).
      destruct (request_keeps_sound clk_s clk_q clk_v clk_p
                  (with_generator (Feed.run (init max_history detect) (feed_of events)) g)
                  Pb Pa Nb Na Hg) as (g' & E' & Hg').
      rewrite E'. exists g'. split; [reflexivity | exact Hg'].
Qed.

(** X19.  However depth batches, trade ticks and signal requests interleave, a
    request for a trading signal never fails on an index: it answers, or
    raises ZeroDivisionError.  When no trade tick had a price of zero it
    fails in one case only, a book whose best bid and best ask both are
    0.00.  Throughout, the generator holds at most 50 prices, all of them
    positive. *)
Theorem signal_requests_fail_only_on_zero_prices :
  forall (max_history : nat) (detect : bool) (events : list Event)
         (clk_s clk_q clk_v clk_p : Clock),
    let sys := run (init max_history detect) events in
    let answer := snd (get_trading_signal clk_s clk_q clk_v clk_p sys) in
    generator_sound (signal_generator sys) /\
    ((exists o, answer = Ok o) \/ answer = Raise ZeroDivisionError) /\
    (Forall (fun t => ~ tick_price t == 0) (Feed.ticks_of (feed_of events)) ->
     (exists o, answer = Ok o) \/
     (answer = Raise ZeroDivisionError /\
      exists snap, get_current_snapshot clk_s sys = Some snap /\
                   Snapshot.best_bid snap == 0 /\ Snapshot.best_ask snap == 0)).
Proof.
  intros mh detect events clk_s clk_q clk_v clk_p sys answer.
  destruct (run_shape mh detect events) as (g & E & Hg).
  fold sys in E.
  set (F := Feed.run (init mh detect) (feed_of events)) in *.
  destruct (feed_books_sound mh detect (feed_of events)) as (Pb & Pa & Nb & Na).
  fold F in Pb, Pa, Nb, Na.
  split; [rewrite E; exact Hg|].
  assert (Hfeat := features_cases clk_s clk_q (with_generator F g) Pb Pa Nb Na).
  rewrite <- E in Hfeat.
  assert (Hhidden :
    match hidden_detector sys with
    | Some d =>
        (exists r, HiddenOrderDetector.detect_hidden_orders clk_v clk_p d = Ok r) \/
        (HiddenOrderDetector.detect_hidden_orders clk_v clk_p d = Raise ZeroDivisionError /\
         ~ Forall (fun t => ~ tick_price t == 0) (Feed.ticks_of (feed_of events)))
    | None => True
    end).
  { rewrite E. change (hidden_detector (with_generator F g)) with (hidden_detector F).
    destruct (hidden_detector F) as [d|] eqn:Ed; [|exact I].
    destruct (BufferProofs.run_bounded (feed_of events) _ (BufferProofs.init_bounded mh detect))
      as (_ & _ & Hal).
    fold F in Hal. unfold Feed.on_detector in Hal. rewrite Ed in Hal.
    destruct (TapeProofs.detect_hidden_orders_aligned clk_v clk_p d Hal)
      as [Hok|[Hraise (p & Hin & Hz)]]; [now left|].
    right. split; [exact Hraise|]. intros Hticks.
    assert (Hp : Feed.on_detector
                   (fun d => Forall (fun p => ~ p == 0) (HiddenOrderDetector.price_history d))
                   F).
    { apply (TapeProofs.run_prices (fun p => ~ p == 0)); [|exact Hticks].
      unfold Feed.on_detector. destruct detect; simpl; [constructor | exact I]. }
    unfold Feed.on_detector in Hp. rewrite Ed in Hp.
    rewrite Forall_forall in Hp. exact (Hp p Hin Hz). }
  assert (Hg' : generator_sound (signal_generator sys)) by (rewrite E; exact Hg).
  unfold answer, get_trading_signal.
  destruct Hfeat as [[_ Ef]|[(f & m & Ef & Hm & Hlt)|[Ef Hsnap]]]; rewrite Ef; cbn [snd].
  - split; [left; eauto | intros _; left; eauto].
  - cbv zeta.
    pose proof (add_features_sound _ f m Hg' Hm Hlt) as Hg1.
    destruct (hidden_detector sys) as [d|].
    + destruct Hhidden as [[r Hr]|[Hr Hticks]]; rewrite Hr; cbn [bind snd].
      * destruct (generate_signal_returns _ f (Some r) m Hg1 Hm Hlt) as [out Hout].
        destruct (SignalGenerator.generate_signal _ (Some f) (Some r)) as [g2 o].
        cbn [snd] in *. subst o. cbn [bind].
        split; [left; eauto | intros _; left; eauto].
      * split; [now right | intros H; contradiction].
    + destruct (generate_signal_returns _ f None m Hg1 Hm Hlt) as [out Hout].
      destruct (SignalGenerator.generate_signal _ (Some f) None) as [g2 o].
      cbn [snd] in *. subst o. cbn [bind].
      split; [left; eauto | intros _; left; eauto].
  - split; [now right | intros _; right; split; [reflexivity | exact Hsnap]].
Qed.

End PollingProofs.

Module FlatTapeProofs.
Import UnifiedLevel2System Feed Tape.

Lemma filter_all {A : Type} (f : A -> bool) (l : list A) :
  Forall (fun x => f x = true) l -> filter f l = l.
Proof.
  induction l as [|x l IH]; intros H; [reflexivity|].
  inversion H as [|? ? Hx Hl]; subst. simpl. rewrite Hx. f_equal. now apply IH.
Qed.

Lemma filter_none {A : Type} (f : A -> bool) (l : list A) :
  Forall (fun x => f x = false) l -> filter f l = [].
Proof.
  induction l as [|x l IH]; intros H; [reflexivity|].
  inversion H as [|? ? Hx Hl]; subst. simpl. rewrite Hx. now apply IH.
Qed.

Lemma ticks_of_cons (ev : Event) (events : list Event) :
  ticks_of (ev :: events) = ticks_of [ev] ++ ticks_of events.
Proof. destruct ev; reflexivity. Qed.

Lemma step_flat (p : Q) (cutoff_v cutoff_p : Z) (n : nat)
      (sys : UnifiedLevel2System.t) (ev : Event) :
  flat_system p cutoff_v cutoff_p n sys ->
  Forall (flat_tick p cutoff_v cutoff_p) (ticks_of [ev]) ->
  flat_system p cutoff_v cutoff_p (n + length (ticks_of [ev])) (step sys ev).
Proof.
  intros (Hflag & Hlast & d & Hd & Ht & Hp & Hts & Lt & Ltt & Lp & Lts) Hev.
  destruct ev as [clk ticker|tick]; cbn [step ticks_of flat_map app length].
  - rewrite Nat.add_0_r. unfold _on_ticker_update.
    destruct (_ && _); unfold flat_system;
      cbn [detect_hidden_orders last_price hidden_detector]; rewrite Hd;
      (split; [exact Hflag|]); (split; [exact Hlast|]);
      eexists; (split; [reflexivity|]); unfold flat_detector;
      cbn [HiddenOrderDetector.add_order_book_snapshot HiddenOrderDetector.trades
           HiddenOrderDetector.trade_timestamps
           HiddenOrderDetector.price_history HiddenOrderDetector.timestamp_history];
      now repeat split.
  - cbn [ticks_of flat_map app] in Hev. inversion Hev as [|? ? Htick _]; subst.
    destruct Htick as (Hprice & Hsize & Hv & Hpc).
    unfold _on_trade. rewrite Hflag, Hd. unfold flat_system.
    cbn [detect_hidden_orders last_price hidden_detector].
    split; [reflexivity|]. split; [exact Hprice|].
    eexists. split; [reflexivity|].
    assert (Hside : match last_price sys with
                    | Some lp =>
                        if Qltb lp (tick_price tick) then Buy
                        else if Qltb (tick_price tick) lp then Sell else Buy
                    | None => Buy
                    end = Buy).
    { destruct (last_price sys) as [lp|]; [|reflexivity].
      destruct (Qltb lp (tick_price tick)) eqn:E1; [reflexivity|].
      destruct (Qltb (tick_price tick) lp) eqn:E2; [|reflexivity].
      apply Qltb_lt in E2. lra. }
    rewrite Hside. unfold flat_detector.
    cbn [HiddenOrderDetector.add_trade HiddenOrderDetector.add_price_update
         HiddenOrderDetector.trades HiddenOrderDetector.trade_timestamps
         HiddenOrderDetector.price_history HiddenOrderDetector.timestamp_history].
    rewrite !BufferProofs.deque_append_length, Lt, Ltt, Lp, Lts.
    repeat split; try lia;
      apply BookProofs.deque_append_Forall; try assumption.
    cbn [t_side t_size t_timestamp]. now repeat split.
Qed.

Lemma run_flat (p : Q) (cutoff_v cutoff_p : Z) (events : list Event) (n : nat)
      (sys : UnifiedLevel2System.t) :
  flat_system p cutoff_v cutoff_p n sys ->
  Forall (flat_tick p cutoff_v cutoff_p) (ticks_of events) ->
  flat_system p cutoff_v cutoff_p (n + length (ticks_of events)) (run sys events).
Proof.
  unfold run. revert n sys.
  induction events as [|ev events IH]; intros n sys Hs Ht.
  - simpl. now rewrite Nat.add_0_r.
  - rewrite ticks_of_cons in *.
    apply Forall_app in Ht. destruct Ht as [Hev Hrest].
    rewrite length_app, Nat.add_assoc. cbn [fold_left].
    apply IH; [|exact Hrest]. now apply step_flat.
Qed.

Lemma volume_of_buys (clk : Clock) (d : HiddenOrderDetector.t) :
  HiddenOrderDetector.trades d <> [] ->
  Forall (fun tr => t_side tr = Buy /\ 0 < t_size tr /\
                    (HiddenOrderDetector.cutoff_time clk 30 <= t_timestamp tr)%Z)
         (HiddenOrderDetector.trades d) ->
  exists vm, HiddenOrderDetector.calculate_volume_metrics clk d 30 = Some vm /\
             0 < buy_volume vm /\ sell_volume vm = 0.
Proof.
  intros Hne H. unfold HiddenOrderDetector.calculate_volume_metrics.
  destruct (HiddenOrderDetector.trades d) as [|tr0 ts] eqn:Et; [congruence|].
  rewrite (filter_all _ (tr0 :: ts)).
  2:{ eapply Forall_impl; [|exact H]. intros tr (_ & _ & Hc). now apply Z.leb_le. }
  eexists. split; [reflexivity|]. cbn [buy_volume sell_volume].
  unfold HiddenOrderDetector.side_volume. split.
  - rewrite (filter_all _ (tr0 :: ts)).
    2:{ eapply Forall_impl; [|exact H]. intros tr (Hs & _). now rewrite Hs. }
    apply RefillProofs.py_sum_positive; [|discriminate].
    rewrite Forall_map. eapply Forall_impl; [|exact H]. now intros tr (_ & Hs & _).
  - rewrite (filter_none _ (tr0 :: ts)); [reflexivity|].
    eapply Forall_impl; [|exact H]. intros tr (Hs & _). now rewrite Hs.
Qed.

Lemma price_change_defined (clk : Clock) (d : HiddenOrderDetector.t) :
  (2 <= length (HiddenOrderDetector.price_history d))%nat ->
  (2 <= length (HiddenOrderDetector.timestamp_history d))%nat ->
  Forall (fun ts => (HiddenOrderDetector.cutoff_time clk 30 <= ts)%Z)
         (HiddenOrderDetector.timestamp_history d) ->
  HiddenOrderDetector.calculate_price_change clk d 30 <> Ok None.
Proof.
  intros Lp Lts H. unfold HiddenOrderDetector.calculate_price_change.
  destruct (length (HiddenOrderDetector.price_history d) <? 2)%nat eqn:E1;
    [apply Nat.ltb_lt in E1; lia|].
  rewrite filter_all.
  2:{ apply Forall_forall. intros [i ts] Hin. cbn [snd]. apply Z.leb_le.
      unfold enumerate in Hin. apply in_combine_r in Hin.
      rewrite Forall_forall in H. now apply H. }
  assert (Hl : length (map fst (enumerate (HiddenOrderDetector.timestamp_history d)))
               = length (HiddenOrderDetector.timestamp_history d)).
  { unfold enumerate. rewrite length_map, length_combine, length_seq. lia. }
  rewrite Hl.
  destruct (length (HiddenOrderDetector.timestamp_history d) <? 2)%nat eqn:E2;
    [apply Nat.ltb_lt in E2; lia|].
  destruct (py_index _ _) as [sp|e]; cbn [bind]; [|discriminate].
  destruct (py_index _ _) as [ep|e]; cbn [bind]; [|discriminate].
  destruct (py_div _ _) as [c|e]; cbn [bind]; discriminate.
Qed.

Lemma flat_price_change (clk : Clock) (d : HiddenOrderDetector.t) (p : Q) :
  ~ p == 0 -> detector_aligned d ->
  (2 <= length (HiddenOrderDetector.price_history d))%nat ->
  Forall (fun q => q == p) (HiddenOrderDetector.price_history d) ->
  Forall (fun ts => (HiddenOrderDetector.cutoff_time clk 30 <= ts)%Z)
         (HiddenOrderDetector.timestamp_history d) ->
  exists c, HiddenOrderDetector.calculate_price_change clk d 30 = Ok (Some c) /\ c == 0.
Proof.
  intros Hp Hal Hlen Hprices Hts.
  pose proof (price_change_defined clk d Hlen) as Hdef.
  destruct Hal as [Hal1 Hal2]. rewrite <- Hal2 in Hdef. specialize (Hdef Hlen Hts).
  destruct (TapeProofs.calculate_price_change_aligned clk d 30 (conj Hal1 Hal2))
    as [E|(sp & ep & Hsp & Hep & E)]; [contradiction|].
  rewrite Forall_forall in Hprices.
  pose proof (Hprices sp Hsp) as Esp. pose proof (Hprices ep Hep) as Eep.
  rewrite E. rewrite ClusterProofs.py_div_nonzero by (rewrite Esp; exact Hp).
  cbn [bind]. eexists. split; [reflexivity|].
  rewrite Esp, Eep. field. exact Hp.
Qed.

(** X20.  Ticks at an unchanged price are recorded as buys.  So after ten or
    more recent trade ticks of positive size, all at one price, a
    detection reports a hidden seller of MEDIUM strength (buy volume
    without any price change) and no hidden buyer. *)
Theorem flat_tape_reports_a_hidden_seller :
  forall (max_history : nat) (events : list Event) (clk_v clk_p : Clock) (p : Q)
         (d : HiddenOrderDetector.t),
    ~ p == 0 ->
    Forall (flat_tick p (HiddenOrderDetector.cutoff_time clk_v 30)
                      (HiddenOrderDetector.cutoff_time clk_p 30))
           (ticks_of events) ->
    (10 <= length (ticks_of events))%nat ->
    hidden_detector (run (init max_history true) events) = Some d ->
    Forall (fun tr => t_side tr = Buy) (HiddenOrderDetector.trades d) /\
    exists r hs,
      HiddenOrderDetector.detect_hidden_orders clk_v clk_p d = Ok r /\
      hidden_buyer r = None /\
      hidden_seller r = Some hs /\
      hf_strength hs = MEDIUM /\ 0 < hf_volume hs /\ hf_price_change hs == 0.
Proof.
  intros mh events clk_v clk_p p d Hp Hticks Hn Hd.
  assert (H0 : flat_system p (HiddenOrderDetector.cutoff_time clk_v 30)
                 (HiddenOrderDetector.cutoff_time clk_p 30) 0 (init mh true)).
  { unfold flat_system, flat_detector. simpl.
    split; [reflexivity|]. split; [exact I|].
    eexists. split; [reflexivity|]. repeat split; constructor. }
  destruct (run_flat _ _ _ events 0 _ H0 Hticks)
    as (_ & _ & d' & Hd' & Ht & Hprices & Hts & Lt & Ltt & Lp & Lts).
  rewrite Hd in Hd'. injection Hd' as <-. cbn [Nat.add] in *.
  split. { eapply Forall_impl; [|exact Ht]. now intros tr (Hs & _). }
  assert (Hne : HiddenOrderDetector.trades d <> []).
  { intros E. rewrite E in Lt. simpl in Lt. lia. }
  destruct (volume_of_buys clk_v d Hne Ht) as (vm & Hvm & Hbuy & Hsell).
  destruct (flat_price_change clk_p d p Hp) as (c & Hc & Hc0);
    [split; lia | lia | exact Hprices | exact Hts |].
  destruct (IcebergProofs.detect_iceberg_orders_returns d) as [ice Hice].
  unfold HiddenOrderDetector.detect_hidden_orders.
  assert (Hguard : (length (HiddenOrderDetector.trades d) <? 10)%nat
                   || (length (HiddenOrderDetector.price_history d) <? 10)%nat = false).
  { apply orb_false_iff. split; apply Nat.ltb_ge; lia. }
  rewrite Hguard, Hvm, Hc, Hice. cbn [bind]. rewrite Hsell.
  assert (E1 : Qltb (buy_volume vm * 1.5) 0 = false) by (apply Qltb_ge; lra).
  assert (E2 : Qltb (0 * 1.5) (buy_volume vm) = true) by (apply Qltb_lt; lra).
  assert (E3 : Qltb c 0.005 = true) by (apply Qltb_lt; lra).
  assert (E4 : Qltb c 0 = false) by (apply Qltb_ge; lra).
  rewrite E1, E2, E3, E4. cbn [andb hidden_buyer hidden_seller].
  do 2 eexists. split; [reflexivity|]. cbn [hidden_buyer hidden_seller].
  split; [reflexivity|]. split; [reflexivity|].
  cbn [hf_strength hf_volume hf_price_change]. now repeat split.
Qed.

Lemma flat_tape_reports_a_hidden_seller_witness :
  exists r hs,
    HiddenOrderDetector.detect_hidden_orders Examples.monday_10am Examples.monday_10am
      FeedExamples.flat_tape_detector = Ok r /\
    hidden_buyer r = None /\ hidden_seller r = Some hs /\ hf_strength hs = MEDIUM.
Proof.
  assert (Hp : ~ 100 == 0) by nonzero.
  assert (Ht : Forall (Tape.flat_tick 100
                         (HiddenOrderDetector.cutoff_time Examples.monday_10am 30)
                         (HiddenOrderDetector.cutoff_time Examples.monday_10am 30))
                      (Feed.ticks_of FeedExamples.flat_tape)).
  { vm_compute Feed.ticks_of. unfold Tape.flat_tick.
    repeat constructor; vm_compute; first [reflexivity | discriminate]. }
  assert (Hn : (10 <= length (Feed.ticks_of FeedExamples.flat_tape))%nat) by (vm_compute; lia).
  assert (Hd : UnifiedLevel2System.hidden_detector
                 (Feed.run (UnifiedLevel2System.init 100 true) FeedExamples.flat_tape)
               = Some FeedExamples.flat_tape_detector) by (vm_compute; reflexivity).
  destruct (flat_tape_reports_a_hidden_seller 100 FeedExamples.flat_tape Examples.monday_10am
              Examples.monday_10am 100 FeedExamples.flat_tape_detector Hp Ht Hn Hd)
    as (_ & r & hs & Hr & Hb & Hs & Hm & _).
  exists r, hs. repeat split; assumption.
Defined.

End FlatTapeProofs.

Module ConnectionProofs.
Import Connection.

(** The fields [connect] leaves alone. *)
Lemma try_ports_frame (b : Broker) (ports : list Z) (c : t) (w : World) :
  let c' := fst (fst (try_ports b c w ports)) in
  exchange c' = exchange c /\ contract c' = contract c /\ ticker c' = ticker c /\
  max_reconnect_attempts c' = max_reconnect_attempts c /\
  detect_hidden_orders c' = detect_hidden_orders c /\
  use_extended_hours c' = use_extended_hours c.
Proof.
  revert c w. induction ports as [|p ports IH]; intros c w; cbn [try_ports].
  - now repeat split.
  - destruct (dial b (calls w) p).
    + apply IH.
    + destruct (IH (connected_on c p) (dialled w)) as (H1 & H2 & H3 & H4 & H5 & H6).
      now repeat split.
    + now repeat split.
Qed.

Lemma shifted_dials (b : Broker) (w : World) (p : Z) (ports : list Z) (k : nat)
      (P : DialOutcome -> Prop) :
  P (dial b (calls w) p) ->
  (forall j, (j < k)%nat -> P (dial b (calls (dialled w) + j) (nth j ports 0%Z))) ->
  forall j, (j < S k)%nat -> P (dial b (calls w + j) (nth j (p :: ports) 0%Z)).
Proof.
  intros H0 H [|j] Hj; cbn [nth].
  - now rewrite Nat.add_0_r.
  - replace (calls w + S j)%nat with (calls (dialled w) + j)%nat
      by (cbn [calls dialled]; lia).
    apply H. lia.
Qed.

Lemma try_ports_spec (b : Broker) (ports : list Z) (c : t) (w : World) :
  match try_ports b c w ports with
  | (c', w', true) =>
      exists k, (k < length ports)%nat /\
                dial b (calls w + k) (nth k ports 0%Z) = Accepted /\
                (forall j, (j < k)%nat ->
                           dial b (calls w + j) (nth j ports 0%Z) <> Accepted) /\
                port c' = nth k ports 0%Z /\
                is_connected c' = true /\ reconnect_attempts c' = 0%nat /\
                calls w' = (calls w + k + 1)%nat /\ slept w' = (slept w + 1)%nat
  | (c', w', false) =>
      (forall j, (j < length ports)%nat ->
                 dial b (calls w + j) (nth j ports 0%Z) <> Accepted) /\
      is_connected c' = false /\
      calls w' = (calls w + length ports)%nat /\ slept w' = slept w
  end.
Proof.
  revert c w. induction ports as [|p ports IH]; intros c w; cbn [try_ports].
  - cbn [length]. split; [intros j Hj; lia|]. cbn. repeat split; lia.
  - assert (Hcons :
      forall c0,
        dial b (calls w) p <> Accepted ->
        match try_ports b c0 (dialled w) ports with
        | (c', w', true) =>
            exists k, (k < length (p :: ports))%nat /\
                      dial b (calls w + k) (nth k (p :: ports) 0%Z) = Accepted /\
                      (forall j, (j < k)%nat ->
                                 dial b (calls w + j) (nth j (p :: ports) 0%Z) <> Accepted) /\
                      port c' = nth k (p :: ports) 0%Z /\
                      is_connected c' = true /\ reconnect_attempts c' = 0%nat /\
                      calls w' = (calls w + k + 1)%nat /\ slept w' = (slept w + 1)%nat
        | (c', w', false) =>
            (forall j, (j < length (p :: ports))%nat ->
                       dial b (calls w + j) (nth j (p :: ports) 0%Z) <> Accepted) /\
            is_connected c' = false /\
            calls w' = (calls w + length (p :: ports))%nat /\ slept w' = slept w
        end).
    { intros c0 Hp. specialize (IH c0 (dialled w)).
      destruct (try_ports b c0 (dialled w) ports) as [[c' w'] [|]].
      - destruct IH as (k & Hk & Ha & Hbefore & Hport & Hc & Hr & Hcalls & Hs).
        exists (S k). cbn [length nth]. cbn [calls slept dialled] in *.
        replace (calls w + S k)%nat with (S (calls w) + k)%nat by lia.
        repeat split; try assumption; try lia.
        apply (shifted_dials b w p ports k (fun o => o <> Accepted) Hp Hbefore).
      - destruct IH as (Hnone & Hc & Hcalls & Hs).
        cbn [length]. cbn [calls slept dialled] in *.
        repeat split; try assumption; try lia.
        apply (shifted_dials b w p ports (length ports) (fun o => o <> Accepted) Hp Hnone). }
    destruct (dial b (calls w) p) eqn:E.
    + apply Hcons. discriminate.
    + apply Hcons. discriminate.
    + exists 0%nat. cbn [length nth calls slept dialled sleep connected_on port
                        is_connected reconnect_attempts].
      rewrite Nat.add_0_r. repeat split; try assumption; try lia.
Qed.

Lemma try_ports_settled (b : Broker) (ports : list Z) (c : t) (w : World) :
  settles b ->
  snd (try_ports b c w ports) = false ->
  reconnect_attempts (fst (fst (try_ports b c w ports))) = reconnect_attempts c /\
  port (fst (fst (try_ports b c w ports))) = port c.
Proof.
  intros Hb. revert c w. induction ports as [|p ports IH]; intros c w; cbn [try_ports].
  - now split.
  - destruct (dial b (calls w) p) eqn:E.
    + apply IH.
    + exfalso. exact (Hb _ _ E).
    + cbn [snd]. discriminate.
Qed.

Lemma try_ports_rejected (b : Broker) (ports : list Z) (c : t) (w : World) :
  (forall n p, dial b n p = TypeRejected) ->
  snd (try_ports b c w ports) = false /\
  (ports <> [] -> reconnect_attempts (fst (fst (try_ports b c w ports))) = 0%nat) /\
  (ports = [] ->
   reconnect_attempts (fst (fst (try_ports b c w ports))) = reconnect_attempts c).
Proof.
  intros Hb. revert c w. induction ports as [|p ports IH]; intros c w; cbn [try_ports].
  - repeat split; congruence.
  - rewrite Hb. destruct (IH (connected_on c p) (dialled w)) as (H1 & H2 & H3).
    split; [exact H1|]. split; [|discriminate]. intros _.
    destruct ports as [|q ports]; [now rewrite H3 | apply H2; discriminate].
Qed.

(** X21.  [connect] dials the configured port and then 7497, 7496, 4002 and
    4001, and stops at the first one on which the connection and the
    market-data-type request both go through: it returns [True] exactly
    when there is one, and then the system is connected on that port with
    its reconnection count reset.  After five failures it is marked
    disconnected.  The contract, ticker and exchange are never touched. *)
Theorem connect_takes_the_first_port_that_answers :
  forall (b : Broker) (c : t) (w : World),
    let '(c', w', connected) := connect b c w in
    let ports := [port c; 7497; 7496; 4002; 4001]%Z in
    (if connected then
       exists k, (k < 5)%nat /\
                 dial b (calls w + k) (nth k ports 0%Z) = Accepted /\
                 (forall j, (j < k)%nat ->
                            dial b (calls w + j) (nth j ports 0%Z) <> Accepted) /\
                 port c' = nth k ports 0%Z /\
                 is_connected c' = true /\ reconnect_attempts c' = 0%nat /\
                 calls w' = (calls w + k + 1)%nat
     else
       (forall j, (j < 5)%nat -> dial b (calls w + j) (nth j ports 0%Z) <> Accepted) /\
       is_connected c' = false /\ calls w' = (calls w + 5)%nat) /\
    exchange c' = exchange c /\ contract c' = contract c /\ ticker c' = ticker c.
Proof.
  intros b c w. unfold connect.
  pose proof (try_ports_spec b (ports_to_try c) c w) as Hs.
  pose proof (try_ports_frame b (ports_to_try c) c w) as Hf.
  destruct (try_ports b c w (ports_to_try c)) as [[c' w'] [|]]; cbn [fst] in Hf;
    unfold ports_to_try in Hs; cbn [length] in Hs.
  - destruct Hs as (k & Hk & Ha & Hbefore & Hport & Hc & Hr & Hcalls & _).
    split; [exists k; now repeat split|]. now destruct Hf as (H1 & H2 & H3 & _).
  - destruct Hs as (Hnone & Hc & Hcalls & _).
    split; [now repeat split|]. now destruct Hf as (H1 & H2 & H3 & _).
Qed.

(** The fields [subscribe_market_depth] leaves alone. *)
Lemma try_exchanges_frame (b : Broker) (w : World) (rows : nat) (exchanges : list string)
      (c : t) :
  let c' := fst (try_exchanges b c w rows exchanges) in
  port c' = port c /\ is_connected c' = is_connected c /\
  reconnect_attempts c' = reconnect_attempts c /\
  max_reconnect_attempts c' = max_reconnect_attempts c /\
  detect_hidden_orders c' = detect_hidden_orders c /\
  use_extended_hours c' = use_extended_hours c.
Proof.
  revert c. induction exchanges as [|e exchanges IH]; intros c; cbn [try_exchanges].
  - now repeat split.
  - cbv zeta. destruct (depth b (calls w) e rows).
    + cbn [detect_hidden_orders set_ticker set_contract].
      destruct (detect_hidden_orders c) eqn:Ed.
      * destruct (time_and_sales b (calls w) e);
          [cbn; repeat split; first [reflexivity | assumption]|].
        destruct (IH (set_ticker (set_contract c e) e rows)) as (H1 & H2 & H3 & H4 & H5 & H6).
        cbn in *. repeat split; congruence.
      * cbn; repeat split; first [reflexivity | assumption].
    + destruct (IH (set_contract c e)) as (H1 & H2 & H3 & H4 & H5 & H6).
      cbn in *. repeat split; congruence.
Qed.

Lemma resubscribed_frame (clk_s clk_e : Clock) (b : Broker) (c : t) (w : World) :
  let c' := match contract c with
            | Some _ => fst (subscribe_market_depth clk_s clk_e b c w 20)
            | None => c
            end in
  is_connected c' = is_connected c /\ reconnect_attempts c' = reconnect_attempts c /\
  max_reconnect_attempts c' = max_reconnect_attempts c.
Proof.
  destruct (contract c); [|now repeat split].
  unfold subscribe_market_depth. cbv zeta.
  destruct (try_exchanges_frame b w
              (match UnifiedLevel2System.get_market_session clk_s with
               | PREMARKET | AFTERHOURS => Nat.min 20 10
               | _ => 20%nat
               end) (get_best_exchanges_for_session clk_e) c)
    as (_ & H2 & H3 & H4 & _).
  now repeat split.
Qed.

Lemma backoff_step (a : nat) (hung : bool) (rounds : nat) :
  (Nat.min (5 * 2 ^ a) 60 + (if hung then 2 else 0) + backoff rounds (S a)
   <= backoff (S rounds) a)%nat.
Proof.
  cbn [backoff]. destruct hung; lia.
Qed.

Lemma reconnect_settles (clk_s clk_e : Clock) (b : Broker) :
  settles b ->
  forall (rounds : nat) (c : t) (w : World),
    (max_reconnect_attempts c - reconnect_attempts c <= rounds)%nat ->
    exists c' w' connected,
      reconnect (S rounds) clk_s clk_e b c w = Some (c', w', connected) /\
      (slept w' <= slept w + backoff rounds (reconnect_attempts c) + 1)%nat /\
      (calls w' <= calls w + 5 * rounds)%nat /\
      max_reconnect_attempts c' = max_reconnect_attempts c /\
      (connected = true -> is_connected c' = true /\ reconnect_attempts c' = 0%nat) /\
      (connected = false ->
       (max_reconnect_attempts c' <= reconnect_attempts c')%nat /\
       (c' = c \/ is_connected c' = false)).
Proof.
  intros Hb. induction rounds as [|rounds IH]; intros c w Hr.
  - cbn [reconnect].
    assert (E : (reconnect_attempts c <? max_reconnect_attempts c)%nat = false)
      by (apply Nat.ltb_ge; lia).
    rewrite E. exists c, w, false. split; [reflexivity|].
    apply Nat.ltb_ge in E. repeat split; try lia; try discriminate. now left.
  - cbn [reconnect].
    destruct (reconnect_attempts c <? max_reconnect_attempts c)%nat eqn:E.
    2:{ exists c, w, false. split; [reflexivity|].
        apply Nat.ltb_ge in E. repeat split; try lia; try discriminate. now left. }
    apply Nat.ltb_lt in E. cbv zeta.
    set (c1 := set_reconnect_attempts c (reconnect_attempts c + 1)).
    set (w1 := if hang_up b (calls (sleep w _)) then _ else _).
    assert (Hw1 : calls w1 = calls w /\
                  exists hung : bool,
                    slept w1 = (slept w + Nat.min (5 * 2 ^ reconnect_attempts c) 60
                                + (if hung then 2 else 0))%nat).
    { unfold w1. cbn [reconnect_attempts set_reconnect_attempts c1].
      replace (reconnect_attempts c + 1 - 1)%nat with (reconnect_attempts c) by lia.
      destruct (hang_up b _); cbn [calls slept sleep];
        (split; [reflexivity|]); [exists true | exists false]; lia. }
    destruct Hw1 as (Hcalls1 & hung & Hslept1).
    pose proof (backoff_step (reconnect_attempts c) hung rounds) as Hbk.
    unfold connect.
    pose proof (try_ports_spec b (ports_to_try c1) c1 w1) as Hs.
    pose proof (try_ports_frame b (ports_to_try c1) c1 w1) as Hf.
    pose proof (try_ports_settled b (ports_to_try c1) c1 w1 Hb) as Hset.
    destruct (try_ports b c1 w1 (ports_to_try c1)) as [[c2 w2] [|]];
      cbn [fst snd] in Hf, Hset; unfold ports_to_try in Hs; cbn [length] in Hs;
      destruct Hf as (_ & _ & _ & Hmax & _);
      cbn [max_reconnect_attempts set_reconnect_attempts c1] in Hmax.
    + destruct Hs as (k & Hk & _ & _ & _ & Hc & Hatt & Hcalls & Hslept).
      destruct (resubscribed_frame clk_s clk_e b c2 w2) as (H1 & H2 & H3).
      do 3 eexists. split; [reflexivity|].
      repeat split; try discriminate; try congruence; lia.
    + destruct Hs as (_ & Hc & Hcalls & Hslept).
      destruct (Hset eq_refl) as [Hatt _].
      cbn [reconnect_attempts set_reconnect_attempts c1] in Hatt.
      destruct (IH c2 w2) as (c' & w' & connected & Hrun & Hsl & Hca & Hm & Hyes & Hno);
        [lia|].
      exists c', w', connected. split; [exact Hrun|].
      rewrite Hatt in Hsl.
      replace (reconnect_attempts c + 1)%nat with (S (reconnect_attempts c)) in Hsl by lia.
      split; [lia|]. split; [lia|]. split; [congruence|]. split; [exact Hyes|].
      intros Hfalse. destruct (Hno Hfalse) as [Hle [-> | Hd]];
        (split; [exact Hle | right; assumption]).
Qed.

(** X22.  When no attempt fails after the connection was made, [reconnect]
    returns after at most as many turns of its loop as attempts are left
    (five from a fresh state), having dialled at most five ports and
    slept at most min(5 * 2^k, 60) + 2 seconds in each, plus one second on
    success.  It returns [True] connected, with the reconnection count
    reset; it returns [False] with the attempts used up and, when it
    tried at all, disconnected. *)
Theorem reconnect_returns_within_its_attempts :
  forall (clk_s clk_e : Clock) (b : Broker) (c : t) (w : World),
    settles b ->
    let rounds := (max_reconnect_attempts c - reconnect_attempts c)%nat in
    exists c' w' connected,
      reconnect (S rounds) clk_s clk_e b c w = Some (c', w', connected) /\
      (slept w' <= slept w + backoff rounds (reconnect_attempts c) + 1)%nat /\
      (calls w' <= calls w + 5 * rounds)%nat /\
      (connected = true -> is_connected c' = true /\ reconnect_attempts c' = 0%nat) /\
      (connected = false ->
       (max_reconnect_attempts c <= reconnect_attempts c')%nat /\
       ((reconnect_attempts c < max_reconnect_attempts c)%nat ->
        is_connected c' = false)).
Proof.
  intros clk_s clk_e b c w Hb rounds.
  destruct (reconnect_settles clk_s clk_e b Hb rounds c w (Nat.le_refl _))
    as (c' & w' & connected & Hrun & Hsl & Hca & Hm & Hyes & Hno).
  exists c', w', connected. split; [exact Hrun|].
  split; [exact Hsl|]. split; [exact Hca|]. split; [exact Hyes|].
  intros Hfalse. destruct (Hno Hfalse) as [Hle [-> | Hd]].
  - split; [lia | intros; lia].
  - split; [lia | intros _; exact Hd].
Qed.

Lemma reconnect_returns_within_its_attempts_witness :
  exists c' w' connected,
    Connection.reconnect 6 Examples.monday_10am Examples.monday_10am FeedExamples.unreachable
      FeedExamples.fresh_connection FeedExamples.at_start = Some (c', w', connected) /\
    (Connection.slept w' <= 146)%nat /\ (Connection.calls w' <= 25)%nat.
Proof.
  assert (Hb : Connection.settles FeedExamples.unreachable) by (intros n p; discriminate).
  destruct (reconnect_returns_within_its_attempts Examples.monday_10am Examples.monday_10am
              FeedExamples.unreachable FeedExamples.fresh_connection FeedExamples.at_start Hb)
    as (c' & w' & connected & Hrun & Hsl & Hca & _).
  exists c', w', connected. split; [exact Hrun|].
  split; [exact Hsl | exact Hca].
Defined.

(** X23.  When every attempt connects but then fails on the market-data-type
    request, [connect] has reset the reconnection count before it fails,
    so the loop of [reconnect] never runs out of attempts: it is still
    running after any number of turns. *)
Theorem reconnect_spins_when_the_count_is_reset :
  forall (clk_s clk_e : Clock) (b : Broker) (c : t) (w : World) (fuel : nat),
    (forall n p, dial b n p = TypeRejected) ->
    (reconnect_attempts c < max_reconnect_attempts c)%nat ->
    reconnect fuel clk_s clk_e b c w = None.
Proof.
  intros clk_s clk_e b c w fuel Hb. revert c w.
  induction fuel as [|fuel IH]; intros c w Hlt; [reflexivity|].
  cbn [reconnect]. apply Nat.ltb_lt in Hlt. rewrite Hlt. apply Nat.ltb_lt in Hlt.
  cbv zeta. unfold connect.
  set (c1 := set_reconnect_attempts c (reconnect_attempts c + 1)).
  set (w1 := if hang_up b (calls (sleep w _)) then _ else _).
  destruct (try_ports_rejected b (ports_to_try c1) c1 w1 Hb) as (Hfail & Hzero & _).
  pose proof (try_ports_frame b (ports_to_try c1) c1 w1) as (_ & _ & _ & Hmax & _).
  destruct (try_ports b c1 w1 (ports_to_try c1)) as [[c2 w2] connected].
  cbn [fst snd] in *. subst connected.
  apply IH. rewrite Hzero by discriminate.
  rewrite Hmax. cbn [max_reconnect_attempts set_reconnect_attempts c1]. lia.
Qed.

Lemma reconnect_spins_when_the_count_is_reset_witness :
  Connection.reconnect 1000 Examples.monday_10am Examples.monday_10am FeedExamples.half_open
    FeedExamples.fresh_connection FeedExamples.at_start = None.
Proof.
  apply reconnect_spins_when_the_count_is_reset.
  - intros n p. reflexivity.
  - vm_compute. lia.
Defined.

Lemma serves_frame (b : Broker) (c1 c2 : t) (w : World) (rows : nat) (e : string) :
  detect_hidden_orders c1 = detect_hidden_orders c2 ->
  serves b c1 w rows e = serves b c2 w rows e.
Proof. intros H. unfold serves. now rewrite H. Qed.

Lemma try_exchanges_spec (b : Broker) (w : World) (rows : nat) (exchanges : list string)
      (c : t) :
  match try_exchanges b c w rows exchanges with
  | (c', true) =>
      In (exchange c') exchanges /\ serves b c w rows (exchange c') = true /\
      contract c' = Some (exchange c') /\ ticker c' = Some (exchange c', rows)
  | (c', false) =>
      exchange c' = exchange c /\
      Forall (fun e => serves b c w rows e = false) exchanges /\
      (exchanges <> [] -> contract c' = Some (last exchanges ""))  /\
      (exchanges = [] -> contract c' = contract c)
  end.
Proof.
  revert c. induction exchanges as [|e exchanges IH]; intros c; cbn [try_exchanges].
  - repeat split; [constructor | congruence].
  - assert (Hnext :
      forall c0,
        detect_hidden_orders c0 = detect_hidden_orders c ->
        exchange c0 = exchange c -> contract c0 = Some e ->
        serves b c w rows e = false ->
        match try_exchanges b c0 w rows exchanges with
        | (c', true) =>
            In (exchange c') (e :: exchanges) /\ serves b c w rows (exchange c') = true /\
            contract c' = Some (exchange c') /\ ticker c' = Some (exchange c', rows)
        | (c', false) =>
            exchange c' = exchange c /\
            Forall (fun x => serves b c w rows x = false) (e :: exchanges) /\
            (e :: exchanges <> [] -> contract c' = Some (last (e :: exchanges) "")) /\
            (e :: exchanges = [] -> contract c' = contract c)
        end).
    { intros c0 Hd He Hc Hfail. specialize (IH c0).
      destruct (try_exchanges b c0 w rows exchanges) as [c' [|]].
      - destruct IH as (H1 & H2 & H3 & H4).
        rewrite (serves_frame b c0 c w rows _ Hd) in H2.
        split; [now right|]. now repeat split.
      - destruct IH as (H1 & H2 & H3 & H4).
        split; [congruence|]. split.
        { constructor; [exact Hfail|].
          eapply Forall_impl; [|exact H2]. intros x Hx.
          now rewrite <- (serves_frame b c0 c w rows x Hd). }
        split; [|discriminate]. intros _.
        destruct exchanges as [|e' exchanges].
        + rewrite H4 by reflexivity. exact Hc.
        + apply H3. discriminate. }
    cbv zeta. destruct (depth b (calls w) e rows) eqn:Ed.
    + cbn [detect_hidden_orders set_ticker set_contract].
      destruct (detect_hidden_orders c) eqn:Eh.
      * destruct (time_and_sales b (calls w) e) eqn:Et.
        -- cbn [exchange set_exchange contract ticker]. unfold serves.
           rewrite Ed, Et, Eh. repeat split. now left.
        -- apply Hnext; try reflexivity; try assumption.
           unfold serves. now rewrite Ed, Et, Eh.
      * cbn [exchange set_exchange contract ticker]. unfold serves.
        rewrite Ed, Eh. repeat split. now left.
    + apply Hnext; try reflexivity. unfold serves. now rewrite Ed.
Qed.


End ConnectionProofs.

Module SensitivityProofs.
Import HiddenOrderDetector Sensitivities.

Lemma scan_level_monotone (d1 d2 : HiddenOrderDetector.t) (acc1 acc2 acc1' acc2' : list Iceberg)
      (entry : (BookSide * Q) * list LevelSample) :
  (refresh_count (thresholds d2) <= refresh_count (thresholds d1))%nat ->
  incl acc1 acc2 ->
  scan_level d1 acc1 entry = Ok acc1' ->
  scan_level d2 acc2 entry = Ok acc2' ->
  incl acc1' acc2'.
Proof.
  intros Hle Hincl. destruct entry as [[side price] history]. unfold scan_level.
  destruct (length history <? 5)%nat.
  { intros E1 E2. injection E1 as <-. injection E2 as <-. exact Hincl. }
  set (refills := count_refills (map ls_size history)).
  destruct (refresh_count (thresholds d1) <=? refills)%nat eqn:T1.
  - apply Nat.leb_le in T1.
    assert (T2 : (refresh_count (thresholds d2) <=? refills)%nat = true)
      by (apply Nat.leb_le; lia).
    rewrite T2. destruct (np_mean (map ls_size history)) as [m|e]; cbn [bind];
      [|discriminate].
    intros E1 E2. injection E1 as <-. injection E2 as <-.
    apply incl_app_app; [exact Hincl | apply incl_refl].
  - intros E1. injection E1 as <-.
    destruct (refresh_count (thresholds d2) <=? refills)%nat.
    + destruct (np_mean (map ls_size history)) as [m|e]; cbn [bind]; [|discriminate].
      intros E2. injection E2 as <-. now apply incl_appl.
    + intros E2. injection E2 as <-. exact Hincl.
Qed.

Lemma scan_levels_monotone (d1 d2 : HiddenOrderDetector.t)
      (entries : list ((BookSide * Q) * list LevelSample)) (acc1 acc2 l1 l2 : list Iceberg) :
  (refresh_count (thresholds d2) <= refresh_count (thresholds d1))%nat ->
  incl acc1 acc2 ->
  fold_left (fun acc entry => icebergs <- acc ;; scan_level d1 icebergs entry)
            entries (Ok acc1) = Ok l1 ->
  fold_left (fun acc entry => icebergs <- acc ;; scan_level d2 icebergs entry)
            entries (Ok acc2) = Ok l2 ->
  incl l1 l2.
Proof.
  intros Hle. revert acc1 acc2.
  induction entries as [|entry entries IH]; intros acc1 acc2 Hincl; cbn [fold_left bind].
  - intros E1 E2. injection E1 as <-. injection E2 as <-. exact Hincl.
  - destruct (IcebergProofs.scan_level_returns d1 acc1 entry) as [a1 H1].
    destruct (IcebergProofs.scan_level_returns d2 acc2 entry) as [a2 H2].
    rewrite H1, H2. apply IH.
    exact (scan_level_monotone d1 d2 acc1 acc2 a1 a2 entry Hle Hincl H1 H2).
Qed.

(** X25.  Of two detectors that saw the same depth batches, the one that asks
    for fewer refills (the more sensitive one: 2 for high, 3 for medium,
    5 for low) reports every iceberg the other reports. *)
Theorem a_more_sensitive_detector_reports_no_less :
  forall (d1 d2 : HiddenOrderDetector.t) (l1 l2 : list Iceberg),
    same_depth_history d1 d2 ->
    (refresh_count (thresholds d2) <= refresh_count (thresholds d1))%nat ->
    detect_iceberg_orders d1 = Ok l1 ->
    detect_iceberg_orders d2 = Ok l2 ->
    incl l1 l2.
Proof.
  intros d1 d2 l1 l2 [Hh Hs] Hle. unfold detect_iceberg_orders. rewrite Hh, Hs.
  destruct (length (order_book_snapshots d2) <? 5)%nat.
  - intros E1 E2. injection E1 as <-. injection E2 as <-. apply incl_refl.
  - apply scan_levels_monotone; [exact Hle | apply incl_refl].
Qed.

Lemma a_more_sensitive_detector_reports_no_less_witness :
  incl (FeedExamples.results_of_scan
          (detect_iceberg_orders (after_refills SensMedium FeedExamples.iceberg_sizes)))
       (FeedExamples.results_of_scan
          (detect_iceberg_orders (after_refills SensHigh FeedExamples.iceberg_sizes))).
Proof.
  assert (Hsame : same_depth_history (after_refills SensMedium FeedExamples.iceberg_sizes)
                    (after_refills SensHigh FeedExamples.iceberg_sizes))
    by (split; vm_compute; reflexivity).
  assert (Hle : (refresh_count (thresholds (after_refills SensHigh FeedExamples.iceberg_sizes))
                 <= refresh_count (thresholds (after_refills SensMedium
                     FeedExamples.iceberg_sizes)))%nat)
    by (vm_compute; lia).
  apply (a_more_sensitive_detector_reports_no_less _ _ _ _ Hsame Hle);
    vm_compute; reflexivity.
Defined.

End SensitivityProofs.

Module SymmetryProofs.
Import UnifiedLevel2System.

Lemma Qeq_bool_comp (x y : Q) : x == y -> Qeq_bool x 0 = Qeq_bool y 0.
Proof.
  intros H. destruct (Qeq_bool x 0) eqn:Ex; destruct (Qeq_bool y 0) eqn:Ey;
    try reflexivity.
  - apply Qeq_bool_eq in Ex. apply Qeq_bool_neq in Ey. exfalso. apply Ey.
    rewrite <- H. exact Ex.
  - apply Qeq_bool_eq in Ey. apply Qeq_bool_neq in Ex. exfalso. apply Ex.
    rewrite H. exact Ey.
Qed.

(** X26.  The queue imbalance never fails, and swapping the two sides of the
    book changes its sign and nothing else. *)
Theorem queue_imbalance_is_antisymmetric :
  forall (clk : Clock) (bids asks : list (Q * Q)) (levels : nat),
    exists q q',
      calculate_queue_imbalance clk bids asks levels = Ok q /\
      calculate_queue_imbalance clk asks bids levels = Ok q' /\
      q' == - q.
Proof.
  intros clk bids asks levels. unfold calculate_queue_imbalance.
  rewrite (orb_comm (is_empty asks)).
  destruct (is_empty bids || is_empty asks).
  { exists 0, 0. repeat split; reflexivity. }
  rewrite (Nat.min_comm (length asks)). cbv zeta.
  set (n := if extended_session (get_market_session clk) then _ else levels).
  set (bp := pressure bids n). set (ap := pressure asks n).
  assert (E : bp + ap == ap + bp) by ring.
  rewrite <- (Qeq_bool_comp _ _ E).
  destruct (Qeq_bool (bp + ap) 0) eqn:Ez.
  { exists 0, 0. repeat split; reflexivity. }
  unfold py_div. rewrite <- (Qeq_bool_comp _ _ E), Ez.
  do 2 eexists. split; [reflexivity|]. split; [reflexivity|].
  apply Qeq_bool_neq in Ez. field.
  repeat split; intros H; apply Ez; lra.
Qed.

End SymmetryProofs.

Module WindowProofs.
Import HiddenOrderDetector Window.

Lemma sides_partition (ts : list Trade) :
  side_volume Buy ts + side_volume Sell ts == py_sum (map t_size ts) /\
  (length (filter (fun tr => trade_side_eqb (t_side tr) Buy) ts)
   + length (filter (fun tr => trade_side_eqb (t_side tr) Sell) ts) = length ts)%nat.
Proof.
  unfold side_volume. induction ts as [|tr ts [IHv IHn]].
  - split; reflexivity.
  - cbn [filter map length]. destruct (t_side tr); cbn [trade_side_eqb map length];
      rewrite ?WeightedImbalanceProofs.py_sum_cons; (split; [rewrite <- IHv; ring | lia]).
Qed.

(** X27.  The volume metrics are undefined exactly when no recorded trade is
    inside the window.  Otherwise the buy and the sell volume add up to
    the size traded inside the window, the buy and sell counts to the
    number of trades there, and the net volume is their difference. *)
Theorem volume_metrics_split_the_window :
  forall (clk : Clock) (d : HiddenOrderDetector.t) (seconds : Z),
    match calculate_volume_metrics clk d seconds with
    | None => recent_trades clk d seconds = []
    | Some vm =>
        recent_trades clk d seconds <> [] /\
        buy_volume vm + sell_volume vm
        == py_sum (map t_size (recent_trades clk d seconds)) /\
        (buy_trades vm + sell_trades vm = length (recent_trades clk d seconds))%nat /\
        net_volume vm = buy_volume vm - sell_volume vm
    end.
Proof.
  intros clk d seconds. unfold calculate_volume_metrics, recent_trades.
  destruct (trades d) as [|tr0 ts]; [reflexivity|].
  set (recent := filter _ (tr0 :: ts)).
  destruct (sides_partition recent) as [Hv Hn].
  destruct recent as [|r0 rs] eqn:Er; [reflexivity|].
  cbn [buy_volume sell_volume buy_trades sell_trades net_volume].
  split; [discriminate|]. split; [exact Hv|]. split; [exact Hn | reflexivity].
Qed.

End WindowProofs.
